(** * jiant task layer ([src/tasks.py]): a shallow embedding

    The definitions follow the source file: the Python primitives the
    tasks rely on, exceptions and generators, the task registry, the field
    library as data, the constructors and [get_metrics] of every task
    class, the edge-probing task, the tasks that stream their corpus from
    disk and the diagnostic task.  The theorems come after the definitions,
    grouped the same way. *)

From Stdlib Require Import String Ascii List ZArith Lia Bool.
From stdpp Require Import base gmap strings list.

Local Open Scope string_scope.
Local Open Scope Z_scope.

(** ** Python primitives *)

Module Py.

(** [str.startswith]. *)
Definition startswith (s p : string) : bool := String.prefix p s.

(** ASCII code points for which [str.isspace] holds: TAB, LF, VT, FF, CR,
    the four separators FS..US and the blank. *)
Definition isspace (c : ascii) : bool :=
  let n := nat_of_ascii c in
  ((9 <=? n)%nat && (n <=? 13)%nat) || ((28 <=? n)%nat && (n <=? 32)%nat).

Fixpoint lstrip (s : string) : string :=
  match s with
  | String c s' => if isspace c then lstrip s' else s
  | EmptyString => EmptyString
  end.

(** Drops trailing white space: a character is kept when it is not white
    space or when something that is kept follows it. *)
Fixpoint rstrip (s : string) : string :=
  match s with
  | String c s' =>
      match rstrip s' with
      | EmptyString => if isspace c then EmptyString else String c EmptyString
      | r => String c r
      end
  | EmptyString => EmptyString
  end.

(** [str.strip()] without argument. *)
Definition strip (s : string) : string := rstrip (lstrip s).

(** [str.split(sep)] for a one-character separator: empty fields are kept,
    the result is never empty. *)
Fixpoint split_on (sep : ascii) (s : string) : list string :=
  match s with
  | EmptyString => [EmptyString]
  | String c s' =>
      if Ascii.eqb c sep then EmptyString :: split_on sep s'
      else match split_on sep s' with
           | w :: ws => String c w :: ws
           | [] => [String c EmptyString]
           end
  end.

(** [str.split()] without argument: runs of white space separate the
    fields and no empty field is produced.  [cur] is the field being read,
    reversed. *)
Fixpoint split_ws_aux (cur : list ascii) (s : string) : list string :=
  let flush rest :=
    match cur with
    | [] => rest
    | _ :: _ => string_of_list_ascii (rev cur) :: rest
    end in
  match s with
  | EmptyString => flush []
  | String c s' =>
      if isspace c then flush (split_ws_aux [] s')
      else split_ws_aux (c :: cur) s'
  end.

Definition split_ws (s : string) : list string := split_ws_aux [] s.

(** [str.replace(old, new)] for a non-empty [old]: leftmost occurrences,
    not overlapping.  With an empty [old] the string is returned as it is
    (Python would interleave [new]; the tasks never do that). *)
Fixpoint replace_fuel (fuel : nat) (old new s : string) : string :=
  match fuel with
  | O => s
  | S fuel' =>
      match s with
      | EmptyString => EmptyString
      | String c s' =>
          if String.prefix old s
          then new +:+ replace_fuel fuel' old new
                         (String.substring (String.length old)
                            (String.length s - String.length old) s)
          else String c (replace_fuel fuel' old new s')
      end
  end.

Definition replace (old new s : string) : string :=
  match old with
  | EmptyString => s
  | _ => replace_fuel (S (String.length s)) old new s
  end.

(** [list.count]. *)
Definition count (x : string) (l : list string) : nat :=
  length (filter (fun y => String.eqb y x = true) l).

(** A dict with string keys, in insertion order.  [d[k] = v] overwrites
    the value of a key that is present, in place, and appends otherwise. *)
Definition dict (V : Type) : Type := list (string * V).

Fixpoint dict_set {V} (d : dict V) (k : string) (v : V) : dict V :=
  match d with
  | [] => [(k, v)]
  | (k', v') :: d' =>
      if String.eqb k' k then (k', v) :: d' else (k', v') :: dict_set d' k v
  end.

Fixpoint dict_get {V} (d : dict V) (k : string) : option V :=
  match d with
  | [] => None
  | (k', v') :: d' => if String.eqb k' k then Some v' else dict_get d' k
  end.

Definition dict_keys {V} (d : dict V) : list string := map fst d.

(** Truth value of a string: the empty string is false. *)
Definition str_truthy (s : string) : bool :=
  match s with EmptyString => false | String _ _ => true end.

Definition digit_val (c : ascii) : option Z :=
  let n := nat_of_ascii c in
  if ((48 <=? n)%nat && (n <=? 57)%nat)%bool
  then Some (Z.of_nat n - 48) else None.

(** The digits of a decimal literal; one underscore may stand between two
    digits.  [prev_digit] tells whether the last character was a digit. *)
Fixpoint int_digits (acc : Z) (prev_digit : bool) (s : string) : option Z :=
  match s with
  | EmptyString => if prev_digit then Some acc else None
  | String c s' =>
      match digit_val c with
      | Some d => int_digits (10 * acc + d) true s'
      | None =>
          if (Ascii.eqb c "_" && prev_digit)%bool
          then int_digits acc false s' else None
      end
  end.

(** [int(s)] for a string of ASCII characters; [None] is [ValueError]. *)
Definition int (s : string) : option Z :=
  match strip s with
  | String "+" r => int_digits 0 false r
  | String "-" r => option_map Z.opp (int_digits 0 false r)
  | r => int_digits 0 false r
  end.

End Py.

(** ** Exceptions and generators *)

Inductive exn : Type :=
  | AssertionError | AttributeError | FileNotFoundError | IndexError
  | KeyError | NotImplementedError | OverflowError | TypeError | ValueError.

Inductive result (A : Type) : Type :=
  | Ok (a : A)
  | Raise (e : exn).
Arguments Ok {A} a.
Arguments Raise {A} e.

Definition rbind {A B} (r : result A) (k : A -> result B) : result B :=
  match r with Ok a => k a | Raise e => Raise e end.

Notation "'let*' x ':=' r 'in' k" := (rbind r (fun x => k))
  (at level 10, x name, r at level 100, k at level 200).

Definition of_option {A} (e : exn) (o : option A) : result A :=
  match o with Some a => Ok a | None => Raise e end.

(** What a generator does when it is run to its end: the items it yields,
    in order, and the exception that stopped it, if one did. *)
Record gen (A : Type) : Type := Gen { yielded : list A; raised : option exn }.
Arguments Gen {A} yielded raised.
Arguments yielded {A} g.
Arguments raised {A} g.

Definition gen_done {A} : gen A := Gen [] None.
Definition gen_raise {A} (e : exn) : gen A := Gen [] (Some e).

(** [yield x] followed by the rest of the generator body. *)
Definition gen_yield {A} (x : A) (rest : gen A) : gen A :=
  Gen (x :: yielded rest) (raised rest).

(** One generator body after another: the second runs only when the first
    ends without an exception. *)
Definition gen_seq {A} (g1 g2 : gen A) : gen A :=
  match raised g1 with
  | Some e => g1
  | None => Gen (yielded g1 ++ yielded g2)%list (raised g2)
  end.

(** [for x in xs: body(x)] inside a generator, over a list. *)
Fixpoint gen_for {A B} (xs : list A) (body : A -> gen B) : gen B :=
  match xs with
  | [] => gen_done
  | x :: xs' => gen_seq (body x) (gen_for xs' body)
  end.

(** [for x in g: body(x)] inside a generator, over another generator: the
    exception of [g] surfaces after the items before it were handled. *)
Definition gen_for_gen {A B} (g : gen A) (body : A -> gen B) : gen B :=
  gen_seq (gen_for (yielded g) body)
          (match raised g with Some e => gen_raise e | None => gen_done end).

(** [list(g)]: the items, or the exception. *)
Definition gen_to_list {A} (g : gen A) : result (list A) :=
  match raised g with Some e => Raise e | None => Ok (yielded g) end.

(** An iterable held in an attribute: a list can be walked any number of
    times, a generator object only once. *)
Inductive iterable (A : Type) : Type :=
  | PyList (l : list A)
  | PyGenerator (rest : gen A).
Arguments PyList {A} l.
Arguments PyGenerator {A} rest.

(** Walking an iterable: the items seen and the iterable as it is left. *)
Definition iterate {A} (it : iterable A) : gen A * iterable A :=
  match it with
  | PyList l => (Gen l None, PyList l)
  | PyGenerator g => (g, PyGenerator gen_done)
  end.

(** [len(x)]: generators have no length. *)
Definition py_len {A} (it : iterable A) : result nat :=
  match it with
  | PyList l => Ok (length l)
  | PyGenerator _ => Raise TypeError
  end.

(** ** The task classes of the module *)

Inductive TaskClass : Type :=
  | Task | ClassificationTask | RegressionTask
  | SingleClassificationTask | PairClassificationTask
  | EdgeProbingTask
  | PairRegressionTask | PairOrdinalRegressionTask
  | SequenceGenerationTask | RankingTask
  | LanguageModelingTask | WikiTextLMTask | WikiText103LMTask | BWBLMTask
  | SSTTask | RedditTask | RedditPairClassificationTask
  | MTDataPairClassificationTask
  | CoLATask | QQPTask | QQPAltTask
  | MultiNLISingleGenreTask | MultiNLIFictionTask | MultiNLISlateTask
  | MultiNLIGovernmentTask | MultiNLITelephoneTask | MultiNLITravelTask
  | MRPCTask | STSBTask | STSBAltTask | SNLITask | MultiNLITask
  | MultiNLIDiagnosticTask
  | NLITypeProbingTask | NLITypeProbingTaskNeg | NLITypeProbingTaskPrepswap
  | NPSTask | NLITypeProbingAltTask | MultiNLIAltTask
  | RTETask | QNLITask | QNLIAltTask | WNLITask | JOCITask
  | MTTask | MTDebug | MTTaskEnRu | MTTaskEnDe | RedditSeq2SeqTask
  | Wiki103Classification | Wiki103Seq2SeqTask
  | DisSentTask | DisSentWikiSingleTask | DisSentWikiBigFullTask
  | WeakGroundedTask | GroundedTask | GroundedSWTask
  | RecastNLITask | RecastPunTask | RecastNERTask | RecastVerbnetTask
  | RecastVerbcornerTask | RecastSentimentTask | RecastFactualityTask
  | RecastWinogenderTask | RecastLexicosynTask | RecastKGTask
  | TaggingTask | CCGTaggingTask.

(** ** The task registry *)

Module Registry.

(** Values passed as keyword options to [register_task]. *)
Inductive kwval : Type :=
  | KStr (s : string)
  | KInt (z : Z)
  | KBool (b : bool)
  | KDict (d : Py.dict string).

(** A registry entry is a 2-tuple or a 3-tuple. *)
Inductive entry : Type :=
  | Entry2 (cls : TaskClass) (rel_path : string)
  | Entry3 (cls : TaskClass) (rel_path : string) (kw : Py.dict kwval).

Definition entry_arity (e : entry) : nat :=
  match e with Entry2 _ _ => 2 | Entry3 _ _ _ => 3 end.

Definition entry_cls (e : entry) : TaskClass :=
  match e with Entry2 c _ | Entry3 c _ _ => c end.

Definition entry_rel_path (e : entry) : string :=
  match e with Entry2 _ p | Entry3 _ p _ => p end.

Definition entry_kw (e : entry) : option (Py.dict kwval) :=
  match e with Entry2 _ _ => None | Entry3 _ _ kw => Some kw end.

(** Truth value of a dict: an empty dict is false. *)
Definition dict_truthy {V} (d : Py.dict V) : bool :=
  match d with [] => false | _ :: _ => true end.

(** [entry = (cls, rel_path, kw) if kw else (cls, rel_path)]. *)
Definition make_entry (cls : TaskClass) (rel_path : string)
    (kw : Py.dict kwval) : entry :=
  if dict_truthy kw then Entry3 cls rel_path kw else Entry2 cls rel_path.

(** [register_task(name, rel_path, **kw)(cls)]: the decorator stores the
    entry in the global [REGISTRY] and hands the class back. *)
Definition register_task (name rel_path : string) (kw : Py.dict kwval)
    (cls : TaskClass) (REGISTRY : gmap string entry)
  : TaskClass * gmap string entry :=
  (cls, <[name := make_entry cls rel_path kw]> REGISTRY).

End Registry.

(** ** The field library (AllenNLP), as data *)

Module Allen.

Inductive TokenIndexer : Type :=
  | SingleIdTokenIndexer (namespace : string)
  | ExternalIndexer (id : string).

(** [indexers]: a dict from indexer name to token indexer. *)
Definition Indexers : Type := Py.dict TokenIndexer.

Inductive Token : Type := mkToken (text : string).

#[warnings="-register-all"] Inductive Field : Type :=
  | TextField (tokens : list Token) (token_indexers : Indexers)
  | LabelField (label : Z) (label_namespace : string) (skip_indexing : bool)
  | MetadataField (metadata : Z + string)
  | SpanField (span_start span_end : Z) (sequence_field : Field)
  | ListField (field_list : list Field)
  | MultiLabelField (labels : list string) (label_namespace : string)
      (skip_indexing : bool).

(** An [Instance] wraps the dict of its fields. *)
Definition Instance : Type := Py.dict Field.

(** The metric classes the tasks instantiate. *)
Inductive Scorer : Type :=
  | CategoricalAccuracy
  | BooleanAccuracy
  | F1Measure (positive_label : Z)
  | Average
  | Correlation (corr_type : string)
  | FastMatthews.

Definition START_SYMBOL : string := "@start@".
Definition END_SYMBOL : string := "@end@".

End Allen.

(** [_sentence_to_text_field]. *)
Definition _sentence_to_text_field (sent : list string)
    (indexers : Allen.Indexers) : Allen.Field :=
  Allen.TextField (map Allen.mkToken sent) indexers.

(** ** What the module takes from [utils] and from the run time

    [utils.py] is not part of the sources at hand; the functions and
    constants of it that [tasks.py] calls are an interface. *)

Class Utils : Type := {
  (** [utils.process_sentence(sent, max_seq_len, sos_tok, eos_tok)] *)
  process_sentence : string -> Z -> string -> string -> list string;
  SOS_TOK : string;
  EOS_TOK : string;
  (** [utils.TOKENIZER.__class__.__name__] *)
  tokenizer_name : string;
  (** [utils.load_lines(filename)], [None] when the file cannot be read *)
  load_lines : string -> option (list string);
}.

(** Floating-point numbers and the operations the metric code applies to
    them.  Sums, differences and quotients by a non-zero number always
    have a value, be it an infinity; [math.exp] has none where the
    result is out of range (arguments above about 709.78), and [fexp] is
    [None] there. *)
Class FloatOps : Type := {
  float : Type;
  fadd : float -> float -> float;
  fsub : float -> float -> float;
  fdiv : float -> float -> float;
  fexp : float -> option float;
  float_of_Z : Z -> float;
}.

(** The values a metric dictionary holds. *)
Inductive pynum `{FloatOps} : Type :=
  | PFloat (f : float)
  | PInt (z : Z)
  | PTuple3 (a b c : float).

(** The state of the aggregators, seen through what [get_metric(reset)]
    returns for the scorer stored under an attribute name: a number, or
    for [F1Measure] the triple (precision, recall, f1). *)
Class Aggregators `{FloatOps} : Type := {
  get_metric_value : string -> bool -> float;
  get_metric_prf : string -> bool -> float * float * float;
}.

Section Numbers.
Context `{FloatOps}.

Definition to_float (x : pynum) : result float :=
  match x with
  | PFloat f => Ok f
  | PInt z => Ok (float_of_Z z)
  | PTuple3 _ _ _ => Raise TypeError
  end.

(** [x + y], [x - y], [x / y] on numbers; the metric code only meets
    operands of which one is a float. *)
Definition py_add (x y : pynum) : result pynum :=
  let* a := to_float x in let* b := to_float y in Ok (PFloat (fadd a b)).
Definition py_sub (x y : pynum) : result pynum :=
  let* a := to_float x in let* b := to_float y in Ok (PFloat (fsub a b)).
Definition py_div (x y : pynum) : result pynum :=
  let* a := to_float x in let* b := to_float y in Ok (PFloat (fdiv a b)).

(** [math.exp]: [OverflowError] where the result is out of range. *)
Definition math_exp (x : pynum) : result pynum :=
  let* a := to_float x in
  match fexp a with
  | Some b => Ok (PFloat b)
  | None => Raise OverflowError
  end.

(** [a, b, c = x]. *)
Definition unpack3 (x : pynum) : result (pynum * pynum * pynum) :=
  match x with
  | PTuple3 a b c => Ok (PFloat a, PFloat b, PFloat c)
  | _ => Raise TypeError
  end.

End Numbers.

(** ** Task objects: name, validation metric and scorers

    Of the attributes a constructor assigns, the ones the metric contract
    involves are kept: [name], [val_metric], [val_metric_decreases], the
    scorers, and for the diagnostic task the four index-to-tag tables and
    the scorers stored under computed attribute names ([setattr]).  The
    columns loaded by [load_tsv] are not part of the object model. *)

Module Obj.
Import Allen.

(** An index-to-tag table of the diagnostic data, in [items()] order. *)
Definition TagDict : Type := list (Z * string).

Record TaskObj : Type := mkTaskObj {
  name : string;
  val_metric : option string;
  val_metric_decreases : option bool;
  scorer1 : option Scorer;
  scorer2 : option Scorer;
  scorer3 : option Scorer;
  mcc_scorer : option Scorer;
  acc_scorer : option Scorer;
  f1_scorer : option Scorer;
  ix_to_lex_sem_dic : option TagDict;
  ix_to_pr_ar_str_dic : option TagDict;
  ix_to_logic_dic : option TagDict;
  ix_to_knowledge_dic : option TagDict;
  (** attributes created by [setattr(self, 'scorer__...', ...)] *)
  dyn : Py.dict Scorer;
}.

(** Attribute assignment, one function per attribute. *)
Definition set_val_metric (v : string) (o : TaskObj) : TaskObj :=
  mkTaskObj (name o) (Some v) (val_metric_decreases o) (scorer1 o)
    (scorer2 o) (scorer3 o) (mcc_scorer o) (acc_scorer o) (f1_scorer o)
    (ix_to_lex_sem_dic o) (ix_to_pr_ar_str_dic o) (ix_to_logic_dic o)
    (ix_to_knowledge_dic o) (dyn o).
Definition set_val_metric_decreases (b : bool) (o : TaskObj) : TaskObj :=
  mkTaskObj (name o) (val_metric o) (Some b) (scorer1 o)
    (scorer2 o) (scorer3 o) (mcc_scorer o) (acc_scorer o) (f1_scorer o)
    (ix_to_lex_sem_dic o) (ix_to_pr_ar_str_dic o) (ix_to_logic_dic o)
    (ix_to_knowledge_dic o) (dyn o).
Definition set_scorer1 (s : option Scorer) (o : TaskObj) : TaskObj :=
  mkTaskObj (name o) (val_metric o) (val_metric_decreases o) s
    (scorer2 o) (scorer3 o) (mcc_scorer o) (acc_scorer o) (f1_scorer o)
    (ix_to_lex_sem_dic o) (ix_to_pr_ar_str_dic o) (ix_to_logic_dic o)
    (ix_to_knowledge_dic o) (dyn o).
Definition set_scorer2 (s : option Scorer) (o : TaskObj) : TaskObj :=
  mkTaskObj (name o) (val_metric o) (val_metric_decreases o) (scorer1 o)
    s (scorer3 o) (mcc_scorer o) (acc_scorer o) (f1_scorer o)
    (ix_to_lex_sem_dic o) (ix_to_pr_ar_str_dic o) (ix_to_logic_dic o)
    (ix_to_knowledge_dic o) (dyn o).
Definition set_scorer3 (s : option Scorer) (o : TaskObj) : TaskObj :=
  mkTaskObj (name o) (val_metric o) (val_metric_decreases o) (scorer1 o)
    (scorer2 o) s (mcc_scorer o) (acc_scorer o) (f1_scorer o)
    (ix_to_lex_sem_dic o) (ix_to_pr_ar_str_dic o) (ix_to_logic_dic o)
    (ix_to_knowledge_dic o) (dyn o).
Definition set_mcc_scorer (s : Scorer) (o : TaskObj) : TaskObj :=
  mkTaskObj (name o) (val_metric o) (val_metric_decreases o) (scorer1 o)
    (scorer2 o) (scorer3 o) (Some s) (acc_scorer o) (f1_scorer o)
    (ix_to_lex_sem_dic o) (ix_to_pr_ar_str_dic o) (ix_to_logic_dic o)
    (ix_to_knowledge_dic o) (dyn o).
Definition set_acc_scorer (s : Scorer) (o : TaskObj) : TaskObj :=
  mkTaskObj (name o) (val_metric o) (val_metric_decreases o) (scorer1 o)
    (scorer2 o) (scorer3 o) (mcc_scorer o) (Some s) (f1_scorer o)
    (ix_to_lex_sem_dic o) (ix_to_pr_ar_str_dic o) (ix_to_logic_dic o)
    (ix_to_knowledge_dic o) (dyn o).
Definition set_f1_scorer (s : Scorer) (o : TaskObj) : TaskObj :=
  mkTaskObj (name o) (val_metric o) (val_metric_decreases o) (scorer1 o)
    (scorer2 o) (scorer3 o) (mcc_scorer o) (acc_scorer o) (Some s)
    (ix_to_lex_sem_dic o) (ix_to_pr_ar_str_dic o) (ix_to_logic_dic o)
    (ix_to_knowledge_dic o) (dyn o).
Definition set_ix_dics (ls ps lg kn : TagDict) (o : TaskObj) : TaskObj :=
  mkTaskObj (name o) (val_metric o) (val_metric_decreases o) (scorer1 o)
    (scorer2 o) (scorer3 o) (mcc_scorer o) (acc_scorer o) (f1_scorer o)
    (Some ls) (Some ps) (Some lg) (Some kn) (dyn o).

(** [setattr(self, attr, s)] for a computed attribute name. *)
Definition setattr (attr : string) (s : Scorer) (o : TaskObj) : TaskObj :=
  mkTaskObj (name o) (val_metric o) (val_metric_decreases o) (scorer1 o)
    (scorer2 o) (scorer3 o) (mcc_scorer o) (acc_scorer o) (f1_scorer o)
    (ix_to_lex_sem_dic o) (ix_to_pr_ar_str_dic o) (ix_to_logic_dic o)
    (ix_to_knowledge_dic o) (Py.dict_set (dyn o) attr s).

(** [getattr(self, attr)] for a computed attribute name. *)
Definition getattr (o : TaskObj) (attr : string) : result Scorer :=
  of_option AttributeError (Py.dict_get (dyn o) attr).

(** Reading an attribute that holds a scorer, to call a method on it:
    [None] has no [get_metric]. *)
Definition the_scorer (a : option Scorer) : result Scorer :=
  of_option AttributeError a.

(** Reading an index-to-tag table. *)
Definition the_dict (a : option TagDict) : result TagDict :=
  of_option AttributeError a.

(** The scorers of tag group [g] that [get_metrics] and
    [update_diagnostic_metrics] look up by name are there. *)
Definition group_scorers_set (o : TaskObj) (items : TagDict) (g : string)
  : Prop :=
  is_Some (Py.dict_get (dyn o) ("scorer__" +:+ g))
  /\ forall ix tag, In (ix, tag) items -> ix <> 0 ->
       is_Some (Py.dict_get (dyn o) ("scorer__" +:+ g +:+ "__" +:+ tag)).

End Obj.

(** ** Constructors: the attribute assignments of each [__init__] *)

Module Init.
Import Allen Obj.

(** [Task.__init__]: [self.name = name]. *)
Definition Task_init (name : string) : TaskObj :=
  mkTaskObj name None None None None None None None None
    None None None None [].

Definition ClassificationTask_init := Task_init.
Definition RegressionTask_init := Task_init.
Definition RankingTask_init := Task_init.

Definition SingleClassificationTask_init (name : string) : TaskObj :=
  let self := ClassificationTask_init name in
  let self := set_scorer1 (Some CategoricalAccuracy) self in
  let self := set_scorer2 None self in
  let self := set_val_metric (Obj.name self +:+ "_accuracy") self in
  set_val_metric_decreases false self.

Definition PairClassificationTask_init (name : string) : TaskObj :=
  let self := ClassificationTask_init name in
  let self := set_scorer1 (Some CategoricalAccuracy) self in
  let self := set_scorer2 None self in
  let self := set_val_metric (Obj.name self +:+ "_accuracy") self in
  set_val_metric_decreases false self.

(** The scorer and metric assignments of [EdgeProbingTask.__init__]. *)
Definition EdgeProbingTask_init_obj (name : string) : TaskObj :=
  let self := Task_init name in
  let self := set_mcc_scorer FastMatthews self in
  let self := set_acc_scorer BooleanAccuracy self in
  let self := set_f1_scorer (F1Measure 1) self in
  let self := set_val_metric (Obj.name self +:+ "_f1") self in
  set_val_metric_decreases false self.

Definition PairRegressionTask_init (name : string) : TaskObj :=
  let self := RegressionTask_init name in
  let self := set_scorer1 (Some Average) self in
  let self := set_scorer2 None self in
  let self := set_val_metric (Obj.name self +:+ "_mse") self in
  set_val_metric_decreases true self.

Definition PairOrdinalRegressionTask_init (name : string) : TaskObj :=
  let self := RegressionTask_init name in
  let self := set_scorer1 (Some Average) self in
  let self := set_scorer2 (Some (Correlation "spearman")) self in
  let self := set_val_metric (Obj.name self +:+ "_1-mse") self in
  set_val_metric_decreases false self.

Definition SequenceGenerationTask_init (name : string) : TaskObj :=
  let self := Task_init name in
  let self := set_scorer1 (Some Average) self in
  let self := set_scorer2 None self in
  let self := set_val_metric (Obj.name self +:+ "_bleu") self in
  set_val_metric_decreases false self.

Definition LanguageModelingTask_init (name : string) : TaskObj :=
  let self := SequenceGenerationTask_init name in
  let self := set_scorer1 (Some Average) self in
  let self := set_scorer2 None self in
  let self := set_val_metric (Obj.name self +:+ "_perplexity") self in
  set_val_metric_decreases true self.

Definition RedditTask_init (name : string) : TaskObj :=
  let self := RankingTask_init name in
  let self := set_scorer1 (Some Average) self in
  let self := set_scorer2 None self in
  let self := set_val_metric (Obj.name self +:+ "_accuracy") self in
  set_val_metric_decreases false self.

Definition RedditPairClassificationTask_init (name : string) : TaskObj :=
  let self := PairClassificationTask_init name in
  let self := set_scorer2 None self in
  let self := set_val_metric (Obj.name self +:+ "_accuracy") self in
  set_val_metric_decreases false self.

Definition CoLATask_init (name : string) : TaskObj :=
  let self := SingleClassificationTask_init name in
  let self := set_val_metric (Obj.name self +:+ "_mcc") self in
  let self := set_val_metric_decreases false self in
  let self := set_scorer1 (Some (Correlation "matthews")) self in
  set_scorer2 (Some CategoricalAccuracy) self.

Definition QQPTask_init (name : string) : TaskObj :=
  let self := PairClassificationTask_init name in
  let self := set_scorer2 (Some (F1Measure 1)) self in
  let self := set_val_metric (name +:+ "_acc_f1") self in
  set_val_metric_decreases false self.

Definition MRPCTask_init (name : string) : TaskObj :=
  let self := PairClassificationTask_init name in
  let self := set_scorer2 (Some (F1Measure 1)) self in
  let self := set_val_metric (name +:+ "_acc_f1") self in
  set_val_metric_decreases false self.

Definition MultiNLISingleGenreTask_init (name : string) : TaskObj :=
  let self := PairClassificationTask_init name in
  set_scorer2 None self.

Definition STSBTask_init (name : string) : TaskObj :=
  let self := PairRegressionTask_init name in
  let self := set_scorer1 (Some (Correlation "pearson")) self in
  let self := set_scorer2 (Some (Correlation "spearman")) self in
  let self := set_val_metric (Obj.name self +:+ "_corr") self in
  set_val_metric_decreases false self.

(** [create_score_function(scorer, arg_to_scorer, tags_dict, tag_group)]
    of [load_data_and_create_scorers]. *)
Fixpoint create_tag_scorers (scorer : Scorer) (items : TagDict)
    (tag_group : string) (self : TaskObj) : TaskObj :=
  match items with
  | [] => self
  | (index, tag) :: rest =>
      if index =? 0 then create_tag_scorers scorer rest tag_group self
      else create_tag_scorers scorer rest tag_group
             (setattr ("scorer__" +:+ tag_group +:+ "__" +:+ tag) scorer self)
  end.

Definition create_score_function (scorer : Scorer) (tags_dict : TagDict)
    (tag_group : string) (self : TaskObj) : TaskObj :=
  let self := setattr ("scorer__" +:+ tag_group) scorer self in
  create_tag_scorers scorer tags_dict tag_group self.

(** [MultiNLIDiagnosticTask.__init__] with the four tables that
    [load_diagnostic_tsv] returned. *)
Definition MultiNLIDiagnosticTask_init (name : string)
    (lex_sem pr_ar_str logic knowledge : TagDict) : TaskObj :=
  let self := PairClassificationTask_init name in
  let self := set_ix_dics lex_sem pr_ar_str logic knowledge self in
  let self := create_score_function (Correlation "matthews") lex_sem
                "lex_sem" self in
  let self := create_score_function (Correlation "matthews") pr_ar_str
                "pr_ar_str" self in
  let self := create_score_function (Correlation "matthews") logic
                "logic" self in
  create_score_function (Correlation "matthews") knowledge "knowledge" self.

Definition MTTask_init (name : string) : TaskObj :=
  let self := SequenceGenerationTask_init name in
  let self := set_scorer1 (Some Average) self in
  let self := set_scorer2 (Some Average) self in
  let self := set_scorer3 (Some Average) self in
  let self := set_val_metric (Obj.name self +:+ "_perplexity") self in
  set_val_metric_decreases true self.

Definition Wiki103Classification_init (name : string) : TaskObj :=
  let self := PairClassificationTask_init name in
  let self := set_scorer2 None self in
  let self := set_val_metric (Obj.name self +:+ "_accuracy") self in
  set_val_metric_decreases false self.

Definition GroundedTask_init (name : string) : TaskObj :=
  let self := Task_init name in
  let self := set_scorer1 (Some Average) self in
  let self := set_scorer2 None self in
  let self := set_val_metric (Obj.name self +:+ "_metric") self in
  set_val_metric_decreases false self.

Definition GroundedSWTask_init (name : string) : TaskObj :=
  let self := Task_init name in
  let self := set_scorer1 (Some Average) self in
  let self := set_scorer2 None self in
  let self := set_val_metric (Obj.name self +:+ "_metric") self in
  set_val_metric_decreases false self.

Definition TaggingTask_init (name : string) : TaskObj :=
  let self := Task_init name in
  let self := set_scorer1 (Some CategoricalAccuracy) self in
  let self := set_val_metric (Obj.name self +:+ "_accuracy") self in
  set_val_metric_decreases false self.

(** The object a class yields when its constructor returns.  The classes
    that do nothing but call their parent's constructor and load their
    data share the parent's line. *)
Definition construct (c : TaskClass) (name : string)
    (lex_sem pr_ar_str logic knowledge : TagDict) : TaskObj :=
  match c with
  | Task => Task_init name
  | ClassificationTask => ClassificationTask_init name
  | RegressionTask => RegressionTask_init name
  | RankingTask => RankingTask_init name
  | SingleClassificationTask | SSTTask => SingleClassificationTask_init name
  | PairClassificationTask | SNLITask | MultiNLITask | MultiNLIAltTask
  | NLITypeProbingTask | NLITypeProbingTaskNeg | NLITypeProbingTaskPrepswap
  | NPSTask | NLITypeProbingAltTask | RTETask | QNLITask | QNLIAltTask
  | WNLITask | DisSentTask | DisSentWikiSingleTask | DisSentWikiBigFullTask
  | WeakGroundedTask | RecastNLITask | RecastPunTask | RecastNERTask
  | RecastVerbnetTask | RecastVerbcornerTask | RecastSentimentTask
  | RecastFactualityTask | RecastWinogenderTask | RecastLexicosynTask
  | RecastKGTask => PairClassificationTask_init name
  | EdgeProbingTask => EdgeProbingTask_init_obj name
  | PairRegressionTask => PairRegressionTask_init name
  | PairOrdinalRegressionTask | JOCITask => PairOrdinalRegressionTask_init name
  | SequenceGenerationTask => SequenceGenerationTask_init name
  | LanguageModelingTask | WikiTextLMTask | WikiText103LMTask | BWBLMTask =>
      LanguageModelingTask_init name
  | RedditTask => RedditTask_init name
  | RedditPairClassificationTask | MTDataPairClassificationTask =>
      RedditPairClassificationTask_init name
  | CoLATask => CoLATask_init name
  | QQPTask | QQPAltTask => QQPTask_init name
  | MultiNLISingleGenreTask | MultiNLIFictionTask | MultiNLISlateTask
  | MultiNLIGovernmentTask | MultiNLITelephoneTask | MultiNLITravelTask =>
      MultiNLISingleGenreTask_init name
  | MRPCTask => MRPCTask_init name
  | STSBTask | STSBAltTask => STSBTask_init name
  | MultiNLIDiagnosticTask =>
      MultiNLIDiagnosticTask_init name lex_sem pr_ar_str logic knowledge
  | MTTask | MTDebug | MTTaskEnRu | MTTaskEnDe | RedditSeq2SeqTask
  | Wiki103Seq2SeqTask => MTTask_init name
  | Wiki103Classification => Wiki103Classification_init name
  | GroundedTask => GroundedTask_init name
  | GroundedSWTask => GroundedSWTask_init name
  | TaggingTask | CCGTaggingTask => TaggingTask_init name
  end.

(** The classes whose constructor assigns [val_metric]: all but the
    four bare base classes. *)
Definition sets_val_metric (c : TaskClass) : bool :=
  match c with
  | Task | ClassificationTask | RegressionTask | RankingTask => false
  | _ => true
  end.

End Init.

(** ** [get_metrics], class by class *)

Module Metrics.
Import Allen Obj.

Section GetMetrics.
Context `{Aggregators}.

(** [scorer.get_metric(reset)] for the scorer held in attribute [attr]. *)
Definition get_metric (scorer : Scorer) (attr : string) (reset : bool)
  : pynum :=
  match scorer with
  | F1Measure _ =>
      let prf := get_metric_prf attr reset in
      PTuple3 (fst (fst prf)) (snd (fst prf)) (snd prf)
  | _ => PFloat (get_metric_value attr reset)
  end.

Definition Task_get_metrics (self : TaskObj) (reset : bool)
  : result (Py.dict pynum) := Raise NotImplementedError.

Definition SingleClassificationTask_get_metrics (self : TaskObj)
    (reset : bool) : result (Py.dict pynum) :=
  let* scorer1 := the_scorer (scorer1 self) in
  let acc := get_metric scorer1 "scorer1" reset in
  Ok [("accuracy", acc)].

(** [PairClassificationTask], [RedditTask], [RedditPairClassificationTask],
    [MultiNLISingleGenreTask] and [TaggingTask] each write the same body
    again. *)
Definition PairClassificationTask_get_metrics :=
  SingleClassificationTask_get_metrics.
Definition RedditTask_get_metrics := SingleClassificationTask_get_metrics.
Definition RedditPairClassificationTask_get_metrics :=
  SingleClassificationTask_get_metrics.
Definition MultiNLISingleGenreTask_get_metrics :=
  SingleClassificationTask_get_metrics.
Definition TaggingTask_get_metrics := SingleClassificationTask_get_metrics.

Definition EdgeProbingTask_get_metrics (self : TaskObj) (reset : bool)
  : result (Py.dict pynum) :=
  let metrics := [] in
  let* mcc_scorer := the_scorer (mcc_scorer self) in
  let metrics := Py.dict_set metrics "mcc"
                   (get_metric mcc_scorer "mcc_scorer" reset) in
  let* acc_scorer := the_scorer (acc_scorer self) in
  let metrics := Py.dict_set metrics "acc"
                   (get_metric acc_scorer "acc_scorer" reset) in
  let* f1_scorer := the_scorer (f1_scorer self) in
  let* prf := unpack3 (get_metric f1_scorer "f1_scorer" reset) in
  let '(precision, recall, f1) := prf in
  let metrics := Py.dict_set metrics "precision" precision in
  let metrics := Py.dict_set metrics "recall" recall in
  let metrics := Py.dict_set metrics "f1" f1 in
  Ok metrics.

Definition PairRegressionTask_get_metrics (self : TaskObj) (reset : bool)
  : result (Py.dict pynum) :=
  let* scorer1 := the_scorer (scorer1 self) in
  let mse := get_metric scorer1 "scorer1" reset in
  Ok [("mse", mse)].

Definition PairOrdinalRegressionTask_get_metrics (self : TaskObj)
    (reset : bool) : result (Py.dict pynum) :=
  let* scorer1 := the_scorer (scorer1 self) in
  let mse := get_metric scorer1 "scorer1" reset in
  let* scorer2 := the_scorer (scorer2 self) in
  let spearmanr := get_metric scorer2 "scorer2" reset in
  let* one_minus_mse := py_sub (PInt 1) mse in
  Ok [("1-mse", one_minus_mse); ("mse", mse); ("spearmanr", spearmanr)].

Definition SequenceGenerationTask_get_metrics (self : TaskObj)
    (reset : bool) : result (Py.dict pynum) :=
  let* scorer1 := the_scorer (scorer1 self) in
  let bleu := get_metric scorer1 "scorer1" reset in
  Ok [("bleu", bleu)].

Definition LanguageModelingTask_get_metrics (self : TaskObj)
    (reset : bool) : result (Py.dict pynum) :=
  let* scorer1 := the_scorer (scorer1 self) in
  let nll := get_metric scorer1 "scorer1" reset in
  let* perplexity := math_exp nll in
  Ok [("perplexity", perplexity)].

Definition CoLATask_get_metrics (self : TaskObj) (reset : bool)
  : result (Py.dict pynum) :=
  let* scorer1 := the_scorer (scorer1 self) in
  let mcc := get_metric scorer1 "scorer1" reset in
  let* scorer2 := the_scorer (scorer2 self) in
  let accuracy := get_metric scorer2 "scorer2" reset in
  Ok [("mcc", mcc); ("accuracy", accuracy)].

Definition QQPTask_get_metrics (self : TaskObj) (reset : bool)
  : result (Py.dict pynum) :=
  let* scorer1 := the_scorer (scorer1 self) in
  let acc := get_metric scorer1 "scorer1" reset in
  let* scorer2 := the_scorer (scorer2 self) in
  let* prf := unpack3 (get_metric scorer2 "scorer2" reset) in
  let '(pcs, rcl, f1) := prf in
  let* sum := py_add acc f1 in
  let* acc_f1 := py_div sum (PInt 2) in
  Ok [("acc_f1", acc_f1); ("accuracy", acc); ("f1", f1);
      ("precision", pcs); ("recall", rcl)].

(** [MRPCTask.get_metrics] has the body of [QQPTask.get_metrics]. *)
Definition MRPCTask_get_metrics := QQPTask_get_metrics.

Definition STSBTask_get_metrics (self : TaskObj) (reset : bool)
  : result (Py.dict pynum) :=
  let* scorer1 := the_scorer (scorer1 self) in
  let pearsonr := get_metric scorer1 "scorer1" reset in
  let* scorer2 := the_scorer (scorer2 self) in
  let spearmanr := get_metric scorer2 "scorer2" reset in
  let* sum := py_add pearsonr spearmanr in
  let* corr := py_div sum (PInt 2) in
  Ok [("corr", corr); ("pearsonr", pearsonr); ("spearmanr", spearmanr)].

(** [collect_metrics(ix_to_tag_dict, tag_group)] of the diagnostic task,
    threading [collected_metrics]. *)
Fixpoint collect_metrics (self : TaskObj) (reset : bool) (items : TagDict)
    (tag_group : string) (collected_metrics : Py.dict pynum)
  : result (Py.dict pynum) :=
  match items with
  | [] => Ok collected_metrics
  | (index, tag) :: rest =>
      if index =? 0 then
        let scorer_str := "scorer__" +:+ tag_group in
        let* scorer := getattr self scorer_str in
        collect_metrics self reset rest tag_group
          (Py.dict_set collected_metrics tag_group
             (get_metric scorer scorer_str reset))
      else
        let scorer_str := "scorer__" +:+ tag_group +:+ "__" +:+ tag in
        let* scorer := getattr self scorer_str in
        collect_metrics self reset rest tag_group
          (Py.dict_set collected_metrics (tag_group +:+ "__" +:+ tag)
             (get_metric scorer scorer_str reset))
  end.

Definition MultiNLIDiagnosticTask_get_metrics (self : TaskObj)
    (reset : bool) : result (Py.dict pynum) :=
  let collected_metrics := [] in
  let collected_metrics := Py.dict_set collected_metrics "accuracy" (PInt 0) in
  let* lex_sem := the_dict (ix_to_lex_sem_dic self) in
  let* collected_metrics :=
    collect_metrics self reset lex_sem "lex_sem" collected_metrics in
  let* pr_ar_str := the_dict (ix_to_pr_ar_str_dic self) in
  let* collected_metrics :=
    collect_metrics self reset pr_ar_str "pr_ar_str" collected_metrics in
  let* logic := the_dict (ix_to_logic_dic self) in
  let* collected_metrics :=
    collect_metrics self reset logic "logic" collected_metrics in
  let* knowledge := the_dict (ix_to_knowledge_dic self) in
  collect_metrics self reset knowledge "knowledge" collected_metrics.

Definition MTTask_get_metrics (self : TaskObj) (reset : bool)
  : result (Py.dict pynum) :=
  let* scorer1 := the_scorer (scorer1 self) in
  let avg_nll := get_metric scorer1 "scorer1" reset in
  let* scorer3 := the_scorer (scorer3 self) in
  let unk_ratio_macroavg := get_metric scorer3 "scorer3" reset in
  let* perplexity := math_exp avg_nll in
  Ok [("perplexity", perplexity); ("bleu_score", PInt 0);
      ("unk_ratio_macroavg", unk_ratio_macroavg)].

Definition GroundedTask_get_metrics (self : TaskObj) (reset : bool)
  : result (Py.dict pynum) :=
  let* scorer1 := the_scorer (scorer1 self) in
  let metric := get_metric scorer1 "scorer1" reset in
  Ok [("metric", metric)].

(** [GroundedSWTask.get_metrics] has the same body. *)
Definition GroundedSWTask_get_metrics := GroundedTask_get_metrics.

(** The [get_metrics] a class defines in its own body, if it does. *)
Definition own_get_metrics (c : TaskClass)
  : option (TaskObj -> bool -> result (Py.dict pynum)) :=
  match c with
  | Task => Some Task_get_metrics
  | SingleClassificationTask => Some SingleClassificationTask_get_metrics
  | PairClassificationTask => Some PairClassificationTask_get_metrics
  | RedditTask => Some RedditTask_get_metrics
  | RedditPairClassificationTask =>
      Some RedditPairClassificationTask_get_metrics
  | MultiNLISingleGenreTask => Some MultiNLISingleGenreTask_get_metrics
  | TaggingTask => Some TaggingTask_get_metrics
  | EdgeProbingTask => Some EdgeProbingTask_get_metrics
  | PairRegressionTask => Some PairRegressionTask_get_metrics
  | PairOrdinalRegressionTask => Some PairOrdinalRegressionTask_get_metrics
  | SequenceGenerationTask => Some SequenceGenerationTask_get_metrics
  | LanguageModelingTask => Some LanguageModelingTask_get_metrics
  | CoLATask => Some CoLATask_get_metrics
  | QQPTask => Some QQPTask_get_metrics
  | MRPCTask => Some MRPCTask_get_metrics
  | STSBTask => Some STSBTask_get_metrics
  | MultiNLIDiagnosticTask => Some MultiNLIDiagnosticTask_get_metrics
  | MTTask => Some MTTask_get_metrics
  | GroundedTask => Some GroundedTask_get_metrics
  | GroundedSWTask => Some GroundedSWTask_get_metrics
  | _ => None
  end.

End GetMetrics.

(** The base class named in each [class] statement. *)
Definition parent (c : TaskClass) : option TaskClass :=
  match c with
  | Task => None
  | ClassificationTask | RegressionTask | EdgeProbingTask
  | SequenceGenerationTask | RankingTask | GroundedTask | GroundedSWTask
  | TaggingTask => Some Task
  | SingleClassificationTask | PairClassificationTask =>
      Some ClassificationTask
  | PairRegressionTask | PairOrdinalRegressionTask => Some RegressionTask
  | LanguageModelingTask | MTTask => Some SequenceGenerationTask
  | WikiTextLMTask | BWBLMTask => Some LanguageModelingTask
  | WikiText103LMTask => Some WikiTextLMTask
  | SSTTask | CoLATask => Some SingleClassificationTask
  | RedditTask => Some RankingTask
  | MTDataPairClassificationTask => Some RedditPairClassificationTask
  | QQPAltTask => Some QQPTask
  | MultiNLIFictionTask | MultiNLISlateTask | MultiNLIGovernmentTask
  | MultiNLITelephoneTask | MultiNLITravelTask =>
      Some MultiNLISingleGenreTask
  | STSBTask => Some PairRegressionTask
  | STSBAltTask => Some STSBTask
  | NLITypeProbingAltTask => Some NLITypeProbingTask
  | MultiNLIAltTask => Some MultiNLITask
  | QNLIAltTask => Some QNLITask
  | JOCITask => Some PairOrdinalRegressionTask
  | MTDebug | MTTaskEnRu | MTTaskEnDe | RedditSeq2SeqTask
  | Wiki103Seq2SeqTask => Some MTTask
  | DisSentWikiSingleTask | DisSentWikiBigFullTask => Some DisSentTask
  | RecastPunTask | RecastNERTask | RecastVerbnetTask | RecastVerbcornerTask
  | RecastSentimentTask | RecastFactualityTask | RecastWinogenderTask
  | RecastLexicosynTask | RecastKGTask => Some RecastNLITask
  | CCGTaggingTask => Some TaggingTask
  | RedditPairClassificationTask | QQPTask | MultiNLISingleGenreTask
  | MRPCTask | SNLITask | MultiNLITask | MultiNLIDiagnosticTask
  | NLITypeProbingTask | NLITypeProbingTaskNeg | NLITypeProbingTaskPrepswap
  | NPSTask | RTETask | QNLITask | WNLITask | Wiki103Classification
  | DisSentTask | WeakGroundedTask | RecastNLITask =>
      Some PairClassificationTask
  end.

(** Method lookup along the chain of base classes; the chains of this
    module are at most five classes long. *)
Fixpoint lookup_method {M : Type} (own : TaskClass -> option M)
    (fuel : nat) (c : TaskClass) : option M :=
  match own c with
  | Some m => Some m
  | None =>
      match fuel, parent c with
      | S fuel', Some p => lookup_method own fuel' p
      | _, _ => None
      end
  end.

(** [task.get_metrics(reset)] for a task of class [c]. *)
Definition get_metrics `{Aggregators} (c : TaskClass) (self : TaskObj)
    (reset : bool) : result (Py.dict pynum) :=
  match lookup_method own_get_metrics 8 c with
  | Some m => m self reset
  | None => Raise AttributeError
  end.

(** The classes whose [get_metrics] is the one of [LanguageModelingTask]
    or of [MTTask], the two that call [math.exp]. *)
Definition uses_math_exp (c : TaskClass) : bool :=
  match c with
  | LanguageModelingTask | WikiTextLMTask | WikiText103LMTask | BWBLMTask
  | MTTask | MTDebug | MTTaskEnRu | MTTaskEnDe | RedditSeq2SeqTask
  | Wiki103Seq2SeqTask => true
  | _ => false
  end.

(** [math.exp] is out of range at what [scorer1] reads. *)
Definition perplexity_overflows `{Aggregators} (c : TaskClass)
    (reset : bool) : bool :=
  uses_math_exp c
  && match fexp (get_metric_value "scorer1" reset) with
     | Some _ => false
     | None => true
     end.

End Metrics.

(** ** Edge probing *)

(** [os.path.join(a, b)] on POSIX paths. *)
Definition os_path_join (a b : string) : string :=
  if Py.startswith b "/" then b
  else if (String.length a =? 0)%nat then b
  else if String.eqb (String.substring (String.length a - 1) 1 a) "/"
       then a +:+ b
       else a +:+ "/" +:+ b.

Module Edge.
Import Allen Obj.

(** A half-open token interval [i, j), as the pair [[i, j]] of the JSON. *)
Definition span : Type := (Z * Z)%type.

(** One target of a record: [span1], [span2] when the task has two
    sides, and a label that is a string or a list of strings. *)
Record Target : Type := mkTarget {
  span1 : span;
  span2 : option span;
  label : string + list string;
}.

(** One JSON record: [text], and [targets] when the key is present. *)
Record EdgeRecord : Type := mkRecord {
  text : string;
  targets : option (list Target);
}.

(** Modelled from the spec: [utils.wrap_singleton_string], which is not in
    the sources at hand ("multi-label targets are always represented as a
    set-valued label field, even when exactly one label applies"). *)
Definition wrap_singleton_string (item : string + list string)
  : list string :=
  match item with inl s => [s] | inr l => l end.

Record EdgeTask : Type := mkEdgeTask {
  obj : TaskObj;
  _files_by_split : Py.dict string;
  _iters_by_split : Py.dict (iterable EdgeRecord);
  max_seq_len : Z;
  is_symmetric : bool;
  single_sided : bool;
  all_labels : list string;
  n_classes : nat;
  _label_namespace : string;
}.

Definition set_iters_by_split (its : Py.dict (iterable EdgeRecord))
    (self : EdgeTask) : EdgeTask :=
  mkEdgeTask (obj self) (_files_by_split self) its (max_seq_len self)
    (is_symmetric self) (single_sided self) (all_labels self)
    (n_classes self) (_label_namespace self).

(** [not record.get('targets', None)]: true for a missing key and for an
    empty list. *)
Definition no_targets (record : EdgeRecord) : bool :=
  match targets record with
  | None => true
  | Some [] => true
  | Some (_ :: _) => false
  end.

(** The records that loading keeps. *)
Definition has_targets (record : EdgeRecord) : bool :=
  negb (no_targets record).

(** Every iterable of the dict is a list. *)
Definition all_lists (d : Py.dict (iterable EdgeRecord)) : Prop :=
  Forall (fun kv => exists l, snd kv = PyList l) d.

(** Every scorer a task object holds, attribute by attribute. *)
Definition scorers_of (o : TaskObj) : list Scorer :=
  (omap id [scorer1 o; scorer2 o; scorer3 o; mcc_scorer o; acc_scorer o;
            f1_scorer o] ++ map snd (dyn o))%list.

Section EdgeProbing.
Context `{Utils}.
(** [utils.load_json_data(filename)]: the records of the file, one per
    line, as a generator. *)
Variable load_json_data : string -> gen EdgeRecord.

(** [_tokenizer_suffix]. *)
Definition _tokenizer_suffix : string := ".retokenized." +:+ tokenizer_name.

(** [_stream_records]; the counters only feed the log line. *)
Definition _stream_records (filename : string) : gen EdgeRecord :=
  gen_for_gen (load_json_data filename) (fun record =>
    if no_targets record then gen_done
    else gen_yield record gen_done).

(** [load_data], over the items of [self._files_by_split]. *)
Fixpoint load_data_items (items : list (string * string))
    (iters_by_split : Py.dict (iterable EdgeRecord))
  : result (Py.dict (iterable EdgeRecord)) :=
  match items with
  | [] => Ok iters_by_split
  | (split, filename) :: rest =>
      let* iter := gen_to_list (_stream_records filename) in
      load_data_items rest (Py.dict_set iters_by_split split (PyList iter))
  end.

Definition load_data (files_by_split : Py.dict string)
  : result (Py.dict (iterable EdgeRecord)) :=
  load_data_items files_by_split [].

(** The dict comprehension of [__init__]. *)
Fixpoint make_files_by_split (path : string) (items : list (string * string))
    (acc : Py.dict string) : Py.dict string :=
  match items with
  | [] => acc
  | (split, fname) :: rest =>
      make_files_by_split path rest
        (Py.dict_set acc split (os_path_join path fname +:+ _tokenizer_suffix))
  end.

Definition __init__ (path : string) (max_seq_len : Z) (name : string)
    (label_file : option string) (files_by_split : option (Py.dict string))
    (is_symmetric single_sided : bool) : result EdgeTask :=
  let* label_file := of_option AssertionError label_file in
  let* files_by_split := of_option AssertionError files_by_split in
  let _files_by_split := make_files_by_split path files_by_split [] in
  let* _iters_by_split := load_data _files_by_split in
  let label_file := os_path_join path label_file in
  let* all_labels := of_option FileNotFoundError (load_lines label_file) in
  Ok (mkEdgeTask (Init.EdgeProbingTask_init_obj name) _files_by_split
        _iters_by_split max_seq_len is_symmetric single_sided all_labels
        (length all_labels) (name +:+ "_labels")).

Definition get_split_text (self : EdgeTask) (split : string)
  : result (iterable EdgeRecord) :=
  of_option KeyError (Py.dict_get (_iters_by_split self) split).

Definition get_num_examples (split_text : iterable EdgeRecord) : result nat :=
  py_len split_text.

Definition _make_span_field (s : span) (text_field : Field) (offset : Z)
  : Field :=
  SpanField (fst s + offset) (snd s - 1 + offset) text_field.

(** [[self._make_span_field(t['span2'], text_field, 1) for t in ...]]:
    a target without [span2] raises [KeyError]. *)
Fixpoint span2_fields (text_field : Field) (ts : list Target)
  : result (list Field) :=
  match ts with
  | [] => Ok []
  | t :: ts' =>
      let* s := of_option KeyError (span2 t) in
      let* fs := span2_fields text_field ts' in
      Ok (_make_span_field s text_field 1 :: fs)
  end.

Definition make_instance (self : EdgeTask) (record : EdgeRecord) (idx : Z)
    (indexers : Indexers) : result Instance :=
  let tokens := Py.split_ws (text record) in
  let tokens := ([SOS_TOK] ++ tokens ++ [EOS_TOK])%list in
  let text_field := _sentence_to_text_field tokens indexers in
  let d := [] in
  let d := Py.dict_set d "idx" (MetadataField (inl idx)) in
  let d := Py.dict_set d "input1" text_field in
  let* targets := of_option KeyError (targets record) in
  let d := Py.dict_set d "span1s"
             (ListField (map (fun t => _make_span_field (span1 t) text_field 1)
                             targets)) in
  let* d :=
    if negb (single_sided self) then
      let* span2s := span2_fields text_field targets in
      Ok (Py.dict_set d "span2s" (ListField span2s))
    else Ok d in
  let labels := map (fun t => wrap_singleton_string (label t)) targets in
  let d := Py.dict_set d "labels"
             (ListField (map (fun label_set =>
                                MultiLabelField label_set
                                  (_label_namespace self) false) labels)) in
  Ok d.

(** [process_split]: [map(_map_fn, records, itertools.count())]. *)
Fixpoint process_split_from (self : EdgeTask) (indexers : Indexers)
    (idx : Z) (records : list EdgeRecord) : gen Instance :=
  match records with
  | [] => gen_done
  | r :: rest =>
      match make_instance self r idx indexers with
      | Ok inst =>
          gen_yield inst (process_split_from self indexers (idx + 1) rest)
      | Raise e => gen_raise e
      end
  end.

Definition process_split (self : EdgeTask) (records : list EdgeRecord)
    (indexers : Indexers) : gen Instance :=
  process_split_from self indexers 0 records.

(** [get_sentences], over the items of [self._iters_by_split]: the
    sentences yielded and the items as the walk leaves them. *)
Fixpoint get_sentences_items (items : list (string * iterable EdgeRecord))
  : gen (list string) * list (string * iterable EdgeRecord) :=
  match items with
  | [] => (gen_done, [])
  | (split, iter) :: rest =>
      if Py.startswith split "test" then
        let '(g, rest') := get_sentences_items rest in
        (g, (split, iter) :: rest')
      else
        let '(records, iter') := iterate iter in
        let g1 := gen_for_gen records (fun record =>
                    gen_yield (Py.split_ws (text record)) gen_done) in
        match raised g1 with
        | Some _ => (g1, (split, iter') :: rest)
        | None =>
            let '(g2, rest') := get_sentences_items rest in
            (gen_seq g1 g2, (split, iter') :: rest')
        end
  end.

Definition get_sentences (self : EdgeTask) : gen (list string) * EdgeTask :=
  let '(g, items) := get_sentences_items (_iters_by_split self) in
  (g, set_iters_by_split items self).

(** [get_metrics] reads the three scorers of the task object. *)
Definition get_metrics `{Aggregators} (self : EdgeTask) (reset : bool)
  : result (Py.dict pynum) :=
  Metrics.get_metrics EdgeProbingTask (obj self) reset.

End EdgeProbing.
End Edge.

(** ** Tasks that stream their corpus from disk *)

Definition UNK_TOK_ALLENNLP : string := "@@UNKNOWN@@".
Definition UNK_TOK_ATOMIC : string := "UNKNOWN".

(** The files on disk: the rows of a file, each with its line end, or
    [None] when the file cannot be opened. *)
Definition FileSystem : Type := string -> option (list string).

Module Stream.
Import Allen.

(** What a [load_data] generator yields: a sentence, a (source, target)
    pair or a (sentence, sentence, label) triple. *)
Inductive item : Type :=
  | Sent (sent : list string)
  | Pair (src_sent tgt_sent : list string)
  | Triple (sent1 sent2 : list string) (targ : Z).

(** The attributes of a streaming task that its loaders read. *)
Record StreamTask : Type := mkStreamTask {
  files_by_split : Py.dict string;
  max_seq_len : Z;
  min_seq_len : option Z;
  target_indexer : option Indexers;
}.

Definition set_files_by_split (f : Py.dict string) (self : StreamTask)
  : StreamTask :=
  mkStreamTask f (max_seq_len self) (min_seq_len self) (target_indexer self).

(** [with open(path) as txt_fh: for row in txt_fh: body(row)]. *)
Definition for_rows {A} (fs : FileSystem) (path : string)
    (body : string -> gen A) : gen A :=
  match fs path with
  | None => gen_raise FileNotFoundError
  | Some rows => gen_for rows body
  end.

Section Loaders.
Context `{Utils}.

(** The first loop of [_atomic_tokenize]. *)
Fixpoint replace_all (nonatomic_toks : list string) (atomic_tok sent : string)
  : string :=
  match nonatomic_toks with
  | [] => sent
  | nonatomic_tok :: rest =>
      replace_all rest atomic_tok (Py.replace nonatomic_tok atomic_tok sent)
  end.

(** The list comprehension of [_atomic_tokenize]: [nonatomic_toks[0]] is
    evaluated for every token equal to [atomic_tok]. *)
Fixpoint restore_first (nonatomic_toks : list string) (atomic_tok : string)
    (sent : list string) : result (list string) :=
  match sent with
  | [] => Ok []
  | t :: rest =>
      let* t' := if String.eqb t atomic_tok
                 then of_option IndexError (head nonatomic_toks)
                 else Ok t in
      let* rest' := restore_first nonatomic_toks atomic_tok rest in
      Ok (t' :: rest')
  end.

Definition _atomic_tokenize (sent atomic_tok : string)
    (nonatomic_toks : list string) (max_seq_len : Z)
  : result (list string) :=
  let sent := replace_all nonatomic_toks atomic_tok sent in
  let sent := process_sentence sent max_seq_len SOS_TOK EOS_TOK in
  restore_first nonatomic_toks atomic_tok sent.

(** [LanguageModelingTask.load_data]. *)
Definition LanguageModelingTask_load_data (self : StreamTask)
    (fs : FileSystem) (path : string) : gen item :=
  for_rows fs path (fun row =>
    let toks := Py.strip row in
    if negb (Py.str_truthy toks) then gen_done
    else gen_yield
           (Sent (process_sentence toks (max_seq_len self) SOS_TOK EOS_TOK))
           gen_done).

Definition WikiTextLMTask_load_data (self : StreamTask)
    (fs : FileSystem) (path : string) : gen item :=
  let nonatomics_toks := [UNK_TOK_ALLENNLP; "<unk>"] in
  for_rows fs path (fun row =>
    let toks := Py.strip row in
    if negb (Py.str_truthy toks) then gen_done
    else
      match _atomic_tokenize toks UNK_TOK_ATOMIC nonatomics_toks
              (max_seq_len self) with
      | Raise e => gen_raise e
      | Ok sent =>
          if (2 <=? Py.count "=" sent)%nat then gen_done
          else
            match min_seq_len self with
            | None => gen_raise AttributeError
            | Some min_seq_len =>
                if Z.of_nat (String.length toks) <? min_seq_len + 2
                then gen_done
                else gen_yield (Sent sent) gen_done
            end
      end).

Definition RedditTask_load_data (self : StreamTask)
    (fs : FileSystem) (path : string) : gen item :=
  for_rows fs path (fun row =>
    let row := Py.split_on (ascii_of_nat 9) (Py.strip row) in
    if ((length row <? 4)%nat || negb (Py.str_truthy (nth 2 row ""))
        || negb (Py.str_truthy (nth 3 row "")))%bool
    then gen_done
    else
      let sent1 := process_sentence (nth 2 row "") (max_seq_len self)
                     SOS_TOK EOS_TOK in
      let sent2 := process_sentence (nth 3 row "") (max_seq_len self)
                     SOS_TOK EOS_TOK in
      let targ := 1 in
      gen_yield (Triple sent1 sent2 targ) gen_done).

(** [RedditPairClassificationTask.load_data] has the body of
    [RedditTask.load_data]. *)
Definition RedditPairClassificationTask_load_data := RedditTask_load_data.

Definition MTDataPairClassificationTask_load_data (self : StreamTask)
    (fs : FileSystem) (path : string) : gen item :=
  for_rows fs path (fun row =>
    let row := Py.split_on (ascii_of_nat 9) (Py.strip row) in
    if ((length row <? 2)%nat || negb (Py.str_truthy (nth 0 row ""))
        || negb (Py.str_truthy (nth 1 row "")))%bool
    then gen_done
    else
      let sent1 := process_sentence (nth 0 row "") (max_seq_len self)
                     SOS_TOK EOS_TOK in
      let sent2 := process_sentence (nth 1 row "") (max_seq_len self)
                     SOS_TOK EOS_TOK in
      let targ := 1 in
      gen_yield (Triple sent1 sent2 targ) gen_done).

Definition MTTask_load_data (self : StreamTask)
    (fs : FileSystem) (path : string) : gen item :=
  for_rows fs path (fun row =>
    let row := Py.split_on (ascii_of_nat 9) (Py.strip row) in
    if ((length row <? 2)%nat || negb (Py.str_truthy (nth 0 row ""))
        || negb (Py.str_truthy (nth 1 row "")))%bool
    then gen_done
    else
      let src_sent := process_sentence (nth 0 row "") (max_seq_len self)
                        SOS_TOK EOS_TOK in
      let tgt_sent := process_sentence (nth 1 row "") (max_seq_len self)
                        START_SYMBOL END_SYMBOL in
      gen_yield (Pair src_sent tgt_sent) gen_done).

Definition RedditSeq2SeqTask_load_data (self : StreamTask)
    (fs : FileSystem) (path : string) : gen item :=
  for_rows fs path (fun row =>
    let row := Py.split_on (ascii_of_nat 9) (Py.strip row) in
    if ((length row <? 4)%nat || negb (Py.str_truthy (nth 2 row ""))
        || negb (Py.str_truthy (nth 3 row "")))%bool
    then gen_done
    else
      let src_sent := process_sentence (nth 2 row "") (max_seq_len self)
                        SOS_TOK EOS_TOK in
      let tgt_sent := process_sentence (nth 3 row "") (max_seq_len self)
                        START_SYMBOL END_SYMBOL in
      gen_yield (Pair src_sent tgt_sent) gen_done).

Definition Wiki103Seq2SeqTask_load_data (self : StreamTask)
    (fs : FileSystem) (path : string) : gen item :=
  let nonatomic_toks := [UNK_TOK_ALLENNLP; "<unk>"] in
  for_rows fs path (fun row =>
    let toks := Py.strip row in
    if negb (Py.str_truthy toks) then gen_done
    else
      match _atomic_tokenize toks UNK_TOK_ATOMIC nonatomic_toks
              (max_seq_len self) with
      | Raise e => gen_raise e
      | Ok sent => gen_yield (Pair sent []) gen_done
      end).

(** [Wiki103Classification.load_data] has the body of
    [WikiTextLMTask.load_data]. *)
Definition Wiki103Classification_load_data := WikiTextLMTask_load_data.

Definition DisSentTask_load_data (self : StreamTask)
    (fs : FileSystem) (path : string) : gen item :=
  for_rows fs path (fun row =>
    let row := Py.split_on (ascii_of_nat 9) (Py.strip row) in
    if (negb (length row =? 3)%nat
        || negb (Py.str_truthy (nth 0 row "") && Py.str_truthy (nth 1 row "")
                 && Py.str_truthy (nth 2 row "")))%bool
    then gen_done
    else
      let sent1 := process_sentence (nth 0 row "") (max_seq_len self)
                     SOS_TOK EOS_TOK in
      let sent2 := process_sentence (nth 1 row "") (max_seq_len self)
                     SOS_TOK EOS_TOK in
      match Py.int (nth 2 row "") with
      | None => gen_raise ValueError
      | Some targ => gen_yield (Triple sent1 sent2 targ) gen_done
      end).

(** The [load_data] a class defines in its own body, if it does.  The
    classes that keep their columns in memory are not in this table. *)
Definition own_load_data (c : TaskClass)
  : option (StreamTask -> FileSystem -> string -> gen item) :=
  match c with
  | LanguageModelingTask => Some LanguageModelingTask_load_data
  | WikiTextLMTask => Some WikiTextLMTask_load_data
  | Wiki103Classification => Some Wiki103Classification_load_data
  | RedditTask => Some RedditTask_load_data
  | RedditPairClassificationTask =>
      Some RedditPairClassificationTask_load_data
  | MTDataPairClassificationTask =>
      Some MTDataPairClassificationTask_load_data
  | MTTask => Some MTTask_load_data
  | RedditSeq2SeqTask => Some RedditSeq2SeqTask_load_data
  | Wiki103Seq2SeqTask => Some Wiki103Seq2SeqTask_load_data
  | DisSentTask => Some DisSentTask_load_data
  | _ => None
  end.

End Loaders.

(** The loop over the splits that every streaming [get_sentences]
    starts with: [test] splits are skipped, the path is looked up. *)
Definition for_train_splits (self : StreamTask)
    (body : string -> gen item) : gen item :=
  gen_for (Py.dict_keys (files_by_split self)) (fun split =>
    if Py.startswith split "test" then gen_done
    else
      match Py.dict_get (files_by_split self) split with
      | None => gen_raise KeyError
      | Some path => body path
      end).

Definition LanguageModelingTask_get_sentences
    (load_data : string -> gen item) (self : StreamTask) : gen item :=
  for_train_splits self (fun path =>
    gen_for_gen (load_data path) (fun sent => gen_yield sent gen_done)).

(** [Wiki103Classification.get_sentences] has the same body. *)
Definition Wiki103Classification_get_sentences :=
  LanguageModelingTask_get_sentences.

(** [for sent1, sent2, _ in ...]: unpacking wants three values.  (A
    sentence of exactly three tokens would unpack as well; no loader of a
    class with this method yields a bare sentence.) *)
Definition yield_both (it : item) : gen item :=
  match it with
  | Triple sent1 sent2 _ =>
      gen_yield (Sent sent1) (gen_yield (Sent sent2) gen_done)
  | Pair _ _ => gen_raise ValueError
  | Sent _ => gen_raise ValueError
  end.

Definition RedditTask_get_sentences
    (load_data : string -> gen item) (self : StreamTask) : gen item :=
  for_train_splits self (fun path =>
    gen_for_gen (load_data path) yield_both).

(** [RedditPairClassificationTask.get_sentences] and
    [DisSentTask.get_sentences] have the same body. *)
Definition RedditPairClassificationTask_get_sentences :=
  RedditTask_get_sentences.
Definition DisSentTask_get_sentences := RedditTask_get_sentences.

(** [MTTask.get_sentences]: [yield from self.load_data(path)]. *)
Definition MTTask_get_sentences
    (load_data : string -> gen item) (self : StreamTask) : gen item :=
  for_train_splits self (fun path => load_data path).

Definition own_get_sentences (c : TaskClass)
  : option ((string -> gen item) -> StreamTask -> gen item) :=
  match c with
  | LanguageModelingTask => Some LanguageModelingTask_get_sentences
  | Wiki103Classification => Some Wiki103Classification_get_sentences
  | RedditTask => Some RedditTask_get_sentences
  | RedditPairClassificationTask =>
      Some RedditPairClassificationTask_get_sentences
  | DisSentTask => Some DisSentTask_get_sentences
  | MTTask => Some MTTask_get_sentences
  | _ => None
  end.

(** [self.load_data(path)] for a task of class [c]. *)
Definition load_data `{Utils} (c : TaskClass) (self : StreamTask)
    (fs : FileSystem) (path : string) : gen item :=
  match Metrics.lookup_method own_load_data 8 c with
  | Some m => m self fs path
  | None => gen_raise NotImplementedError
  end.

(** [task.get_sentences()] for a task of a streaming class [c]; the call
    of [self.load_data] inside is resolved on the class of the task.  The
    classes that keep their columns in memory inherit [Task.get_sentences],
    which walks [self.sentences] and is outside this table. *)
Definition get_sentences `{Utils} (c : TaskClass) (self : StreamTask)
    (fs : FileSystem) : gen item :=
  match Metrics.lookup_method own_get_sentences 8 c with
  | Some m => m (load_data c self fs) self
  | None => gen_raise AttributeError
  end.

(** [{split: os.path.join(path, pattern % split) for split in
    ["train", "val", "test"]}]. *)
Definition files_per_split (path suffix : string) : Py.dict string :=
  [("train", os_path_join path ("train" +:+ suffix));
   ("val", os_path_join path ("val" +:+ suffix));
   ("test", os_path_join path ("test" +:+ suffix))].

Definition files_named (path train val test : string) : Py.dict string :=
  [("train", os_path_join path train); ("val", os_path_join path val);
   ("test", os_path_join path test)].

Definition words_indexer (namespace : string) : Indexers :=
  [("words", SingleIdTokenIndexer namespace)].

(** The attributes the constructor of a streaming class leaves behind;
    [prefix] is the extra argument of [DisSentTask]. *)
Definition construct (c : TaskClass) (path : string) (max_seq_len : Z)
    (name prefix : string) : option StreamTask :=
  match c with
  | LanguageModelingTask | WikiTextLMTask | BWBLMTask =>
      Some (mkStreamTask (files_named path "train.txt" "valid.txt" "test.txt")
              max_seq_len (Some 0) (Some (words_indexer "tokens")))
  | WikiText103LMTask =>
      Some (mkStreamTask
              (files_named path "train.sentences.txt" "valid.sentences.txt"
                 "test.sentences.txt")
              max_seq_len (Some 0) (Some (words_indexer "tokens")))
  | RedditTask | RedditPairClassificationTask =>
      Some (mkStreamTask (files_per_split path ".csv") max_seq_len None None)
  | MTDataPairClassificationTask =>
      Some (mkStreamTask (files_per_split path ".txt") max_seq_len None None)
  | MTTask =>
      Some (mkStreamTask (files_per_split path ".txt") max_seq_len None
              (Some (words_indexer (name +:+ "_tokens"))))
  | MTDebug | MTTaskEnRu | MTTaskEnDe =>
      Some (mkStreamTask (files_named path "train.txt" "valid.txt" "test.txt")
              max_seq_len None (Some (words_indexer (name +:+ "_tokens"))))
  | RedditSeq2SeqTask =>
      Some (mkStreamTask (files_named path "train.csv" "val.csv" "test.csv")
              max_seq_len None (Some (words_indexer "tokens")))
  | Wiki103Seq2SeqTask =>
      Some (mkStreamTask
              (files_named path "train.sentences.txt" "valid.sentences.txt"
                 "test.sentences.txt")
              max_seq_len None (Some (words_indexer "tokens")))
  | Wiki103Classification =>
      Some (mkStreamTask
              (files_named path "train.sentences.txt" "valid.sentences.txt"
                 "test.sentences.txt")
              max_seq_len (Some 0) None)
  | DisSentTask =>
      Some (mkStreamTask
              (files_named path (prefix +:+ ".train") (prefix +:+ ".valid")
                 (prefix +:+ ".test"))
              max_seq_len None None)
  | DisSentWikiSingleTask =>
      Some (mkStreamTask
              (files_named path "wikitext.dissent.single_sent.train"
                 "wikitext.dissent.single_sent.valid"
                 "wikitext.dissent.single_sent.test")
              max_seq_len None None)
  | DisSentWikiBigFullTask =>
      Some (mkStreamTask
              (files_named path "wikitext.dissent.big.train"
                 "wikitext.dissent.big.valid" "wikitext.dissent.big.test")
              max_seq_len None None)
  | _ => None
  end.

(** [LanguageModelingTask.process_split]: [_make_instance] on one
    sentence.  [sent[0]] and [sent[-1]] raise on an empty sentence. *)
Definition LM_make_instance (self : StreamTask) (indexers : Indexers)
    (sent : list string) : result Instance :=
  let d := [] in
  let d := Py.dict_set d "input" (_sentence_to_text_field sent indexers) in
  let* first := of_option IndexError (head sent) in
  let* target_indexer := of_option AttributeError (target_indexer self) in
  let d := Py.dict_set d "targs"
             (_sentence_to_text_field (tail sent ++ [first])%list
                target_indexer) in
  let* final := of_option IndexError (last sent) in
  let d := Py.dict_set d "targs_b"
             (_sentence_to_text_field ([final] ++ removelast sent)%list
                target_indexer) in
  Ok d.

(** [for sent in split: yield _make_instance(sent)]; a tuple in the
    place of a sentence cannot be concatenated with a list. *)
Definition LanguageModelingTask_process_split (self : StreamTask)
    (split : gen item) (indexers : Indexers) : gen Instance :=
  gen_for_gen split (fun it =>
    match it with
    | Sent sent =>
        match LM_make_instance self indexers sent with
        | Ok inst => gen_yield inst gen_done
        | Raise e => gen_raise e
        end
    | _ => gen_raise TypeError
    end).

(** The targets of a language-modeling instance made from [sent]: the
    forward target at position [i] is the input token at [(i + 1) mod n],
    the backward target the one at [(i - 1) mod n]. *)
Definition lm_targets (indexers target_indexer : Indexers)
    (sent : list string) (d : Instance) : Prop :=
  exists targs targs_b : list string,
    Py.dict_get d "input" = Some (_sentence_to_text_field sent indexers)
    /\ Py.dict_get d "targs"
       = Some (_sentence_to_text_field targs target_indexer)
    /\ Py.dict_get d "targs_b"
       = Some (_sentence_to_text_field targs_b target_indexer)
    /\ length targs = length sent /\ length targs_b = length sent
    /\ forall i : nat, (i < length sent)%nat ->
         targs !! i
         = sent !! Z.to_nat ((Z.of_nat i + 1) mod Z.of_nat (length sent))
         /\ targs_b !! i
            = sent !! Z.to_nat ((Z.of_nat i - 1) mod Z.of_nat (length sent)).

(** A split, a class or a dict entry that is not a test split. *)
Definition nontest {V} (kv : string * V) : bool :=
  negb (Py.startswith (fst kv) "test").




(** The classes of this module whose corpus is streamed from files. *)
Definition streaming (c : TaskClass) : bool :=
  match c with
  | LanguageModelingTask | WikiTextLMTask | WikiText103LMTask | BWBLMTask
  | RedditTask | RedditPairClassificationTask | MTDataPairClassificationTask
  | MTTask | MTDebug | MTTaskEnRu | MTTaskEnDe | RedditSeq2SeqTask
  | Wiki103Seq2SeqTask | Wiki103Classification
  | DisSentTask | DisSentWikiSingleTask | DisSentWikiBigFullTask => true
  | _ => false
  end.

End Stream.

(** ** The diagnostic task: instances with one field per tag *)

Module Diag.
Import Allen Obj.

(** [" ".join(l)]. *)
Fixpoint join_spaces (l : list string) : string :=
  match l with
  | [] => ""
  | [w] => w
  | w :: rest => w +:+ " " +:+ join_spaces rest
  end.

(** [l[1:-1]]. *)
Definition inner {A} (l : list A) : list A := removelast (tail l).

(** [ix in tag_arr]. *)
Definition contains (tag_arr : list Z) (ix : Z) : bool :=
  existsb (Z.eqb ix) tag_arr.

(** The loop of [create_labels_from_tags] over the items of the table. *)
Fixpoint create_tag_labels (fields_dict : Py.dict Field) (items : TagDict)
    (tag_arr : list Z) (tag_group : string) : Py.dict Field :=
  match items with
  | [] => fields_dict
  | (ix, tag) :: rest =>
      if ix =? 0 then create_tag_labels fields_dict rest tag_arr tag_group
      else
        let is_present := if contains tag_arr ix then 1 else 0 in
        create_tag_labels
          (Py.dict_set fields_dict (tag_group +:+ "__" +:+ tag)
             (LabelField is_present (tag_group +:+ "__" +:+ tag) true))
          rest tag_arr tag_group
  end.

Definition create_labels_from_tags (fields_dict : Py.dict Field)
    (ix_to_tag_dict : TagDict) (tag_arr : list Z) (tag_group : string)
  : Py.dict Field :=
  let is_tag_group := if (length tag_arr =? 0)%nat then 0 else 1 in
  let fields_dict := Py.dict_set fields_dict tag_group
                       (LabelField is_tag_group tag_group true) in
  create_tag_labels fields_dict ix_to_tag_dict tag_arr tag_group.

(** One row of the split: the eight columns at one position. *)
Record Row : Type := mkRow {
  input1 : list string;
  input2 : list string;
  label : Z;
  idx : Z;
  lex_sem : list Z;
  pr_ar_str : list Z;
  logic : list Z;
  knowledge : list Z;
}.

Definition _make_instance (self : TaskObj) (indexers : Indexers) (r : Row)
  : result Instance :=
  let d := [] in
  let d := Py.dict_set d "input1"
             (_sentence_to_text_field (input1 r) indexers) in
  let d := Py.dict_set d "input2"
             (_sentence_to_text_field (input2 r) indexers) in
  let d := Py.dict_set d "labels" (LabelField (label r) "labels" true) in
  let d := Py.dict_set d "idx" (LabelField (idx r) "idx" true) in
  let d := Py.dict_set d "sent1_str"
             (MetadataField (inr (join_spaces (inner (input1 r))))) in
  let d := Py.dict_set d "sent2_str"
             (MetadataField (inr (join_spaces (inner (input2 r))))) in
  let* dic := the_dict (ix_to_lex_sem_dic self) in
  let d := create_labels_from_tags d dic (lex_sem r) "lex_sem" in
  let* dic := the_dict (ix_to_pr_ar_str_dic self) in
  let d := create_labels_from_tags d dic (pr_ar_str r) "pr_ar_str" in
  let* dic := the_dict (ix_to_logic_dic self) in
  let d := create_labels_from_tags d dic (logic r) "logic" in
  let* dic := the_dict (ix_to_knowledge_dic self) in
  let d := create_labels_from_tags d dic (knowledge r) "knowledge" in
  Ok d.

(** The split as stored: eight parallel columns. *)
Record Columns : Type := mkColumns {
  sents1 : list (list string);
  sents2 : list (list string);
  targs : list Z;
  idxs : list Z;
  col_lex_sem : list (list Z);
  col_pr_ar_str : list (list Z);
  col_logic : list (list Z);
  col_knowledge : list (list Z);
}.

(** [map(f, *split)] walks the columns in step and stops with the
    shortest. *)
Fixpoint rows_of (c1 c2 : list (list string)) (c3 c4 : list Z)
    (c5 c6 c7 c8 : list (list Z)) : list Row :=
  match c1, c2, c3, c4, c5, c6, c7, c8 with
  | a1 :: r1, a2 :: r2, a3 :: r3, a4 :: r4,
    a5 :: r5, a6 :: r6, a7 :: r7, a8 :: r8 =>
      mkRow a1 a2 a3 a4 a5 a6 a7 a8 :: rows_of r1 r2 r3 r4 r5 r6 r7 r8
  | _, _, _, _, _, _, _, _ => []
  end.

Definition rows (split : Columns) : list Row :=
  rows_of (sents1 split) (sents2 split) (targs split) (idxs split)
    (col_lex_sem split) (col_pr_ar_str split) (col_logic split)
    (col_knowledge split).

(** [MultiNLIDiagnosticTask.process_split]. *)
Definition process_split (self : TaskObj) (split : Columns)
    (indexers : Indexers) : gen Instance :=
  gen_for (rows split) (fun r =>
    match _make_instance self indexers r with
    | Ok inst => gen_yield inst gen_done
    | Raise e => gen_raise e
    end).

(** The four "any tag present" fields of an instance made from row [r]:
    [0] for an empty tag array and [1] otherwise. *)
Definition any_tag_fields (r : Row) (d : Instance) : Prop :=
  Py.dict_get d "lex_sem"
    = Some (LabelField (match lex_sem r with [] => 0 | _ => 1 end)
              "lex_sem" true)
  /\ Py.dict_get d "pr_ar_str"
    = Some (LabelField (match pr_ar_str r with [] => 0 | _ => 1 end)
              "pr_ar_str" true)
  /\ Py.dict_get d "logic"
    = Some (LabelField (match logic r with [] => 0 | _ => 1 end)
              "logic" true)
  /\ Py.dict_get d "knowledge"
    = Some (LabelField (match knowledge r with [] => 0 | _ => 1 end)
              "knowledge" true).

End Diag.

(** ** Concrete data to run the tasks on *)

Module Sample.
Import Allen.

(** Floats as terms that are not interpreted: a reading of a scorer, an
    integer, or an operation applied to terms. *)
Inductive term : Type :=
  | Reading (attr : string) (reset : bool)
  | Precision (attr : string) (reset : bool)
  | Recall (attr : string) (reset : bool)
  | F1 (attr : string) (reset : bool)
  | OfZ (z : Z)
  | Add (a b : term)
  | Sub (a b : term)
  | Div (a b : term)
  | Exp (a : term).

(** [math.exp] is out of range at the whole numbers from 710 on; of the
    terms only these literals have a known value, any other is taken to
    be in range. *)
Definition exp_overflows (a : term) : bool :=
  match a with
  | OfZ z => 710 <=? z
  | _ => false
  end.

Definition term_ops : FloatOps :=
  {| float := term; fadd := Add; fsub := Sub; fdiv := Div;
     fexp := fun a => if exp_overflows a then None else Some (Exp a);
     float_of_Z := OfZ |}.

Definition term_aggregators : @Aggregators term_ops :=
  @Build_Aggregators term_ops Reading
    (fun attr reset =>
       (Precision attr reset, Recall attr reset, F1 attr reset)).

(** Aggregators that all read the whole number [z]: an [Average] over
    batches whose negative log-likelihood is [z] reads it. *)
Definition constant_aggregators (z : Z) : @Aggregators term_ops :=
  @Build_Aggregators term_ops (fun _ _ => OfZ z)
    (fun _ _ => (OfZ z, OfZ z, OfZ z)).

(** Modelled from the spec: [utils.process_sentence], which is not in the
    sources at hand ("a sentence-processing function taking raw text + max
    length + optional sentinel tokens -> ordered token sequence").  The
    text is split at white space, cut to [max_seq_len - 2] tokens and put
    between the two sentinels. *)
Definition ws_process_sentence (sent : string) (max_seq_len : Z)
    (sos_tok eos_tok : string) : list string :=
  ([sos_tok] ++ take (Z.to_nat (max_seq_len - 2)) (Py.split_ws sent)
   ++ [eos_tok])%list.

Definition ws_utils : Utils :=
  {| process_sentence := ws_process_sentence;
     SOS_TOK := "<SOS>";
     EOS_TOK := "<EOS>";
     tokenizer_name := "MosesTokenizer";
     load_lines := fun filename =>
       if String.eqb filename "edges/spr1/labels.txt"
       then Some ["awareness"; "volition"] else None |}.

Definition record1 : Edge.EdgeRecord :=
  Edge.mkRecord "the cat sat"
    (Some [Edge.mkTarget (0, 2) (Some (2, 3)) (inl "awareness")]).
Definition record2 : Edge.EdgeRecord := Edge.mkRecord "nothing here" (Some []).
Definition record3 : Edge.EdgeRecord := Edge.mkRecord "no key" None.
Definition record4 : Edge.EdgeRecord :=
  Edge.mkRecord "a dog ran off"
    (Some [Edge.mkTarget (1, 2) (Some (2, 4)) (inr ["volition"; "awareness"]);
           Edge.mkTarget (0, 1) (Some (1, 2)) (inl "volition")]).
Definition record5 : Edge.EdgeRecord :=
  Edge.mkRecord "held out"
    (Some [Edge.mkTarget (0, 1) (Some (1, 2)) (inl "volition")]).

Definition edge_train_file : string :=
  "edges/spr1/spr1.train.json.retokenized.MosesTokenizer".
Definition edge_test_file : string :=
  "edges/spr1/spr1.test.json.retokenized.MosesTokenizer".

Definition edge_json_data (filename : string) : gen Edge.EdgeRecord :=
  if String.eqb filename edge_train_file
  then Gen [record1; record2; record3; record4] None
  else if String.eqb filename edge_test_file
  then Gen [record5; record2] None
  else gen_raise FileNotFoundError.

Definition edge_files : Py.dict string :=
  [("train", "spr1.train.json"); ("test", "spr1.test.json")].

(** [EdgeProbingTask("edges/spr1", 40, "edges-spr1", "labels.txt",
    edge_files)]. *)
Definition edge_task : result Edge.EdgeTask :=
  @Edge.__init__ ws_utils edge_json_data "edges/spr1" 40 "edges-spr1"
    (Some "labels.txt") (Some edge_files) false false.

(** The task that this call returns. *)
Definition edge_self : Edge.EdgeTask :=
  Edge.mkEdgeTask (Init.EdgeProbingTask_init_obj "edges-spr1")
    [("train", edge_train_file); ("test", edge_test_file)]
    [("train", PyList [record1; record4]); ("test", PyList [record5])]
    40 false false ["awareness"; "volition"] 2 "edges-spr1_labels".

(** A WikiText-103 task with room for two tokens between the sentinels,
    and its files. *)
Definition wiki_task : option Stream.StreamTask :=
  Stream.construct WikiText103LMTask "wiki" 4 "wiki103" "".

Definition wiki_self : Stream.StreamTask :=
  Stream.mkStreamTask
    [("train", "wiki/train.sentences.txt");
     ("val", "wiki/valid.sentences.txt");
     ("test", "wiki/test.sentences.txt")]
    4 (Some 0) (Some [("words", SingleIdTokenIndexer "tokens")]).

Definition wiki_fs (test_rows : list string) : FileSystem :=
  fun path =>
    if String.eqb path "wiki/train.sentences.txt"
    then Some ["a = b ="; ""; "the cat sat on the mat"; "= Title ="]
    else if String.eqb path "wiki/valid.sentences.txt"
    then Some ["x"; "so it goes"]
    else if String.eqb path "wiki/test.sentences.txt"
    then Some test_rows
    else None.

End Sample.

(** ** The base class: counting examples *)

Module Base.

(** [Task.count_examples(splits)]: [self.example_counts] is a fresh dict
    that the loop fills; an exception of [get_split_text] or
    [get_num_examples] ends the loop and leaves the dict as filled so
    far.  The two methods are those of the class of the task. *)
Fixpoint count_examples_from {ST C : Type}
    (get_split_text : string -> result ST)
    (get_num_examples : ST -> result C)
    (splits : list string) (example_counts : Py.dict C)
  : Py.dict C * option exn :=
  match splits with
  | [] => (example_counts, None)
  | split :: rest =>
      match get_split_text split with
      | Raise e => (example_counts, Some e)
      | Ok st =>
          match get_num_examples st with
          | Raise e => (example_counts, Some e)
          | Ok count =>
              count_examples_from get_split_text get_num_examples rest
                (Py.dict_set example_counts split count)
          end
      end
  end.

Definition count_examples {ST C : Type}
    (get_split_text : string -> result ST)
    (get_num_examples : ST -> result C) (splits : list string)
  : Py.dict C * option exn :=
  count_examples_from get_split_text get_num_examples splits [].

(** The default of the [splits] argument. *)
Definition default_splits : list string := ["train"; "val"; "test"].

(** [n_train_examples] and [n_val_examples]. *)
Definition n_train_examples {C} (example_counts : Py.dict C) : result C :=
  of_option KeyError (Py.dict_get example_counts "train").
Definition n_val_examples {C} (example_counts : Py.dict C) : result C :=
  of_option KeyError (Py.dict_get example_counts "val").

(** [EdgeProbingTask] runs the inherited [count_examples] on its own
    [get_split_text] and [get_num_examples]. *)
Definition EdgeProbingTask_count_examples (self : Edge.EdgeTask)
    (splits : list string) : Py.dict nat * option exn :=
  count_examples (Edge.get_split_text self) Edge.get_num_examples splits.

End Base.

(** ** Columns of sentences made into instances *)

Module Columns.
Import Allen.

Section WithFloats.
Context `{FloatOps}.

(** The fields of an instance of a single-sentence or sentence-pair
    task: fields of the library, a label that may be a float, and the
    numeric field of a regression target. *)
Inductive ColField : Type :=
  | Lib (f : Field)
  | LabelOf (label : pynum) (label_namespace : string) (skip_indexing : bool)
  | NumericField (x : pynum).

(** The tuple that [load_tsv] returns for a split: the two sentence
    columns, the target column and, when the file has one, the index
    column. *)
Record Split : Type := mkSplit {
  sents1 : list (list string);
  sents2 : list (list string);
  targs : list pynum;
  idxs : option (list Z);
}.

(** [Task.get_num_examples]: [len(split_text[0])]. *)
Definition Task_get_num_examples (split_text : Split) : nat :=
  length (sents1 split_text).

(** [if input2:], for [None] or a sentence. *)
Definition sentence_truthy (input2 : option (list string)) : bool :=
  match input2 with
  | Some (_ :: _) => true
  | Some [] => false
  | None => false
  end.

(** [_make_instance] of [process_single_pair_task_split]. *)
Definition _make_instance (indexers : Indexers) (classification : bool)
    (input1 : list string) (input2 : option (list string))
    (labels : pynum) (idx : Z) : Py.dict ColField :=
  let d := [] in
  let d := Py.dict_set d "input1"
             (Lib (_sentence_to_text_field input1 indexers)) in
  let d := Py.dict_set d "sent1_str"
             (Lib (MetadataField
                     (inr (Diag.join_spaces (Diag.inner input1))))) in
  let d :=
    if sentence_truthy input2 then
      let input2 := default [] input2 in
      let d := Py.dict_set d "input2"
                 (Lib (_sentence_to_text_field input2 indexers)) in
      Py.dict_set d "sent2_str"
        (Lib (MetadataField (inr (Diag.join_spaces (Diag.inner input2)))))
    else d in
  let d :=
    if classification
    then Py.dict_set d "labels" (LabelOf labels "labels" true)
    else Py.dict_set d "labels" (NumericField labels) in
  Py.dict_set d "idx" (Lib (LabelField idx "idxs" true)).

(** [map(_make_instance, *split)] over the four columns: the second is
    [None] for [itertools.repeat(None)], the fourth is [None] for
    [itertools.count()], which has reached [n].  The walk ends with the
    first column that runs out. *)
Fixpoint map_columns (indexers : Indexers) (classification : bool)
    (c1 : list (list string)) (c2 : option (list (list string)))
    (c3 : list pynum) (c4 : option (list Z)) (n : Z)
  : list (Py.dict ColField) :=
  match c1 with
  | [] => []
  | input1 :: r1 =>
      match c2 with
      | Some [] => []
      | _ =>
          match c3 with
          | [] => []
          | labels :: r3 =>
              match c4 with
              | Some [] => []
              | _ =>
                  let input2 := match c2 with
                                | Some (x :: _) => Some x
                                | _ => None
                                end in
                  let r2 := match c2 with
                            | Some (_ :: r) => Some r
                            | _ => None
                            end in
                  let idx := match c4 with
                             | Some (i :: _) => i
                             | _ => n
                             end in
                  let r4 := match c4 with
                            | Some (_ :: r) => Some r
                            | _ => None
                            end in
                  _make_instance indexers classification input1 input2
                    labels idx
                  :: map_columns indexers classification r1 r2 r3 r4 (n + 1)
              end
          end
      end
  end.

(** [process_single_pair_task_split(split, indexers, is_pair,
    classification)]. *)
Definition process_single_pair_task_split (split : Split)
    (indexers : Indexers) (is_pair classification : bool)
  : list (Py.dict ColField) :=
  let c2 := if negb is_pair then None else Some (sents2 split) in
  map_columns indexers classification (sents1 split) c2 (targs split)
    (idxs split) 0.

(** [SingleClassificationTask.process_split] and the others that call
    the shared function. *)
Definition SingleClassificationTask_process_split (split : Split)
    (indexers : Indexers) :=
  process_single_pair_task_split split indexers false true.
Definition PairClassificationTask_process_split (split : Split)
    (indexers : Indexers) :=
  process_single_pair_task_split split indexers true true.
Definition PairRegressionTask_process_split (split : Split)
    (indexers : Indexers) :=
  process_single_pair_task_split split indexers true false.
Definition PairOrdinalRegressionTask_process_split (split : Split)
    (indexers : Indexers) :=
  process_single_pair_task_split split indexers true false.

End WithFloats.
End Columns.

(** ** Predictions merged into a record *)

Module Preds.

Section WithValues.
(** The values of predictions, as the JSON has them. *)
Variable V : Type.

(** A prediction is a list, aligned to the targets, or anything else. *)
Inductive pred : Type :=
  | PredList (val : list V)
  | PredValue (val : V).

(** A target and a record as dicts that may hold a [preds] entry. *)
Record PTarget : Type := mkPTarget {
  target : Edge.Target;
  target_preds : option (Py.dict V);
}.

Record PRecord : Type := mkPRecord {
  text : string;
  targets : option (list PTarget);
  preds : option (Py.dict V);
}.

(** [target['preds'] = {}]. *)
Definition clear_preds (t : PTarget) : PTarget :=
  mkPTarget (target t) (Some []).

(** [target['preds'][key] = val[i]] for every target, [vals] being what
    is left of [val]; the lengths are equal when this runs. *)
Fixpoint attach (key : string) (vals : list V) (ts : list PTarget)
  : list PTarget :=
  match ts, vals with
  | t :: ts', v :: vals' =>
      mkPTarget (target t)
        (Some (Py.dict_set (default [] (target_preds t)) key v))
      :: attach key vals' ts'
  | _, _ => ts
  end.

(** The loop over [preds.items()]: the targets and the top-level
    predictions as they stand, and the exception that ended the loop. *)
Fixpoint merge_items (items : list (string * pred)) (ts : list PTarget)
    (top : Py.dict V) : list PTarget * Py.dict V * option exn :=
  match items with
  | [] => (ts, top, None)
  | (key, PredList val) :: rest =>
      if (length val =? length ts)%nat
      then merge_items rest (attach key val ts) top
      else (ts, top, Some AssertionError)
  | (key, PredValue val) :: rest =>
      merge_items rest ts (Py.dict_set top key val)
  end.

(** [EdgeProbingTask.merge_preds(record, preds)]: the record is changed
    in place, so it is returned as the call leaves it together with the
    exception, if the call raised one. *)
Definition merge_preds (record : PRecord) (new_preds : Py.dict pred)
  : PRecord * option exn :=
  match targets record with
  | None => (mkPRecord (text record) None (Some []), Some KeyError)
  | Some ts =>
      let ts := map clear_preds ts in
      let '(ts, top, e) := merge_items new_preds ts [] in
      (mkPRecord (text record) (Some ts) (Some top), e)
  end.

End WithValues.
End Preds.

(** ** More of the streaming tasks: counts, instances, vocabulary *)

Module StreamMore.
Import Allen Stream.

(** [sum(1 for line in open(split_path))] for every split, as the
    [count_examples] of the streaming classes do; [offset] is [0], or
    [-1] for [Wiki103Classification].  [self.example_counts] is assigned
    after the loop. *)
Fixpoint count_lines (fs : FileSystem) (offset : Z)
    (items : list (string * string)) (example_counts : Py.dict Z)
  : result (Py.dict Z) :=
  match items with
  | [] => Ok example_counts
  | (split, split_path) :: rest =>
      let* rows := of_option FileNotFoundError (fs split_path) in
      count_lines fs offset rest
        (Py.dict_set example_counts split (Z.of_nat (length rows) + offset))
  end.


(** [Wiki103Classification.count_examples]: one less than the lines. *)
Definition Wiki103Classification_count_examples (self : StreamTask)
    (fs : FileSystem) : result (Py.dict Z) :=
  count_lines fs (-1) (files_by_split self) [].

(** The sentences, pairs and triples of a stream of items. *)
Definition sents_of (g : gen item) : gen (list string) :=
  Gen (omap (fun it => match it with Sent s => Some s | _ => None end)
         (yielded g)) (raised g).
Definition pairs_of (g : gen item) : gen (list string * list string) :=
  Gen (omap (fun it => match it with Pair s t => Some (s, t) | _ => None end)
         (yielded g)) (raised g).
Definition triples_of (g : gen item)
  : gen (list string * list string * Z) :=
  Gen (omap (fun it => match it with
                       | Triple s1 s2 t => Some (s1, s2, t)
                       | _ => None
                       end)
         (yielded g)) (raised g).

(** [_make_instance(input1, input2, labels)] of the pair tasks that
    stream their data. *)
Definition pair_instance (indexers : Indexers) (input1 input2 : list string)
    (labels : Z) : Instance :=
  let d := [] in
  let d := Py.dict_set d "input1" (_sentence_to_text_field input1 indexers) in
  let d := Py.dict_set d "input2" (_sentence_to_text_field input2 indexers) in
  Py.dict_set d "labels" (LabelField labels "labels" true).

(** [RedditTask.process_split]; [RedditPairClassificationTask] and
    [DisSentTask] have the same body. *)
Definition RedditTask_process_split
    (split : gen (list string * list string * Z)) (indexers : Indexers)
  : gen Instance :=
  gen_for_gen split (fun '(sent1, sent2, trg) =>
    gen_yield (pair_instance indexers sent1 sent2 trg) gen_done).

(** The loop of [Wiki103Classification.process_split] once [first] is
    false. *)
Fixpoint pair_with_previous (indexers : Indexers) (prev_sent : list string)
    (sents : list (list string)) : list Instance :=
  match sents with
  | [] => []
  | sent :: rest =>
      pair_instance indexers prev_sent sent 1
      :: pair_with_previous indexers sent rest
  end.

(** [Wiki103Classification.process_split], on a stream of sentences. *)
Definition Wiki103Classification_process_split (split : gen (list string))
    (indexers : Indexers) : gen Instance :=
  match yielded split with
  | [] => Gen [] (raised split)
  | first :: rest => Gen (pair_with_previous indexers first rest) (raised split)
  end.

(** [_make_instance(input, target)] of [MTTask.process_split] and of
    [Wiki103Seq2SeqTask.process_split]. *)
Definition seq2seq_instance (indexers target_indexer : Indexers)
    (input target : list string) : Instance :=
  let d := [] in
  let d := Py.dict_set d "inputs" (_sentence_to_text_field input indexers) in
  Py.dict_set d "targs" (_sentence_to_text_field target target_indexer).

(** [MTTask.process_split]. *)
Definition MTTask_process_split (self : StreamTask)
    (split : gen (list string * list string)) (indexers : Indexers)
  : gen Instance :=
  gen_for_gen split (fun '(sent1, sent2) =>
    match target_indexer self with
    | None => gen_raise AttributeError
    | Some ti => gen_yield (seq2seq_instance indexers ti sent1 sent2) gen_done
    end).

Fixpoint follow_previous (indexers target_indexer : Indexers)
    (prev_sent : list string) (pairs : list (list string * list string))
  : list Instance :=
  match pairs with
  | [] => []
  | (sent, _) :: rest =>
      seq2seq_instance indexers target_indexer prev_sent sent
      :: follow_previous indexers target_indexer sent rest
  end.

(** [Wiki103Seq2SeqTask.process_split]: [self.target_indexer] is read
    before the loop. *)
Definition Wiki103Seq2SeqTask_process_split (self : StreamTask)
    (split : gen (list string * list string)) (indexers : Indexers)
  : gen Instance :=
  match target_indexer self with
  | None => gen_raise AttributeError
  | Some ti =>
      match yielded split with
      | [] => Gen [] (raised split)
      | (first, _) :: rest =>
          Gen (follow_previous indexers ti first rest) (raised split)
      end
  end.

(** [Wiki103Seq2SeqTask.get_num_examples]: [len(split_text) - 1]. *)
Definition Wiki103Seq2SeqTask_get_num_examples {A}
    (split_text : iterable A) : result Z :=
  let* n := py_len split_text in Ok (Z.of_nat n - 1).

(** [get_split_text] of the streaming classes: the generator that
    [self.load_data] returns for the file of the split. *)
Definition get_split_text `{Utils} (c : TaskClass) (self : StreamTask)
    (fs : FileSystem) (split : string) : result (iterable item) :=
  let* path := of_option KeyError (Py.dict_get (files_by_split self) split) in
  Ok (PyGenerator (load_data c self fs path)).







End StreamMore.

(** ** Predicates the further theorems are stated with *)

Module Props.

(** A record that [make_instance] accepts: it has targets, and for a
    task with two sides every target has a second span. *)
Definition record_ok (single_sided : bool) (r : Edge.EdgeRecord) : bool :=
  match Edge.targets r with
  | None => false
  | Some ts =>
      single_sided
      || forallb (fun t => match Edge.span2 t with
                           | Some _ => true
                           | None => false
                           end) ts
  end.

(** The number of tokens of the text of a record. *)
Definition n_tokens (r : Edge.EdgeRecord) : nat :=
  length (Py.split_ws (Edge.text r)).


(** The two sentences of a triple, as [get_sentences] yields them. *)
Definition both_sentences (t : list string * list string * Z)
  : list Stream.item :=
  [Stream.Sent (fst (fst t)); Stream.Sent (snd (fst t))].

(** What [get_sentences] makes of the stream of one file of triples. *)
Definition sentences_of_file (g : gen Stream.item) : gen Stream.item :=
  Gen (flat_map both_sentences (yielded (StreamMore.triples_of g)))
      (raised g).




(** The four tag groups of the diagnostic task: the name of the group,
    its table and the tag array of a row. *)
Definition tag_groups (ls ps lg kn : Obj.TagDict) (r : Diag.Row)
  : list (string * Obj.TagDict * list Z) :=
  [("lex_sem", ls, Diag.lex_sem r); ("pr_ar_str", ps, Diag.pr_ar_str r);
   ("logic", lg, Diag.logic r); ("knowledge", kn, Diag.knowledge r)].

(** The four tag groups and their tables. *)
Definition group_tables (ls ps lg kn : Obj.TagDict)
  : list (string * Obj.TagDict) :=
  [("lex_sem", ls); ("pr_ar_str", ps); ("logic", lg); ("knowledge", kn)].

End Props.

(** ** More concrete data *)

Module SampleMore.
Import Allen.






(** A table of lexical-semantics tags and a row tagged with one of
    them. *)
Definition lex_sem_table : Obj.TagDict :=
  [(0, "missing"); (1, "negation"); (2, "quantifier")].

Definition diag_row : Diag.Row :=
  Diag.mkRow ["<SOS>"; "no"; "cat"; "sat"; "<EOS>"]
    ["<SOS>"; "some"; "cat"; "sat"; "<EOS>"] 2 7 [2] [] [] [].

(** A record with two targets, as [merge_preds] takes it, and
    predictions for it. *)
Definition pred_record : Preds.PRecord Z :=
  Preds.mkPRecord Z "a dog ran off"
    (Some [Preds.mkPTarget Z
             (Edge.mkTarget (1, 2) (Some (2, 4)) (inl "volition")) None;
           Preds.mkPTarget Z
             (Edge.mkTarget (0, 1) (Some (1, 2)) (inl "awareness"))
             (Some [("stale", 9)])])
    None.

Definition new_preds : Py.dict (Preds.pred Z) :=
  [("labels", Preds.PredList Z [1; 0]); ("loss", Preds.PredValue Z 5)].

End SampleMore.

(** ** Theorems *)

(** *** The registry *)

Module RegistryFacts.
Import Registry.

(** C5: two successive registrations under one name leave the registry as
    if only the second had happened: the name maps to the second entry and
    every other name keeps the entry it had. *)
Theorem register_task_last_wins
    (name rp1 rp2 : string) (kw1 kw2 : Py.dict kwval)
    (cls1 cls2 : TaskClass) (REGISTRY : gmap string entry) :
  (register_task name rp2 kw2 cls2
     (register_task name rp1 kw1 cls1 REGISTRY).2).2 !! name
    = Some (make_entry cls2 rp2 kw2)
  /\ (register_task name rp2 kw2 cls2
        (register_task name rp1 kw1 cls1 REGISTRY).2).2
     = (register_task name rp2 kw2 cls2 REGISTRY).2
  /\ delete name
       (register_task name rp2 kw2 cls2
          (register_task name rp1 kw1 cls1 REGISTRY).2).2
     = delete name REGISTRY.
Proof.
  unfold register_task; simpl.
  split; [apply lookup_insert_eq|].
  split; [apply insert_insert_eq|].
  by rewrite insert_insert_eq, delete_insert_eq.
Qed.

(** C10: the entry stored under the name is the pair (class, rel_path)
    when no keyword option is given and the triple
    (class, rel_path, options) when at least one is given. *)
Theorem register_task_entry_shape
    (name rel_path : string) (kw : Py.dict kwval) (cls : TaskClass)
    (REGISTRY : gmap string entry) :
  (register_task name rel_path kw cls REGISTRY).2 !! name
    = Some (match kw with
            | [] => Entry2 cls rel_path
            | _ :: _ => Entry3 cls rel_path kw
            end)
  /\ (register_task name rel_path kw cls REGISTRY).1 = cls.
Proof.
  unfold register_task, make_entry; simpl.
  rewrite lookup_insert_eq. by destruct kw.
Qed.

End RegistryFacts.

(** *** Dicts *)

Module DictFacts.
Import Py.

Lemma length_append (s t : string) :
  String.length (s +:+ t) = (String.length s + String.length t)%nat.
Proof. induction s as [|c s IH]; simpl; [done | by rewrite IH]. Qed.

Lemma eqb_false_of_ne (k k' : string) : k <> k' -> String.eqb k k' = false.
Proof. intros Hne. by apply String.eqb_neq. Qed.

Lemma dict_get_set_eq {V} (d : dict V) k v :
  dict_get (dict_set d k v) k = Some v.
Proof.
  induction d as [|[k0 v0] d IH]; simpl.
  - by rewrite String.eqb_refl.
  - destruct (String.eqb k0 k) eqn:E; simpl; rewrite E; [done | apply IH].
Qed.

Lemma dict_get_set_ne {V} (d : dict V) k k' v :
  k <> k' -> dict_get (dict_set d k v) k' = dict_get d k'.
Proof.
  intros Hne. induction d as [|[k0 v0] d IH]; simpl.
  - by rewrite (eqb_false_of_ne k k').
  - destruct (String.eqb k0 k) eqn:E; simpl.
    + apply String.eqb_eq in E. subst k0.
      by rewrite (eqb_false_of_ne k k').
    + destruct (String.eqb k0 k'); [done | apply IH].
Qed.

Lemma dict_get_set_is_Some {V} (d : dict V) k k' v :
  is_Some (dict_get d k') -> is_Some (dict_get (dict_set d k v) k').
Proof.
  intros Hs. destruct (String.eqb_spec k k') as [->|Hne].
  - rewrite dict_get_set_eq. eauto.
  - by rewrite dict_get_set_ne.
Qed.

Lemma dict_keys_set_in {V} (d : dict V) k k' v :
  In k' (dict_keys d) -> In k' (dict_keys (dict_set d k v)).
Proof.
  unfold dict_keys. induction d as [|[k0 v0] d IH]; simpl; [tauto|].
  destruct (String.eqb k0 k); simpl; tauto.
Qed.

Lemma dict_keys_set_new {V} (d : dict V) k v :
  In k (dict_keys (dict_set d k v)).
Proof.
  unfold dict_keys. induction d as [|[k0 v0] d IH]; simpl; [tauto|].
  destruct (String.eqb k0 k) eqn:E; simpl; [|tauto].
  apply String.eqb_eq in E. tauto.
Qed.

Lemma dict_keys_set_inv {V} (d : dict V) k k' v :
  In k' (dict_keys (dict_set d k v)) -> k' = k \/ In k' (dict_keys d).
Proof.
  unfold dict_keys. induction d as [|[k0 v0] d IH]; simpl.
  - intros [->|[]]. tauto.
  - destruct (String.eqb k0 k); simpl; tauto.
Qed.

Lemma dict_set_NoDup {V} (d : dict V) k v :
  List.NoDup (dict_keys d) -> List.NoDup (dict_keys (dict_set d k v)).
Proof.
  unfold dict_keys. induction d as [|[k0 v0] d IH]; simpl; intros Hnd.
  - constructor; [simpl; tauto | constructor].
  - inversion Hnd as [|? ? Hnot Hnd']; subst.
    destruct (String.eqb k0 k) eqn:E; simpl.
    + by constructor.
    + constructor; [|by apply IH].
      intros Hin. apply (dict_keys_set_inv d k k0 v) in Hin.
      destruct Hin as [->|Hin]; [|done].
      by rewrite String.eqb_refl in E.
Qed.

Lemma dict_get_In {V} (d : dict V) k v :
  dict_get d k = Some v -> In (k, v) d.
Proof.
  induction d as [|[k0 v0] d IH]; simpl; [done|].
  destruct (String.eqb k0 k) eqn:E.
  - apply String.eqb_eq in E. intros [= ->]. left. by subst.
  - intros Hg. right. by apply IH.
Qed.

Lemma dict_get_None_notin {V} (d : dict V) k :
  ~ In k (dict_keys d) -> dict_get d k = None.
Proof.
  unfold dict_keys. induction d as [|[k0 v0] d IH]; simpl; [done|].
  intros Hn. destruct (String.eqb k0 k) eqn:E.
  - apply String.eqb_eq in E. tauto.
  - apply IH. tauto.
Qed.

End DictFacts.

(** *** The diagnostic task *)

Module DiagFacts.
Import Allen Obj Diag DictFacts.

Lemma create_tag_scorers_fields sc items g o :
  let o' := Init.create_tag_scorers sc items g o in
  name o' = name o /\ val_metric o' = val_metric o
  /\ scorer1 o' = scorer1 o
  /\ ix_to_lex_sem_dic o' = ix_to_lex_sem_dic o
  /\ ix_to_pr_ar_str_dic o' = ix_to_pr_ar_str_dic o
  /\ ix_to_logic_dic o' = ix_to_logic_dic o
  /\ ix_to_knowledge_dic o' = ix_to_knowledge_dic o.
Proof.
  revert o. induction items as [|[ix tag] items IH]; intros o; simpl.
  - tauto.
  - destruct (ix =? 0); [apply IH|].
    specialize (IH (setattr ("scorer__" +:+ g +:+ "__" +:+ tag) sc o)).
    simpl in IH. exact IH.
Qed.

Lemma create_score_function_fields sc items g o :
  let o' := Init.create_score_function sc items g o in
  name o' = name o /\ val_metric o' = val_metric o
  /\ scorer1 o' = scorer1 o
  /\ ix_to_lex_sem_dic o' = ix_to_lex_sem_dic o
  /\ ix_to_pr_ar_str_dic o' = ix_to_pr_ar_str_dic o
  /\ ix_to_logic_dic o' = ix_to_logic_dic o
  /\ ix_to_knowledge_dic o' = ix_to_knowledge_dic o.
Proof.
  unfold Init.create_score_function.
  apply (create_tag_scorers_fields sc items g (setattr ("scorer__" +:+ g) sc o)).
Qed.

Lemma diagnostic_init_fields nm ls ps lg kn :
  let o := Init.MultiNLIDiagnosticTask_init nm ls ps lg kn in
  name o = nm /\ val_metric o = Some (nm +:+ "_accuracy")
  /\ scorer1 o = Some CategoricalAccuracy
  /\ ix_to_lex_sem_dic o = Some ls /\ ix_to_pr_ar_str_dic o = Some ps
  /\ ix_to_logic_dic o = Some lg /\ ix_to_knowledge_dic o = Some kn.
Proof.
  unfold Init.MultiNLIDiagnosticTask_init.
  repeat match goal with
  | |- context [Init.create_score_function ?sc ?it ?g ?o] =>
      let H := fresh in
      pose proof (create_score_function_fields sc it g o) as H;
      simpl in H; destruct H as (-> & -> & -> & -> & -> & -> & ->)
  end.
  simpl. tauto.
Qed.

(** The per-tag fields of a group never land on the key [k] when [k] is
    not of the shape [group__tag]. *)
Lemma create_tag_labels_get d items arr g k :
  (forall tag, g +:+ "__" +:+ tag <> k) ->
  Py.dict_get (create_tag_labels d items arr g) k = Py.dict_get d k.
Proof.
  intros Hk. revert d. induction items as [|[ix tag] items IH]; intros d.
  - done.
  - simpl. destruct (ix =? 0); [apply IH|].
    rewrite IH. by apply dict_get_set_ne.
Qed.

Lemma create_labels_get_other d items arr g k :
  g <> k -> (forall tag, g +:+ "__" +:+ tag <> k) ->
  Py.dict_get (create_labels_from_tags d items arr g) k = Py.dict_get d k.
Proof.
  intros Hg Hk. unfold create_labels_from_tags.
  rewrite create_tag_labels_get by done. by apply dict_get_set_ne.
Qed.

Lemma create_labels_get_group d items arr g :
  Py.dict_get (create_labels_from_tags d items arr g) g
  = Some (LabelField (if (length arr =? 0)%nat then 0 else 1) g true).
Proof.
  unfold create_labels_from_tags.
  rewrite create_tag_labels_get.
  - apply dict_get_set_eq.
  - intros tag Heq.
    apply (f_equal String.length) in Heq.
    rewrite !length_append in Heq. simpl in Heq. lia.
Qed.

Ltac other_group :=
  rewrite create_labels_get_other;
  [ | discriminate | intros tag; simpl; discriminate ].

Lemma make_instance_any_tag nm ls ps lg kn indexers r :
  exists d,
    _make_instance (Init.MultiNLIDiagnosticTask_init nm ls ps lg kn)
      indexers r = Ok d
    /\ any_tag_fields r d.
Proof.
  destruct (diagnostic_init_fields nm ls ps lg kn)
    as (_ & _ & _ & Hls & Hps & Hlg & Hkn).
  unfold _make_instance. rewrite Hls, Hps, Hlg, Hkn. simpl.
  eexists. split; [reflexivity|].
  unfold any_tag_fields. repeat split.
  - do 3 other_group. rewrite create_labels_get_group.
    by destruct (lex_sem r).
  - do 2 other_group. rewrite create_labels_get_group.
    by destruct (pr_ar_str r).
  - other_group. rewrite create_labels_get_group.
    by destruct (logic r).
  - rewrite create_labels_get_group. by destruct (knowledge r).
Qed.

(** C9: every instance that [process_split] of the diagnostic task makes
    from a row carries, for each of the four dimensions at once, an "any
    tag present" field that is [0] when the row's tag array of that
    dimension is empty and [1] when it is not; one instance is made per
    row. *)
Theorem diagnostic_any_tag_present
    (nm : string) (ls ps lg kn : TagDict) (indexers : Indexers)
    (split : Columns) :
  exists insts,
    process_split (Init.MultiNLIDiagnosticTask_init nm ls ps lg kn)
      split indexers = Gen insts None
    /\ Forall2 any_tag_fields (rows split) insts.
Proof.
  unfold process_split. induction (rows split) as [|r rs IH].
  - exists []. split; [reflexivity | constructor].
  - destruct IH as (insts & Hrun & Hall).
    destruct (make_instance_any_tag nm ls ps lg kn indexers r)
      as (d & Hd & Hfields).
    exists (d :: insts). split; [|by constructor].
    simpl. rewrite Hd, Hrun. reflexivity.
Qed.

End DiagFacts.

(** *** Validation metric and metric dictionary *)

Module MetricsFacts.
Import Allen Obj DictFacts.

Lemma create_tag_scorers_keeps sc items g o k :
  is_Some (Py.dict_get (dyn o) k) ->
  is_Some (Py.dict_get (dyn (Init.create_tag_scorers sc items g o)) k).
Proof.
  revert o. induction items as [|[ix tag] items IH]; intros o Hk; simpl.
  - done.
  - destruct (ix =? 0); apply IH; [done|].
    simpl. by apply dict_get_set_is_Some.
Qed.

Lemma create_tag_scorers_new sc items g o ix tag :
  In (ix, tag) items -> ix <> 0 ->
  is_Some (Py.dict_get (dyn (Init.create_tag_scorers sc items g o))
             ("scorer__" +:+ g +:+ "__" +:+ tag)).
Proof.
  revert o. induction items as [|[ix' tag'] items IH]; intros o Hin Hnz.
  - destruct Hin.
  - simpl. destruct Hin as [[= -> ->]|Hin].
    + destruct (Z.eqb_spec ix 0) as [|_]; [done|].
      apply create_tag_scorers_keeps. simpl.
      rewrite dict_get_set_eq. eauto.
    + destruct (ix' =? 0); by apply IH.
Qed.

Lemma create_score_function_keeps sc items g o k :
  is_Some (Py.dict_get (dyn o) k) ->
  is_Some (Py.dict_get (dyn (Init.create_score_function sc items g o)) k).
Proof.
  intros Hk. unfold Init.create_score_function.
  apply create_tag_scorers_keeps. simpl. by apply dict_get_set_is_Some.
Qed.

Lemma create_score_function_sets sc items g o :
  group_scorers_set (Init.create_score_function sc items g o) items g.
Proof.
  unfold Init.create_score_function. split.
  - apply create_tag_scorers_keeps. simpl.
    rewrite dict_get_set_eq. eauto.
  - intros ix tag Hin Hnz. by apply create_tag_scorers_new with (ix := ix).
Qed.

Lemma group_scorers_set_keeps sc items' g' o items g :
  group_scorers_set o items g ->
  group_scorers_set (Init.create_score_function sc items' g' o) items g.
Proof.
  intros [H0 Htags]. split.
  - by apply create_score_function_keeps.
  - intros ix tag Hin Hnz. apply create_score_function_keeps. eauto.
Qed.

Lemma diagnostic_init_scorers nm ls ps lg kn :
  let o := Init.MultiNLIDiagnosticTask_init nm ls ps lg kn in
  group_scorers_set o ls "lex_sem" /\ group_scorers_set o ps "pr_ar_str"
  /\ group_scorers_set o lg "logic" /\ group_scorers_set o kn "knowledge".
Proof.
  unfold Init.MultiNLIDiagnosticTask_init.
  split; [|split; [|split]].
  - do 3 apply group_scorers_set_keeps. apply create_score_function_sets.
  - do 2 apply group_scorers_set_keeps. apply create_score_function_sets.
  - apply group_scorers_set_keeps. apply create_score_function_sets.
  - apply create_score_function_sets.
Qed.

Section WithAggregators.
Context `{Aggregators}.

Lemma collect_metrics_ok self reset items g collected :
  group_scorers_set self items g ->
  exists d,
    Metrics.collect_metrics self reset items g collected = Ok d
    /\ forall k, In k (Py.dict_keys collected) -> In k (Py.dict_keys d).
Proof.
  intros [Hgrp Htags]. revert collected Htags.
  induction items as [|[ix tag] items IH]; intros collected Htags; simpl.
  - eauto.
  - destruct (Z.eqb_spec ix 0) as [->|Hnz].
    + unfold getattr. destruct Hgrp as [sc0 ->]. simpl.
      destruct (IH (Py.dict_set collected g
                      (Metrics.get_metric sc0 ("scorer__" +:+ g) reset)))
        as (d & Hd & Hkeys).
      { intros ix' tag' Hin. apply Htags. by right. }
      exists d. split; [done|].
      intros k Hk. apply Hkeys. by apply dict_keys_set_in.
    + unfold getattr.
      destruct (Htags ix tag (or_introl eq_refl) Hnz) as [sc Hsc].
      rewrite Hsc. simpl.
      destruct (IH (Py.dict_set collected (g +:+ "__" +:+ tag)
                      (Metrics.get_metric sc
                         ("scorer__" +:+ g +:+ "__" +:+ tag) reset)))
        as (d & Hd & Hkeys).
      { intros ix' tag' Hin. apply Htags. by right. }
      exists d. split; [done|].
      intros k Hk. apply Hkeys. by apply dict_keys_set_in.
Qed.

Lemma diagnostic_get_metrics_ok nm ls ps lg kn reset :
  exists d,
    Metrics.MultiNLIDiagnosticTask_get_metrics
      (Init.MultiNLIDiagnosticTask_init nm ls ps lg kn) reset = Ok d
    /\ In "accuracy" (Py.dict_keys d).
Proof.
  destruct (DiagFacts.diagnostic_init_fields nm ls ps lg kn)
    as (_ & _ & _ & Hls & Hps & Hlg & Hkn).
  destruct (diagnostic_init_scorers nm ls ps lg kn) as (S1 & S2 & S3 & S4).
  unfold Metrics.MultiNLIDiagnosticTask_get_metrics.
  rewrite Hls, Hps, Hlg, Hkn. simpl.
  destruct (collect_metrics_ok _ reset ls "lex_sem"
              [("accuracy", PInt 0)] S1) as (d1 & -> & K1).
  simpl.
  destruct (collect_metrics_ok _ reset ps "pr_ar_str" d1 S2)
    as (d2 & -> & K2).
  simpl.
  destruct (collect_metrics_ok _ reset lg "logic" d2 S3) as (d3 & -> & K3).
  simpl.
  destruct (collect_metrics_ok _ reset kn "knowledge" d3 S4)
    as (d4 & -> & K4).
  exists d4. split; [done|].
  apply K4, K3, K2, K1. simpl. tauto.
Qed.

(** C3: for every class of the module whose constructor assigns a
    validation metric (all but the bare base classes [Task],
    [ClassificationTask], [RegressionTask] and [RankingTask]), that name
    is the task name, an underscore and a key, and whatever [reset] is
    and whatever the aggregators hold, [get_metrics] of the class either
    returns a dictionary that has this key, or, for the classes whose
    [get_metrics] computes a perplexity, raises [OverflowError] because
    [math.exp] is out of range at what [scorer1] reads; it does the
    second exactly in that case. *)
Theorem val_metric_names_a_metric_key
    (c : TaskClass) (nm : string) (ls ps lg kn : TagDict) (reset : bool) :
  Init.sets_val_metric c = true ->
  exists key,
    val_metric (Init.construct c nm ls ps lg kn) = Some (nm +:+ "_" +:+ key)
    /\ if Metrics.perplexity_overflows c reset
       then Metrics.get_metrics c (Init.construct c nm ls ps lg kn) reset
            = Raise OverflowError
       else exists d,
              Metrics.get_metrics c (Init.construct c nm ls ps lg kn) reset
              = Ok d
              /\ In key (Py.dict_keys d).
Proof.
  intros Hsets.
  destruct c; try discriminate Hsets;
    try (eexists; split; [reflexivity|];
         unfold Metrics.perplexity_overflows, Metrics.get_metrics; simpl;
         try unfold Metrics.LanguageModelingTask_get_metrics;
         try unfold Metrics.MTTask_get_metrics;
         try unfold math_exp; simpl;
         try (destruct (fexp (get_metric_value "scorer1" reset)); simpl);
         first [ reflexivity
               | eexists; split; [reflexivity | simpl; tauto] ]).
  (* the diagnostic task *)
  destruct (DiagFacts.diagnostic_init_fields nm ls ps lg kn)
    as (_ & Hval & _).
  destruct (diagnostic_get_metrics_ok nm ls ps lg kn reset)
    as (d & Hd & Hacc).
  exists "accuracy". split; [exact Hval|].
  unfold Metrics.perplexity_overflows. simpl.
  exists d. split; [exact Hd | exact Hacc].
Qed.

End WithAggregators.
End MetricsFacts.

(** *** Generators *)

Module GenFacts.

Lemma gen_seq_done_l {A} (g : gen A) : gen_seq gen_done g = g.
Proof. by destruct g. Qed.

Lemma gen_seq_yield {A} (x : A) (g : gen A) :
  gen_seq (gen_yield x gen_done) g = gen_yield x g.
Proof. reflexivity. Qed.

(** A loop whose body yields at most one item and never raises is a
    filter followed by a map. *)
Lemma gen_for_filter_map {A B} (keep : A -> bool) (f : A -> B) (xs : list A) :
  gen_for xs (fun x => if keep x then gen_yield (f x) gen_done else gen_done)
  = Gen (map f (List.filter keep xs)) None.
Proof.
  induction xs as [|x xs IH]; simpl; [reflexivity|].
  rewrite IH. by destruct (keep x).
Qed.

Lemma gen_for_gen_filter_map {A B} (keep : A -> bool) (f : A -> B)
    (g : gen A) :
  gen_for_gen g
    (fun x => if keep x then gen_yield (f x) gen_done else gen_done)
  = Gen (map f (List.filter keep (yielded g))) (raised g).
Proof.
  unfold gen_for_gen. rewrite gen_for_filter_map.
  unfold gen_seq; simpl. destruct (raised g); simpl; by rewrite app_nil_r.
Qed.

Lemma gen_for_ext {A B} (xs : list A) (f g : A -> gen B) :
  (forall x, In x xs -> f x = g x) -> gen_for xs f = gen_for xs g.
Proof.
  induction xs as [|x xs IH]; intros Hfg; simpl; [reflexivity|].
  rewrite (Hfg x) by (by left). rewrite IH; [done|].
  intros y Hy. apply Hfg. by right.
Qed.

End GenFacts.

(** *** Edge probing *)

Module EdgeFacts.
Import Allen Obj Edge DictFacts GenFacts.

Section WithUtils.
Context `{Utils}.
Variable load_json_data : string -> gen EdgeRecord.

Lemma stream_loop_filter (records : list EdgeRecord) :
  gen_for records (fun record =>
    if no_targets record then gen_done else gen_yield record gen_done)
  = Gen (List.filter has_targets records) None.
Proof.
  induction records as [|r rs IH]; simpl; [reflexivity|].
  rewrite IH. unfold has_targets. by destruct (no_targets r).
Qed.

Lemma stream_records_filter filename :
  _stream_records load_json_data filename
  = Gen (List.filter has_targets (yielded (load_json_data filename)))
        (raised (load_json_data filename)).
Proof.
  unfold _stream_records, gen_for_gen. rewrite stream_loop_filter.
  unfold gen_seq; simpl.
  destruct (raised (load_json_data filename)); simpl; by rewrite app_nil_r.
Qed.

Lemma dict_set_all_lists d k l :
  all_lists d -> all_lists (Py.dict_set d k (PyList l)).
Proof.
  unfold all_lists. induction d as [|[k0 v0] d IH]; simpl; intros Hd.
  - constructor; [simpl; eauto | constructor].
  - inversion Hd as [|? ? H0 Hd']; subst.
    destruct (String.eqb k0 k); constructor; simpl; eauto.
Qed.

(** What [load_data] leaves under each split: the records of the file
    of that split that have targets, in their order, as a list. *)
Lemma load_data_items_spec items acc res :
  load_data_items load_json_data items acc = Ok res ->
  List.NoDup (map fst items) ->
  (all_lists acc -> all_lists res)
  /\ forall split,
       (forall filename, In (split, filename) items ->
          raised (load_json_data filename) = None
          /\ Py.dict_get res split
             = Some (PyList (List.filter has_targets
                               (yielded (load_json_data filename)))))
       /\ (~ In split (map fst items) ->
           Py.dict_get res split = Py.dict_get acc split).
Proof.
  revert acc. induction items as [|[sp fn] items IH]; intros acc Hrun Hnd.
  - simpl in Hrun. injection Hrun as <-. split; [done|].
    intros split. split; [intros ? []|done].
  - simpl in Hrun. rewrite stream_records_filter in Hrun.
    unfold gen_to_list in Hrun. simpl in Hrun.
    destruct (raised (load_json_data fn)) eqn:Hr; [discriminate|].
    simpl in Hrun.
    inversion Hnd as [|? ? Hnotin Hnd']; subst.
    destruct (IH _ Hrun Hnd') as [Hlists Hsplit].
    split.
    { intros Hacc. apply Hlists. by apply dict_set_all_lists. }
    intros split. destruct (Hsplit split) as [Hin Hout]. split.
    + intros filename [[= <- <-]|Hin'].
      * split; [done|]. rewrite Hout by done. apply dict_get_set_eq.
      * by apply Hin.
    + intros Hnot. simpl in Hnot. rewrite Hout by tauto.
      apply dict_get_set_ne. tauto.
Qed.

Lemma make_files_by_split_NoDup path items acc :
  List.NoDup (Py.dict_keys acc) ->
  List.NoDup (Py.dict_keys (make_files_by_split path items acc)).
Proof.
  revert acc. induction items as [|[sp fn] items IH]; intros acc Hacc; simpl.
  - done.
  - apply IH. by apply dict_set_NoDup.
Qed.

(** The attributes that [__init__] leaves behind when it returns. *)
Lemma init_fields path msl nm lf fbs sym ss self :
  __init__ load_json_data path msl nm lf fbs sym ss = Ok self ->
  exists files,
    fbs = Some files
    /\ _files_by_split self = make_files_by_split path files []
    /\ load_data load_json_data (_files_by_split self)
       = Ok (_iters_by_split self)
    /\ obj self = Init.EdgeProbingTask_init_obj nm
    /\ single_sided self = ss /\ is_symmetric self = sym
    /\ _label_namespace self = nm +:+ "_labels".
Proof.
  unfold __init__. intros Hinit.
  destruct lf as [lf|]; [|discriminate]. simpl in Hinit.
  destruct fbs as [files|]; [|discriminate]. simpl in Hinit.
  destruct (load_data load_json_data _) as [its|] eqn:Hload;
    [|discriminate].
  simpl in Hinit.
  destruct (load_lines _) as [labels|]; [|discriminate].
  simpl in Hinit. injection Hinit as <-. simpl.
  exists files. by repeat split.
Qed.

Lemma init_loaded path msl nm lf fbs sym ss self :
  __init__ load_json_data path msl nm lf fbs sym ss = Ok self ->
  all_lists (_iters_by_split self)
  /\ forall split filename,
       Py.dict_get (_files_by_split self) split = Some filename ->
       raised (load_json_data filename) = None
       /\ Py.dict_get (_iters_by_split self) split
          = Some (PyList (List.filter has_targets
                            (yielded (load_json_data filename)))).
Proof.
  intros Hinit.
  destruct (init_fields _ _ _ _ _ _ _ _ Hinit)
    as (files & _ & Hfiles & Hload & _).
  unfold load_data in Hload.
  assert (Hnd : List.NoDup (map fst (_files_by_split self))).
  { rewrite Hfiles. apply make_files_by_split_NoDup. constructor. }
  destruct (load_data_items_spec _ _ _ Hload Hnd) as [Hlists Hsplit].
  split; [apply Hlists; constructor|].
  intros split filename Hget.
  apply (proj1 (Hsplit split)). by apply dict_get_In.
Qed.

Lemma has_targets_iff (r : EdgeRecord) :
  has_targets r = true <-> exists t ts, targets r = Some (t :: ts).
Proof.
  unfold has_targets, no_targets. destruct (targets r) as [[|t ts]|]; simpl.
  - split; [discriminate | intros (? & ? & [=])].
  - split; [eauto | done].
  - split; [discriminate | intros (? & ? & [=])].
Qed.

(** C1: for a task that [__init__] built and any of its splits, the
    split holds the records of its file whose [targets] list is present
    and not empty, in file order, and [get_num_examples] of the split is
    the number of those records. *)
Theorem edge_loading_drops_empty_targets
    (path : string) (msl : Z) (nm : string) (lf : option string)
    (fbs : option (Py.dict string)) (sym ss : bool) (self : EdgeTask)
    (split filename : string) :
  __init__ load_json_data path msl nm lf fbs sym ss = Ok self ->
  Py.dict_get (_files_by_split self) split = Some filename ->
  let kept := List.filter has_targets (yielded (load_json_data filename)) in
  get_split_text self split = Ok (PyList kept)
  /\ rbind (get_split_text self split) get_num_examples = Ok (length kept)
  /\ (forall r, In r kept <->
        In r (yielded (load_json_data filename))
        /\ exists t ts, targets r = Some (t :: ts)).
Proof.
  intros Hinit Hfile kept.
  destruct (init_loaded _ _ _ _ _ _ _ _ Hinit) as [_ Hsplit].
  destruct (Hsplit split filename Hfile) as [_ Hget].
  unfold get_split_text. rewrite Hget. simpl.
  split; [reflexivity|]. split; [reflexivity|].
  intros r. unfold kept. rewrite List.filter_In, has_targets_iff. tauto.
Qed.

Lemma span2_fields_ok text_field (ts : list Target) (spans : list span) :
  map span2 ts = map Some spans ->
  span2_fields text_field ts
  = Ok (map (fun s => SpanField (fst s + 1) (snd s) text_field) spans).
Proof.
  revert spans. induction ts as [|t ts IH]; intros [|s spans] Hmap;
    simpl in *; try discriminate; [reflexivity|].
  injection Hmap as Hs Hrest. rewrite Hs. simpl.
  rewrite (IH spans Hrest). simpl. unfold _make_span_field.
  do 3 f_equal. lia.
Qed.

(** C6: [make_instance] stores a span [i, j) of a target as the span
    field with start [i + 1] and inclusive end [j], for [span1] of every
    target and, unless the task is single-sided, for [span2] as well. *)
Theorem edge_span_fields_offset
    (self : EdgeTask) (record : EdgeRecord) (idx : Z) (indexers : Indexers)
    (ts : list Target) (spans2 : list span) :
  targets record = Some ts ->
  (single_sided self = false -> map span2 ts = map Some spans2) ->
  let text_field :=
    _sentence_to_text_field
      ([SOS_TOK] ++ Py.split_ws (text record) ++ [EOS_TOK])%list indexers in
  exists d,
    make_instance self record idx indexers = Ok d
    /\ Py.dict_get d "input1" = Some text_field
    /\ Py.dict_get d "span1s"
       = Some (ListField
                 (map (fun t => SpanField (fst (span1 t) + 1) (snd (span1 t))
                                  text_field) ts))
    /\ Py.dict_get d "span2s"
       = if single_sided self then None
         else Some (ListField
                      (map (fun s => SpanField (fst s + 1) (snd s) text_field)
                           spans2)).
Proof.
  intros Hts Hspans text_field.
  assert (Hspan1 :
    map (fun t => _make_span_field (span1 t) text_field 1) ts
    = map (fun t => SpanField (fst (span1 t) + 1) (snd (span1 t)) text_field)
        ts).
  { apply map_ext. intros t. unfold _make_span_field. f_equal. lia. }
  unfold make_instance. fold text_field. rewrite Hts. simpl.
  rewrite Hspan1.
  destruct (single_sided self) eqn:Hss; simpl.
  - eexists. split; [reflexivity|]. by repeat split.
  - rewrite (span2_fields_ok text_field ts spans2 (Hspans eq_refl)). simpl.
    eexists. split; [reflexivity|]. by repeat split.
Qed.

Section WithAggregators.
Context `{Aggregators}.

(** C8, as the code has it: an edge-probing task holds exactly three
    scorers, a Matthews-correlation scorer, a boolean accuracy and a
    binary F1 with positive label 1, and [get_metrics] returns the five
    entries [mcc], [acc], [precision], [recall] and [f1] read from them. *)
Theorem edge_three_scorers_five_metrics
    (path : string) (msl : Z) (nm : string) (lf : option string)
    (fbs : option (Py.dict string)) (sym ss : bool) (self : EdgeTask)
    (reset : bool) :
  __init__ load_json_data path msl nm lf fbs sym ss = Ok self ->
  scorers_of (obj self) = [FastMatthews; BooleanAccuracy; F1Measure 1]
  /\ get_metrics self reset
     = Ok [("mcc", PFloat (get_metric_value "mcc_scorer" reset));
           ("acc", PFloat (get_metric_value "acc_scorer" reset));
           ("precision",
            PFloat (fst (fst (get_metric_prf "f1_scorer" reset))));
           ("recall", PFloat (snd (fst (get_metric_prf "f1_scorer" reset))));
           ("f1", PFloat (snd (get_metric_prf "f1_scorer" reset)))].
Proof.
  intros Hinit.
  destruct (init_fields _ _ _ _ _ _ _ _ Hinit)
    as (files & _ & _ & _ & Hobj & _).
  unfold get_metrics. rewrite Hobj. split; reflexivity.
Qed.

End WithAggregators.

Lemma get_sentences_items_lists items :
  all_lists items -> snd (get_sentences_items items) = items.
Proof.
  induction items as [|[split it] items IH]; intros Hall; [reflexivity|].
  inversion Hall as [|? ? [l Hl] Hall']; subst. simpl in Hl. subst it.
  specialize (IH Hall'). simpl.
  destruct (get_sentences_items items) as [g rest'] eqn:Hrest.
  simpl in IH. subst rest'.
  destruct (Py.startswith split "test"); [reflexivity|].
  destruct (raised (gen_for_gen _ _)); reflexivity.
Qed.

Lemma get_sentences_items_drop_test items :
  fst (get_sentences_items (List.filter Stream.nontest items))
  = fst (get_sentences_items items).
Proof.
  induction items as [|[split it] items IH]; [reflexivity|].
  simpl. unfold Stream.nontest at 1. simpl.
  destruct (Py.startswith split "test") eqn:Htest; simpl.
  - rewrite IH. by destruct (get_sentences_items items).
  - rewrite Htest.
    destruct (iterate it) as [records it'].
    destruct (raised (gen_for_gen records _)); [reflexivity|].
    destruct (get_sentences_items items) as [g rest'].
    destruct (get_sentences_items (List.filter Stream.nontest items)) as [g2 rest2].
    simpl in *. by subst.
Qed.

Lemma set_iters_by_split_same self :
  set_iters_by_split (_iters_by_split self) self = self.
Proof. by destruct self. Qed.

(** Edge probing in C4: the walk leaves the task as it was, so a second
    call yields what the first did, and taking the test splits away
    changes nothing. *)
Lemma edge_get_sentences_repeats path msl nm lf fbs sym ss self :
  __init__ load_json_data path msl nm lf fbs sym ss = Ok self ->
  snd (get_sentences self) = self
  /\ fst (get_sentences (snd (get_sentences self))) = fst (get_sentences self)
  /\ fst (get_sentences
            (set_iters_by_split
               (List.filter Stream.nontest (_iters_by_split self)) self))
     = fst (get_sentences self).
Proof.
  intros Hinit.
  destruct (init_loaded _ _ _ _ _ _ _ _ Hinit) as [Hlists _].
  assert (Hsame : snd (get_sentences self) = self).
  { unfold get_sentences.
    pose proof (get_sentences_items_lists _ Hlists) as Hsnd.
    destruct (get_sentences_items (_iters_by_split self)) as [g its].
    simpl in *. subst its. apply set_iters_by_split_same. }
  split; [exact Hsame|]. split; [by rewrite Hsame|].
  unfold get_sentences. simpl.
  pose proof (get_sentences_items_drop_test (_iters_by_split self)) as Hdrop.
  destruct (get_sentences_items (_iters_by_split self)) as [g its].
  destruct (get_sentences_items (List.filter Stream.nontest _)) as [g2 its2].
  by simpl in *.
Qed.

End WithUtils.
End EdgeFacts.

(** *** Streaming tasks *)

Module StreamFacts.
Import Allen Stream DictFacts GenFacts.

Lemma dict_get_filter_nontest {V} (d : Py.dict V) k :
  Py.startswith k "test" = false ->
  Py.dict_get (List.filter nontest d) k = Py.dict_get d k.
Proof.
  intros Hk. induction d as [|[k0 v0] d IH]; simpl; [reflexivity|].
  unfold nontest at 1. simpl.
  destruct (Py.startswith k0 "test") eqn:Hk0; simpl.
  - destruct (String.eqb_spec k0 k) as [->|_]; [congruence | exact IH].
  - destruct (String.eqb k0 k); [reflexivity | exact IH].
Qed.

(** The loop over the splits does not see the test splits. *)
Lemma for_train_splits_drop_test self body :
  for_train_splits
    (set_files_by_split (List.filter nontest (files_by_split self)) self) body
  = for_train_splits self body.
Proof.
  unfold for_train_splits. simpl.
  generalize (files_by_split self) at 1 3 as items.
  intros items. induction items as [|[k v] items IH]; [reflexivity|].
  simpl. unfold nontest at 1. simpl.
  destruct (Py.startswith k "test") eqn:Hk; simpl.
  - rewrite IH. by rewrite gen_seq_done_l.
  - rewrite Hk, IH. by rewrite dict_get_filter_nontest.
Qed.

(** The loop over the splits runs its body on the paths of the splits
    that are not test splits, and on nothing else. *)
Lemma for_train_splits_ext self body1 body2 :
  (forall split path,
     In split (Py.dict_keys (files_by_split self)) ->
     Py.startswith split "test" = false ->
     Py.dict_get (files_by_split self) split = Some path ->
     body1 path = body2 path) ->
  for_train_splits self body1 = for_train_splits self body2.
Proof.
  intros Hbody. unfold for_train_splits. apply gen_for_ext.
  intros split Hin.
  destruct (Py.startswith split "test") eqn:Hk; [reflexivity|].
  destruct (Py.dict_get (files_by_split self) split) as [path|] eqn:Hget;
    [|reflexivity].
  by apply (Hbody split path).
Qed.

Section WithUtils.
Context `{Utils}.

Lemma load_data_set_files c f self fs path :
  load_data c (set_files_by_split f self) fs path = load_data c self fs path.
Proof. destruct c; reflexivity. Qed.

Lemma load_data_fs_ext c self fs1 fs2 path :
  fs1 path = fs2 path -> load_data c self fs1 path = load_data c self fs2 path.
Proof.
  intros Heq.
  destruct c; try reflexivity; unfold load_data; simpl;
    unfold Wiki103Classification_load_data,
      RedditPairClassificationTask_load_data,
      LanguageModelingTask_load_data, WikiTextLMTask_load_data,
      RedditTask_load_data, MTDataPairClassificationTask_load_data,
      MTTask_load_data, RedditSeq2SeqTask_load_data,
      Wiki103Seq2SeqTask_load_data, DisSentTask_load_data, for_rows;
    by rewrite Heq.
Qed.

Lemma get_sentences_drop_test c self fs :
  get_sentences c
    (set_files_by_split (List.filter nontest (files_by_split self)) self) fs
  = get_sentences c self fs.
Proof.
  destruct c; try reflexivity; unfold get_sentences; simpl;
    unfold Wiki103Classification_get_sentences,
      RedditPairClassificationTask_get_sentences, DisSentTask_get_sentences,
      LanguageModelingTask_get_sentences, RedditTask_get_sentences,
      MTTask_get_sentences;
    rewrite for_train_splits_drop_test;
    apply for_train_splits_ext; intros split path _ _ _;
    by rewrite load_data_set_files.
Qed.

Lemma get_sentences_fs_ext c self fs1 fs2 :
  (forall split path,
     In split (Py.dict_keys (files_by_split self)) ->
     Py.startswith split "test" = false ->
     Py.dict_get (files_by_split self) split = Some path ->
     fs1 path = fs2 path) ->
  get_sentences c self fs1 = get_sentences c self fs2.
Proof.
  intros Hfs.
  destruct c; try reflexivity; unfold get_sentences; simpl;
    unfold Wiki103Classification_get_sentences,
      RedditPairClassificationTask_get_sentences, DisSentTask_get_sentences,
      LanguageModelingTask_get_sentences, RedditTask_get_sentences,
      MTTask_get_sentences;
    apply for_train_splits_ext; intros split path Hin Hk Hget;
    by rewrite (load_data_fs_ext _ self fs1 fs2 path (Hfs _ _ Hin Hk Hget)).
Qed.

Lemma streaming_methods c :
  streaming c = true ->
  is_Some (Metrics.lookup_method own_get_sentences 8 c)
  /\ is_Some (Metrics.lookup_method own_load_data 8 c).
Proof. destruct c; try discriminate; intros _; simpl; eauto. Qed.

(** Shifting left by one with the first token put at the end. *)
Lemma rotate_left_lookup {A} (x : A) (xs : list A) (i : nat) :
  (i < S (length xs))%nat ->
  (xs ++ [x])%list !! i
  = (x :: xs) !! Z.to_nat ((Z.of_nat i + 1) mod Z.of_nat (S (length xs))).
Proof.
  intros Hi. destruct (decide (i < length xs)%nat) as [Hlt|Hge].
  - rewrite Z.mod_small by lia.
    replace (Z.to_nat (Z.of_nat i + 1)) with (S i) by lia.
    simpl. by apply lookup_app_l.
  - assert (i = length xs) as -> by lia.
    replace (Z.of_nat (length xs) + 1) with (Z.of_nat (S (length xs)))
      by lia.
    rewrite Z_mod_same_full. simpl.
    rewrite lookup_app_r by lia. by rewrite Nat.sub_diag.
Qed.

(** Shifting right by one with the last token put at the front. *)
Lemma rotate_right_lookup {A} (x : A) (xs : list A) (i : nat) :
  (i < length (xs ++ [x]))%nat ->
  (x :: xs) !! i
  = (xs ++ [x])%list
      !! Z.to_nat ((Z.of_nat i - 1) mod Z.of_nat (length (xs ++ [x]))).
Proof.
  rewrite length_app. simpl. intros Hi. destruct i as [|i].
  - replace (Z.of_nat 0 - 1) with (-1) by lia.
    replace ((-1) mod Z.of_nat (length xs + 1))
      with (Z.of_nat (length xs)).
    + rewrite Nat2Z.id. rewrite lookup_app_r by lia.
      by rewrite Nat.sub_diag.
    + apply Z.mod_unique_pos with (q := -1); lia.
  - rewrite Z.mod_small by lia.
    replace (Z.to_nat (Z.of_nat (S i) - 1)) with i by lia.
    simpl. symmetry. apply lookup_app_l. lia.
Qed.

Lemma LM_make_instance_targets self indexers ti sent :
  target_indexer self = Some ti -> sent <> [] ->
  exists d,
    LM_make_instance self indexers sent = Ok d
    /\ lm_targets indexers ti sent d.
Proof.
  intros Hti Hne. unfold LM_make_instance. rewrite Hti.
  destruct sent as [|x xs]; [done|]. simpl head. simpl tail.
  destruct (last (x :: xs)) as [y|] eqn:Hlast;
    [|by apply last_None in Hlast].
  simpl. eexists. split; [reflexivity|].
  apply last_Some in Hlast as [l' Hl'].
  exists (xs ++ [x])%list, (y :: removelast (x :: xs)).
  split; [reflexivity|]. split; [reflexivity|]. split; [reflexivity|].
  assert (Hrm : removelast (x :: xs) = l').
  { rewrite Hl'. apply removelast_last. }
  split; [rewrite length_app; simpl; lia|].
  split.
  { rewrite Hrm, Hl'. rewrite length_app. simpl. lia. }
  intros i Hi. split.
  - by apply rotate_left_lookup.
  - rewrite Hrm. rewrite Hl' in *. by apply rotate_right_lookup.
Qed.

(** C2: [process_split] of a language-modeling task makes one instance
    per sentence, and for a sentence of [n] tokens, none of the sentences
    being empty, the forward target at position [i] is the input token at
    [(i + 1) mod n] and the backward target the one at [(i - 1) mod n]. *)
Theorem lm_targets_are_rotations
    (self : StreamTask) (indexers ti : Indexers) (sents : list (list string)) :
  target_indexer self = Some ti ->
  Forall (fun sent => sent <> []) sents ->
  exists insts,
    LanguageModelingTask_process_split self (Gen (map Sent sents) None)
      indexers = Gen insts None
    /\ Forall2 (lm_targets indexers ti) sents insts.
Proof.
  intros Hti Hall. unfold LanguageModelingTask_process_split, gen_for_gen.
  simpl.
  induction Hall as [|sent sents Hne Hall IH].
  - exists []. split; [reflexivity | constructor].
  - destruct IH as (insts & Hrun & Hrel).
    destruct (LM_make_instance_targets self indexers ti sent Hti Hne)
      as (d & Hd & Hlm).
    exists (d :: insts). split; [|by constructor].
    simpl. rewrite Hd. rewrite gen_seq_yield.
    unfold gen_seq in Hrun |- *. simpl in Hrun |- *.
    destruct (raised (gen_for (map Sent sents) _)) eqn:Hr.
    + destruct (gen_for (map Sent sents) _); simpl in *. congruence.
    + simpl in *. injection Hrun as Hy. rewrite app_nil_r in Hy |- *.
      by rewrite Hy.
Qed.

Lemma restore_first_map first rest atomic_tok sent :
  restore_first (first :: rest) atomic_tok sent
  = Ok (map (fun t => if String.eqb t atomic_tok then first else t) sent).
Proof.
  induction sent as [|t sent IH]; simpl; [reflexivity|].
  rewrite IH. by destruct (String.eqb t atomic_tok).
Qed.




End WithUtils.
End StreamFacts.

(** *** Sentences for the vocabulary *)

Module SentencesFacts.
Import Stream.

(** C4: [get_sentences] of a streaming task takes nothing from a split
    whose name begins with [test], and a second call yields what the
    first did.  For edge probing the walk leaves the task as it was and
    removing the test splits changes nothing; for the tasks that read
    files the class has a [get_sentences] and a [load_data], removing the
    test splits changes nothing, and the result is the same for any two
    states of the disk that agree on the files of the other splits. *)
Theorem get_sentences_skips_test_and_repeats `{Utils}
    (load_json_data : string -> gen Edge.EdgeRecord)
    (path : string) (msl : Z) (nm : string) (lf : option string)
    (fbs : option (Py.dict string)) (sym ss : bool) (etask : Edge.EdgeTask)
    (c : TaskClass) (stask : StreamTask) (fs fs2 : FileSystem) :
  Edge.__init__ load_json_data path msl nm lf fbs sym ss = Ok etask ->
  streaming c = true ->
  (forall split file,
     In split (Py.dict_keys (files_by_split stask)) ->
     Py.startswith split "test" = false ->
     Py.dict_get (files_by_split stask) split = Some file ->
     fs2 file = fs file) ->
  (snd (Edge.get_sentences etask) = etask
   /\ fst (Edge.get_sentences (snd (Edge.get_sentences etask)))
      = fst (Edge.get_sentences etask)
   /\ fst (Edge.get_sentences
             (Edge.set_iters_by_split
                (List.filter nontest (Edge._iters_by_split etask)) etask))
      = fst (Edge.get_sentences etask))
  /\ (is_Some (Metrics.lookup_method own_get_sentences 8 c)
      /\ is_Some (Metrics.lookup_method own_load_data 8 c)
      /\ get_sentences c
           (set_files_by_split
              (List.filter nontest (files_by_split stask)) stask) fs
         = get_sentences c stask fs
      /\ get_sentences c stask fs2 = get_sentences c stask fs).
Proof.
  intros Hinit Hstream Hfs. split.
  - exact (EdgeFacts.edge_get_sentences_repeats load_json_data
             _ _ _ _ _ _ _ _ Hinit).
  - destruct (StreamFacts.streaming_methods c Hstream) as [Hgs Hld].
    split; [exact Hgs|]. split; [exact Hld|]. split.
    + apply StreamFacts.get_sentences_drop_test.
    + by apply StreamFacts.get_sentences_fs_ext.
Qed.

End SentencesFacts.

(** *** The theorems at concrete tasks *)

Module Witness.
Import Allen Sample.

Lemma edge_task_built : edge_task = Ok edge_self.
Proof. reflexivity. Defined.

Example wiki_task_built : wiki_task = Some wiki_self.
Proof. reflexivity. Qed.

Lemma edge_loading_drops_empty_targets_witness :
  edge_task = Ok edge_self
  /\ Py.dict_get (Edge._files_by_split edge_self) "train"
     = Some edge_train_file
  /\ Edge.get_split_text edge_self "train" = Ok (PyList [record1; record4])
  /\ rbind (Edge.get_split_text edge_self "train") Edge.get_num_examples
     = Ok 2%nat.
Proof.
  split; [reflexivity|]. split; [reflexivity|].
  pose proof (@EdgeFacts.edge_loading_drops_empty_targets ws_utils
                edge_json_data "edges/spr1" 40 "edges-spr1"
                (Some "labels.txt") (Some edge_files) false false edge_self
                "train" edge_train_file edge_task_built eq_refl) as W.
  split; [exact (proj1 W) | exact (proj1 (proj2 W))].
Defined.

Lemma lm_targets_are_rotations_witness :
  Stream.target_indexer wiki_self
    = Some [("words", SingleIdTokenIndexer "tokens")]
  /\ Forall (fun sent : list string => sent <> [])
       [["<SOS>"; "so"; "it"; "<EOS>"]; ["alone"]]
  /\ exists insts,
       Stream.LanguageModelingTask_process_split wiki_self
         (Gen (map Stream.Sent [["<SOS>"; "so"; "it"; "<EOS>"]; ["alone"]])
            None) []
       = Gen insts None
       /\ Forall2
            (Stream.lm_targets [] [("words", SingleIdTokenIndexer "tokens")])
            [["<SOS>"; "so"; "it"; "<EOS>"]; ["alone"]] insts.
Proof.
  assert (Hne : Forall (fun sent : list string => sent <> [])
                  [["<SOS>"; "so"; "it"; "<EOS>"]; ["alone"]]).
  { repeat constructor; discriminate. }
  split; [reflexivity|]. split; [exact Hne|].
  exact (@StreamFacts.lm_targets_are_rotations wiki_self []
           [("words", SingleIdTokenIndexer "tokens")]
           [["<SOS>"; "so"; "it"; "<EOS>"]; ["alone"]] eq_refl Hne).
Defined.

Lemma val_metric_names_a_metric_key_witness :
  Init.sets_val_metric LanguageModelingTask = true
  /\ @Metrics.perplexity_overflows term_ops (constant_aggregators 2)
       LanguageModelingTask true = false
  /\ exists key,
       Obj.val_metric (Init.construct LanguageModelingTask "lm" [] [] [] [])
         = Some ("lm" +:+ "_" +:+ key)
       /\ exists d,
            @Metrics.get_metrics term_ops (constant_aggregators 2)
              LanguageModelingTask
              (Init.construct LanguageModelingTask "lm" [] [] [] []) true
            = Ok d
            /\ In key (Py.dict_keys d).
Proof.
  split; [reflexivity|]. split; [reflexivity|].
  exact (@MetricsFacts.val_metric_names_a_metric_key term_ops
           (constant_aggregators 2) LanguageModelingTask "lm" [] [] [] []
           true eq_refl).
Defined.

Lemma get_sentences_skips_test_and_repeats_witness :
  edge_task = Ok edge_self
  /\ Stream.streaming WikiText103LMTask = true
  /\ @Stream.get_sentences ws_utils WikiText103LMTask wiki_self
       (wiki_fs ["held out row"])
     = @Stream.get_sentences ws_utils WikiText103LMTask wiki_self
         (wiki_fs ["never seen"; "= ="])
  /\ fst (Edge.get_sentences (snd (Edge.get_sentences edge_self)))
     = fst (Edge.get_sentences edge_self).
Proof.
  assert (Hfs : forall split file,
            In split (Py.dict_keys (Stream.files_by_split wiki_self)) ->
            Py.startswith split "test" = false ->
            Py.dict_get (Stream.files_by_split wiki_self) split = Some file ->
            wiki_fs ["held out row"] file
            = wiki_fs ["never seen"; "= ="] file).
  { intros split file [<-|[<-|[<-|[]]]] Htest Hget;
      try discriminate Htest; injection Hget as <-; reflexivity. }
  pose proof (@SentencesFacts.get_sentences_skips_test_and_repeats ws_utils
                edge_json_data "edges/spr1" 40 "edges-spr1"
                (Some "labels.txt") (Some edge_files) false false edge_self
                WikiText103LMTask wiki_self
                (wiki_fs ["never seen"; "= ="]) (wiki_fs ["held out row"])
                edge_task_built eq_refl Hfs) as W.
  split; [reflexivity|]. split; [reflexivity|].
  split; [exact (proj2 (proj2 (proj2 (proj2 W))))|].
  exact (proj1 (proj2 (proj1 W))).
Defined.

Lemma edge_span_fields_offset_witness :
  Edge.targets record4
    = Some [Edge.mkTarget (1, 2) (Some (2, 4))
              (inr ["volition"; "awareness"]);
            Edge.mkTarget (0, 1) (Some (1, 2)) (inl "volition")]
  /\ exists d,
       @Edge.make_instance ws_utils edge_self record4 3 [] = Ok d
       /\ Py.dict_get d "span1s"
          = Some (ListField
                    [SpanField 2 2
                       (_sentence_to_text_field
                          ["<SOS>"; "a"; "dog"; "ran"; "off"; "<EOS>"] []);
                     SpanField 1 1
                       (_sentence_to_text_field
                          ["<SOS>"; "a"; "dog"; "ran"; "off"; "<EOS>"] [])])
       /\ Py.dict_get d "span2s"
          = Some (ListField
                    [SpanField 3 4
                       (_sentence_to_text_field
                          ["<SOS>"; "a"; "dog"; "ran"; "off"; "<EOS>"] []);
                     SpanField 2 2
                       (_sentence_to_text_field
                          ["<SOS>"; "a"; "dog"; "ran"; "off"; "<EOS>"] [])]).
Proof.
  split; [reflexivity|].
  destruct (@EdgeFacts.edge_span_fields_offset ws_utils edge_self record4 3
              [] _ [(2, 4); (1, 2)] eq_refl (fun _ => eq_refl))
    as (d & Hd & _ & Hs1 & Hs2).
  exists d. split; [exact Hd|]. split; [exact Hs1 | exact Hs2].
Defined.


Lemma edge_three_scorers_five_metrics_witness :
  edge_task = Ok edge_self
  /\ Edge.scorers_of (Edge.obj edge_self)
     = [FastMatthews; BooleanAccuracy; F1Measure 1]
  /\ Py.dict_keys
       (match @Edge.get_metrics term_ops term_aggregators edge_self true with
        | Ok d => d
        | Raise _ => []
        end)
     = ["mcc"; "acc"; "precision"; "recall"; "f1"].
Proof.
  pose proof (@EdgeFacts.edge_three_scorers_five_metrics ws_utils
                edge_json_data term_ops term_aggregators "edges/spr1" 40
                "edges-spr1" (Some "labels.txt") (Some edge_files) false
                false edge_self true edge_task_built) as [W1 W2].
  split; [reflexivity|]. split; [exact W1|].
  rewrite W2. reflexivity.
Defined.

(** A file of a hundred records of which seven have no targets leaves
    ninety-three examples. *)
Example edge_93_of_100 :
  rbind (gen_to_list
           (@Edge._stream_records
              (fun _ => Gen (replicate 40 record1 ++ replicate 4 record2
                             ++ replicate 53 record4 ++ replicate 3 record3)
                          None) "train.json"))
        (fun records => Edge.get_num_examples (PyList records))
  = Ok 93%nat.
Proof. vm_compute. reflexivity. Qed.

(** [MTTask.get_sentences] hands on what [load_data] yields, which are
    (source, target) pairs. *)
Example mt_get_sentences_yields_pairs :
  @Stream.get_sentences ws_utils MTTask
    (Stream.mkStreamTask [("train", "mt/train.txt"); ("test", "mt/test.txt")]
       10 None None)
    (fun path => Some ["ein Hund" +:+ String (ascii_of_nat 9) "a dog"])
  = Gen [Stream.Pair ["<SOS>"; "ein"; "Hund"; "<EOS>"]
           ["@start@"; "a"; "dog"; "@end@"]] None.
Proof. reflexivity. Qed.

(** With room for every token a header row goes, and a row whose two
    [=] characters sit in one token stays. *)
Example wikitext_header_dropped :
  @Stream.load_data ws_utils WikiTextLMTask
    (Stream.mkStreamTask [("train", "wiki/train.txt")] 40 (Some 0) None)
    (fun path => Some ["= Robert Boulter ="; "He had a guest role ."; " ";
                       "x == y"])
    "wiki/train.txt"
  = Gen [Stream.Sent ["<SOS>"; "He"; "had"; "a"; "guest"; "role"; ".";
                      "<EOS>"];
         Stream.Sent ["<SOS>"; "x"; "=="; "y"; "<EOS>"]] None.
Proof. reflexivity. Qed.

(** C3 as stated fails: when the average negative log-likelihood that
    [scorer1] of a language-modeling task reads is 710, [math.exp] is out
    of range and [get_metrics] returns no dictionary. *)
Lemma perplexity_overflow_returns_no_dictionary :
  Init.sets_val_metric LanguageModelingTask = true
  /\ Obj.val_metric (Init.construct LanguageModelingTask "lm" [] [] [] [])
     = Some "lm_perplexity"
  /\ @Metrics.get_metrics term_ops (constant_aggregators 710)
       LanguageModelingTask
       (Init.construct LanguageModelingTask "lm" [] [] [] []) false
     = Raise OverflowError
  /\ ~ exists d,
         @Metrics.get_metrics term_ops (constant_aggregators 710)
           LanguageModelingTask
           (Init.construct LanguageModelingTask "lm" [] [] [] []) false
         = Ok d.
Proof.
  split; [reflexivity|]. split; [reflexivity|]. split; [reflexivity|].
  intros [d Hd]. discriminate Hd.
Qed.

(** C8 as stated fails: the dictionary of an edge-probing task has five
    entries, not four. *)
Lemma edge_metrics_not_four_entries :
  exists d,
    @Edge.get_metrics term_ops term_aggregators edge_self false = Ok d
    /\ length d = 5%nat /\ length d <> 4%nat.
Proof.
  eexists. split; [reflexivity|]. split; [reflexivity | discriminate].
Qed.


End Witness.

(** * Further properties of the code *)

(** *** The registry: decorations under different names *)

Module RegistryMore.
Import Registry.

(** Decorations under two different names do not interfere: both
    entries are there afterwards, and the order of the two decorations
    does not matter. *)
Theorem register_task_names_independent
    (name1 name2 rp1 rp2 : string) (kw1 kw2 : Py.dict kwval)
    (cls1 cls2 : TaskClass) (REGISTRY : gmap string entry) :
  name1 <> name2 ->
  let both := (register_task name2 rp2 kw2 cls2
                 (register_task name1 rp1 kw1 cls1 REGISTRY).2).2 in
  both !! name1 = Some (make_entry cls1 rp1 kw1)
  /\ both !! name2 = Some (make_entry cls2 rp2 kw2)
  /\ both = (register_task name1 rp1 kw1 cls1
               (register_task name2 rp2 kw2 cls2 REGISTRY).2).2
  /\ dom both = {[name1; name2]} ∪ dom REGISTRY.
Proof.
  intros Hne both. unfold both, register_task. simpl.
  split; [by rewrite lookup_insert_ne, lookup_insert_eq|].
  split; [apply lookup_insert_eq|].
  split; [by apply insert_insert_ne|].
  rewrite !dom_insert_L. apply set_eq. intros x.
  rewrite !elem_of_union, !elem_of_singleton. tauto.
Qed.

End RegistryMore.

(** *** Edge probing: construction, instances, counts *)

Module EdgeMore.
Import Allen Obj Edge DictFacts GenFacts Props.

Lemma dict_set_fresh {V} (d : Py.dict V) k v :
  ~ In k (Py.dict_keys d) -> Py.dict_set d k v = (d ++ [(k, v)])%list.
Proof.
  unfold Py.dict_keys. induction d as [|[k0 v0] d IH]; simpl; intros Hn.
  - reflexivity.
  - destruct (String.eqb_spec k0 k) as [->|_]; [tauto|].
    rewrite IH; [reflexivity | tauto].
Qed.

Section WithUtils.
Context `{Utils}.
Variable load_json_data : string -> gen EdgeRecord.

(** For a dict without repeated keys the comprehension of [__init__] is
    a map over the items. *)
Lemma make_files_by_split_map path items acc :
  List.NoDup (Py.dict_keys acc ++ Py.dict_keys items) ->
  make_files_by_split path items acc
  = (acc ++ map (fun kv => (fst kv,
                            os_path_join path (snd kv) +:+ _tokenizer_suffix))
              items)%list.
Proof.
  revert acc. induction items as [|[k v] items IH]; intros acc Hnd; simpl.
  - by rewrite app_nil_r.
  - rewrite IH.
    + rewrite dict_set_fresh.
      * by rewrite <- app_assoc.
      * apply NoDup_remove_2 in Hnd. intros Hin. apply Hnd.
        apply in_or_app. by left.
    + rewrite dict_set_fresh.
      * unfold Py.dict_keys in *. rewrite map_app, <- app_assoc. exact Hnd.
      * apply NoDup_remove_2 in Hnd. intros Hin. apply Hnd.
        apply in_or_app. by left.
Qed.

Lemma load_data_items_keys items acc res :
  load_data_items load_json_data items acc = Ok res ->
  List.NoDup (Py.dict_keys acc ++ Py.dict_keys items) ->
  Py.dict_keys res = (Py.dict_keys acc ++ Py.dict_keys items)%list.
Proof.
  revert acc. induction items as [|[k v] items IH]; intros acc Hrun Hnd.
  - simpl in Hrun. injection Hrun as <-. by rewrite app_nil_r.
  - simpl in Hrun.
    destruct (gen_to_list _) as [iter|]; [|discriminate]. simpl in Hrun.
    assert (Hfresh : ~ In k (Py.dict_keys acc)).
    { apply NoDup_remove_2 in Hnd. intros Hin. apply Hnd.
      apply in_or_app. by left. }
    rewrite dict_set_fresh in Hrun by done.
    rewrite (IH _ Hrun).
    + unfold Py.dict_keys. rewrite map_app, <- app_assoc. reflexivity.
    + unfold Py.dict_keys in *. rewrite map_app, <- app_assoc. exact Hnd.
Qed.

(** The splits of a task are the declared ones, in their order, each
    read from the file named
    [path/filename.retokenized.<tokenizer name>]; [get_split_text]
    answers for these splits and raises [KeyError] for any other. *)
Theorem edge_init_splits
    (path : string) (msl : Z) (nm : string) (lf : option string)
    (files : Py.dict string) (sym ss : bool) (self : EdgeTask) :
  __init__ load_json_data path msl nm lf (Some files) sym ss = Ok self ->
  List.NoDup (Py.dict_keys files) ->
  _files_by_split self
  = map (fun kv => (fst kv,
                    os_path_join path (snd kv) +:+ ".retokenized."
                    +:+ tokenizer_name)) files
  /\ Py.dict_keys (_iters_by_split self) = Py.dict_keys files
  /\ forall split,
       (In split (Py.dict_keys files) ->
        exists records, get_split_text self split = Ok (PyList records))
       /\ (~ In split (Py.dict_keys files) ->
           get_split_text self split = Raise KeyError).
Proof.
  intros Hinit Hnd.
  destruct (EdgeFacts.init_fields _ _ _ _ _ _ _ _ _ Hinit)
    as (files' & [= <-] & Hfiles & Hload & _).
  rewrite (make_files_by_split_map path files []) in Hfiles by done.
  simpl in Hfiles.
  assert (Hkeys : Py.dict_keys (_files_by_split self) = Py.dict_keys files).
  { rewrite Hfiles. unfold Py.dict_keys. rewrite map_map. reflexivity. }
  assert (Hik : Py.dict_keys (_iters_by_split self) = Py.dict_keys files).
  { rewrite (load_data_items_keys _ [] _ Hload); simpl; by rewrite Hkeys. }
  split; [exact Hfiles|]. split; [exact Hik|].
  destruct (EdgeFacts.init_loaded _ _ _ _ _ _ _ _ _ Hinit) as [_ Hsplit].
  intros split. split.
  - intros Hin. rewrite <- Hkeys in Hin.
    destruct (Py.dict_get (_files_by_split self) split) as [fn|] eqn:Hget.
    + destruct (Hsplit split fn Hget) as [_ Hit].
      unfold get_split_text. rewrite Hit. eauto.
    + exfalso. clear -Hin Hget. unfold Py.dict_keys in Hin.
      induction (_files_by_split self) as [|[k v] d IH]; simpl in *;
        [done|].
      destruct (String.eqb_spec k split) as [->|Hne]; [discriminate|].
      destruct Hin as [->|Hin]; [done | by apply IH].
  - intros Hnot. unfold get_split_text.
    rewrite dict_get_None_notin; [reflexivity|]. by rewrite Hik.
Qed.

(** A task comes into being only if the label file and the split files
    were given, every split file was read to its end without an
    exception and the label file could be read; its labels are the
    lines of that file. *)
Theorem edge_init_needs_every_file
    (path : string) (msl : Z) (nm : string) (lf : option string)
    (fbs : option (Py.dict string)) (sym ss : bool) (self : EdgeTask) :
  __init__ load_json_data path msl nm lf fbs sym ss = Ok self ->
  (exists label_file,
     lf = Some label_file
     /\ load_lines (os_path_join path label_file) = Some (all_labels self))
  /\ fbs <> None
  /\ n_classes self = length (all_labels self)
  /\ forall split filename,
       Py.dict_get (_files_by_split self) split = Some filename ->
       raised (load_json_data filename) = None.
Proof.
  intros Hinit.
  destruct (EdgeFacts.init_loaded _ _ _ _ _ _ _ _ _ Hinit) as [_ Hsplit].
  unfold __init__ in Hinit.
  destruct lf as [label_file|]; [|discriminate]. simpl in Hinit.
  destruct fbs as [files|]; [|discriminate]. simpl in Hinit.
  destruct (load_data load_json_data _) as [its|]; [|discriminate].
  simpl in Hinit.
  destruct (load_lines _) as [labels|] eqn:Hlabels; [|discriminate].
  simpl in Hinit. injection Hinit as <-. simpl.
  split; [eauto|]. split; [done|]. split; [reflexivity|].
  intros split filename Hget. by destruct (Hsplit split filename Hget).
Qed.

Lemma span2_fields_cases text_field (ts : list Target) :
  span2_fields text_field ts
  = if forallb (fun t => match span2 t with
                         | Some _ => true
                         | None => false
                         end) ts
    then Ok (omap (fun t => (fun s => _make_span_field s text_field 1)
                              <$> span2 t) ts)
    else Raise KeyError.
Proof.
  induction ts as [|t ts IH]; simpl; [reflexivity|].
  destruct (span2 t) as [s|]; simpl; [|reflexivity].
  rewrite IH. by destruct (forallb _ ts).
Qed.

(** [make_instance] returns for the records it accepts, with the index
    it was given, and raises [KeyError] for the others. *)
Lemma make_instance_cases self record idx indexers :
  if record_ok (single_sided self) record
  then exists d, make_instance self record idx indexers = Ok d
                 /\ Py.dict_get d "idx" = Some (MetadataField (inl idx))
  else make_instance self record idx indexers = Raise KeyError.
Proof.
  unfold record_ok, make_instance.
  destruct (targets record) as [ts|]; simpl; [|reflexivity].
  destruct (single_sided self); simpl.
  - eexists. split; reflexivity.
  - rewrite span2_fields_cases.
    destruct (forallb _ ts); simpl; [|reflexivity].
    eexists. split; reflexivity.
Qed.



(** [process_split] stops at the first record that [make_instance] does
    not accept (no targets, or a target without [span2] in a task with
    two sides): the instances of the records before it have been
    yielded, then [KeyError] is raised and nothing after it is read. *)
Theorem edge_process_split_stops_at_bad_record
    (self : EdgeTask) (indexers : Indexers)
    (good : list EdgeRecord) (bad : EdgeRecord) (rest : list EdgeRecord) :
  Forall (fun r => record_ok (single_sided self) r = true) good ->
  record_ok (single_sided self) bad = false ->
  exists insts,
    process_split self (good ++ bad :: rest) indexers
    = Gen insts (Some KeyError)
    /\ process_split self good indexers = Gen insts None.
Proof.
  intros Hgood Hbad. unfold process_split. generalize 0 as idx.
  induction Hgood as [|r rs Hr Hall IH]; intros idx.
  - exists []. simpl.
    pose proof (make_instance_cases self bad idx indexers) as Hcase.
    rewrite Hbad in Hcase. rewrite Hcase. split; reflexivity.
  - pose proof (make_instance_cases self r idx indexers) as Hcase.
    rewrite Hr in Hcase. destruct Hcase as (d & Hd & _).
    destruct (IH (idx + 1)) as (insts & Hrun & Hrun').
    exists (d :: insts). simpl. rewrite Hd, Hrun, Hrun'.
    split; reflexivity.
Qed.

(** The span field stored for a half-open interval [i, j) inside the
    text, [0 <= i < j <= n], lies between the two sentinels and covers
    the same [j - i] tokens: position [i + 1 + k] of the field's text
    is token [i + k] of the record's text. *)
Theorem edge_span_covers_same_tokens
    (toks : list string) (s : span) (text_field : Field) :
  0 <= fst s < snd s -> snd s <= Z.of_nat (length toks) ->
  exists a b,
    _make_span_field s text_field 1 = SpanField a b text_field
    /\ 1 <= a <= b /\ b <= Z.of_nat (length toks)
    /\ b - a + 1 = snd s - fst s
    /\ forall k, 0 <= k <= b - a ->
         ([SOS_TOK] ++ toks ++ [EOS_TOK])%list !! Z.to_nat (a + k)
         = toks !! Z.to_nat (fst s + k)
         /\ is_Some (toks !! Z.to_nat (fst s + k)).
Proof.
  intros Hs Hn. exists (fst s + 1), (snd s - 1 + 1).
  split; [reflexivity|]. split; [lia|]. split; [lia|]. split; [lia|].
  intros k Hk.
  replace (Z.to_nat (fst s + 1 + k)) with (S (Z.to_nat (fst s + k))) by lia.
  simpl. split.
  - apply lookup_app_l. lia.
  - apply lookup_lt_is_Some. lia.
Qed.

Lemma count_examples_from_ok {ST C} (gst : string -> result ST)
    (gne : ST -> result C) (f : string -> C) splits acc :
  (forall split, In split splits ->
     exists st, gst split = Ok st /\ gne st = Ok (f split)) ->
  exists counts,
    Base.count_examples_from gst gne splits acc = (counts, None)
    /\ (forall split, In split splits ->
          Py.dict_get counts split = Some (f split))
    /\ (forall split, ~ In split splits ->
          Py.dict_get counts split = Py.dict_get acc split).
Proof.
  revert acc. induction splits as [|sp splits IH]; intros acc Hall; simpl.
  - exists acc. split; [reflexivity|]. split; [intros ? []|done].
  - destruct (Hall sp (or_introl eq_refl)) as (st & -> & ->).
    destruct (IH (Py.dict_set acc sp (f sp))) as (counts & Hrun & Hin & Hout).
    { intros split Hs. apply Hall. by right. }
    exists counts. split; [exact Hrun|]. split.
    + intros split [<-|Hs].
      * destruct (in_dec String.string_dec sp splits) as [Hi|Hni].
        -- by apply Hin.
        -- rewrite Hout by done. apply dict_get_set_eq.
      * by apply Hin.
    + intros split Hns. rewrite Hout by tauto.
      apply dict_get_set_ne. tauto.
Qed.

(** The inherited [count_examples] on an edge-probing task: for splits
    the task has, every split is given the number of records of its
    file that have targets; a split the task does not have raises
    [KeyError] and leaves the counts made before it. *)
Theorem edge_count_examples
    (path : string) (msl : Z) (nm : string) (lf : option string)
    (fbs : option (Py.dict string)) (sym ss : bool) (self : EdgeTask)
    (splits : list string) :
  __init__ load_json_data path msl nm lf fbs sym ss = Ok self ->
  (forall split, In split splits ->
     is_Some (Py.dict_get (_files_by_split self) split)) ->
  exists counts,
    Base.EdgeProbingTask_count_examples self splits = (counts, None)
    /\ (forall split filename, In split splits ->
          Py.dict_get (_files_by_split self) split = Some filename ->
          Py.dict_get counts split
          = Some (length (List.filter has_targets
                            (yielded (load_json_data filename)))))
    /\ forall missing,
         Py.dict_get (_files_by_split self) missing = None ->
         Base.EdgeProbingTask_count_examples self (splits ++ [missing])
         = (counts, Some KeyError).
Proof.
  intros Hinit Hsplits.
  destruct (EdgeFacts.init_loaded _ _ _ _ _ _ _ _ _ Hinit) as [_ Hsplit].
  destruct (EdgeFacts.init_fields _ _ _ _ _ _ _ _ _ Hinit)
    as (files & _ & Hfiles & Hload & _).
  set (f := fun split =>
         match Py.dict_get (_files_by_split self) split with
         | Some filename =>
             length (List.filter has_targets
                       (yielded (load_json_data filename)))
         | None => 0%nat
         end).
  assert (Hall : forall split, In split splits ->
            exists st, get_split_text self split = Ok st
                       /\ get_num_examples st = Ok (f split)).
  { intros split Hin. destruct (Hsplits split Hin) as [fn Hfn].
    destruct (Hsplit split fn Hfn) as [_ Hit].
    eexists. unfold get_split_text. rewrite Hit. split; [reflexivity|].
    unfold f. rewrite Hfn. reflexivity. }
  unfold Base.EdgeProbingTask_count_examples, Base.count_examples.
  destruct (count_examples_from_ok _ _ f splits [] Hall)
    as (counts & Hrun & Hin & _).
  exists counts. split; [exact Hrun|]. split.
  - intros split filename Hs Hfn. rewrite (Hin split Hs). unfold f.
    by rewrite Hfn.
  - intros missing Hmiss.
    assert (Hnone : get_split_text self missing = Raise KeyError).
    { unfold get_split_text. rewrite dict_get_None_notin; [reflexivity|].
      unfold load_data in Hload.
      rewrite (load_data_items_keys _ [] _ Hload).
      - simpl. intros Hk. clear -Hk Hmiss.
        unfold Py.dict_keys in Hk.
        induction (_files_by_split self) as [|[k v] d IH]; simpl in *;
          [done|].
        destruct (String.eqb_spec k missing) as [->|Hne]; [discriminate|].
        destruct Hk as [->|Hk]; [done | by apply IH].
      - simpl. rewrite Hfiles.
        apply EdgeFacts.make_files_by_split_NoDup. constructor. }
    clear -Hrun Hnone. revert Hrun. generalize (@nil (string * nat)).
    induction splits as [|sp splits IH]; intros acc Hrun; simpl in *.
    + injection Hrun as <-. by rewrite Hnone.
    + destruct (get_split_text self sp) as [st|]; [|discriminate].
      destruct (get_num_examples st) as [c|]; [|discriminate].
      by apply IH.
Qed.

End WithUtils.
End EdgeMore.

(** *** Columns of sentences *)

Module ColumnsFacts.
Import Allen Columns DictFacts.

Section WithFloats.
Context `{FloatOps}.

(** The number of rows [map] walks: the length of the shortest column
    among those that end. *)
Lemma map_columns_length indexers cls c1 c2 c3 c4 n :
  length (map_columns indexers cls c1 c2 c3 c4 n)
  = Nat.min (length c1)
      (Nat.min (match c2 with Some l => length l | None => length c1 end)
         (Nat.min (length c3)
            (match c4 with Some l => length l | None => length c1 end))).
Proof.
  revert c2 c3 c4 n. induction c1 as [|x c1 IH]; intros c2 c3 c4 n;
    [reflexivity|].
  simpl. destruct c2 as [[|y c2]|]; destruct c3 as [|z c3];
    destruct c4 as [[|i c4]|]; simpl; try reflexivity; try lia;
    rewrite IH; simpl; lia.
Qed.

Lemma map_columns_count indexers cls c1 c2 c3 n (k : nat) inst :
  map_columns indexers cls c1 c2 c3 None n !! k = Some inst ->
  Py.dict_get inst "idx" = Some (Lib (LabelField (n + Z.of_nat k) "idxs" true)).
Proof.
  revert c2 c3 n k. induction c1 as [|x c1 IH]; intros c2 c3 n k Hk;
    [discriminate Hk|].
  simpl in Hk. destruct c2 as [[|y c2]|]; destruct c3 as [|z c3];
    try discriminate Hk;
    (destruct k as [|k]; simpl in Hk;
     [ injection Hk as <-; unfold _make_instance;
       rewrite dict_get_set_eq; do 3 f_equal; lia
     | rewrite (IH _ _ _ _ Hk); do 3 f_equal; lia ]).
Qed.

Lemma make_instance_no_input2 indexers cls input1 labels idx :
  Py.dict_get (_make_instance indexers cls input1 None labels idx) "input2"
  = None
  /\ Py.dict_get (_make_instance indexers cls input1 (Some []) labels idx)
       "input2" = None.
Proof. destruct cls; split; reflexivity. Qed.

Lemma map_columns_single indexers cls c1 c3 c4 n inst :
  In inst (map_columns indexers cls c1 None c3 c4 n) ->
  Py.dict_get inst "input2" = None.
Proof.
  revert c3 c4 n. induction c1 as [|x c1 IH]; intros c3 c4 n Hin;
    [destruct Hin|].
  simpl in Hin. destruct c3 as [|z c3]; [destruct Hin|].
  destruct c4 as [[|i c4]|]; [destruct Hin| |];
    (destruct Hin as [<-|Hin];
     [ apply make_instance_no_input2 | by apply (IH _ _ _ Hin) ]).
Qed.

(** [process_single_pair_task_split] makes as many instances as the
    shortest column it walks has rows; without an index column the
    [idx] field of an instance is its position; and for a task with one
    input no instance has an [input2] field.  The number of instances
    may thus be smaller than [get_num_examples], the length of the
    first column. *)
Theorem process_single_pair_task_split_rows
    (split : Split) (indexers : Indexers) (is_pair classification : bool) :
  let insts :=
    process_single_pair_task_split split indexers is_pair classification in
  length insts
  = Nat.min (Task_get_num_examples split)
      (Nat.min (if is_pair then length (sents2 split)
                else length (sents1 split))
         (Nat.min (length (targs split))
            (match idxs split with
             | Some l => length l
             | None => length (sents1 split)
             end)))
  /\ (idxs split = None ->
      forall (k : nat) inst, insts !! k = Some inst ->
        Py.dict_get inst "idx"
        = Some (Lib (LabelField (Z.of_nat k) "idxs" true)))
  /\ (is_pair = false ->
      forall inst, In inst insts -> Py.dict_get inst "input2" = None).
Proof.
  intros insts. unfold insts, process_single_pair_task_split.
  split; [|split].
  - rewrite map_columns_length. unfold Task_get_num_examples.
    by destruct is_pair.
  - intros Hidx k inst Hk. rewrite Hidx in Hk.
    rewrite (map_columns_count _ _ _ _ _ _ _ _ Hk). reflexivity.
  - intros -> inst Hin. simpl in Hin. by apply (map_columns_single _ _ _ _ _ _ _ Hin).
Qed.

End WithFloats.
End ColumnsFacts.

(** *** Predictions merged into a record *)

Module PredsFacts.
Import Preds DictFacts.

Section WithValues.
Variable V : Type.

Lemma attach_length key vals (ts : list (PTarget V)) :
  length (attach V key vals ts) = length ts.
Proof.
  revert vals. induction ts as [|t ts IH]; intros [|v vals]; simpl;
    try reflexivity. by rewrite IH.
Qed.

Lemma attach_targets key vals (ts : list (PTarget V)) :
  map (target V) (attach V key vals ts) = map (target V) ts.
Proof.
  revert vals. induction ts as [|t ts IH]; intros [|v vals]; simpl;
    try reflexivity. by rewrite IH.
Qed.

Lemma merge_items_targets items (ts : list (PTarget V)) top :
  map (target V) (merge_items V items ts top).1.1 = map (target V) ts.
Proof.
  revert ts top. induction items as [|[key [val|val]] items IH];
    intros ts top; simpl; [reflexivity| |apply IH].
  destruct (length val =? length ts)%nat; [|reflexivity].
  rewrite IH. apply attach_targets.
Qed.

Lemma map_clear_clear (ts : list (PTarget V)) :
  map (clear_preds V) (map (clear_preds V) ts) = map (clear_preds V) ts.
Proof. rewrite map_map. by apply map_ext. Qed.

(** Clearing forgets whatever predictions the targets held. *)
Lemma clear_only_targets (ts ts' : list (PTarget V)) :
  map (target V) ts = map (target V) ts' ->
  map (clear_preds V) ts = map (clear_preds V) ts'.
Proof.
  revert ts'. induction ts as [|t ts IH]; intros [|t' ts'] Heq;
    simpl in *; try discriminate; [reflexivity|].
  injection Heq as Ht Hts. unfold clear_preds at 1 3. rewrite Ht.
  f_equal. by apply IH.
Qed.

(** [merge_preds] starts from empty predictions: what an earlier call
    on the same record attached, to the record or to its targets, is
    gone after the next call, whether or not the earlier call raised. *)
Theorem merge_preds_discards_earlier
    (record : PRecord V) (first second : Py.dict (pred V)) :
  merge_preds V (merge_preds V record first).1 second
  = merge_preds V record second.
Proof.
  unfold merge_preds. destruct (targets V record) as [ts|]; [|reflexivity].
  destruct (merge_items V first (map (clear_preds V) ts) [])
    as [[ts1 top1] e1] eqn:Hfirst.
  simpl.
  assert (Hts : map (target V) ts1 = map (target V) ts).
  { pose proof (merge_items_targets first (map (clear_preds V) ts) [])
      as Hm.
    rewrite Hfirst in Hm. simpl in Hm. rewrite Hm.
    rewrite map_map. by apply map_ext. }
  by rewrite (clear_only_targets ts1 ts Hts).
Qed.

Lemma attach_lookup key vals (ts : list (PTarget V)) (i : nat) t :
  length vals = length ts ->
  attach V key vals ts !! i = Some t ->
  exists d, target_preds V t = Some d
            /\ Py.dict_get d key = vals !! i.
Proof.
  revert vals i. induction ts as [|t0 ts IH]; intros [|v vals] i Hlen Hi;
    simpl in *; try discriminate.
  destruct i as [|i]; simpl in Hi.
  - injection Hi as <-. simpl. eexists. split; [reflexivity|].
    apply dict_get_set_eq.
  - apply (IH vals i); [lia | exact Hi].
Qed.

Lemma attach_keeps key key' vals (ts : list (PTarget V)) (i : nat) t v :
  key <> key' ->
  ts !! i = Some t ->
  (exists d, target_preds V t = Some d /\ Py.dict_get d key' = Some v) ->
  exists t', attach V key vals ts !! i = Some t'
             /\ exists d, target_preds V t' = Some d
                          /\ Py.dict_get d key' = Some v.
Proof.
  intros Hne. revert vals i. induction ts as [|t0 ts IH];
    intros vals i Hi Hd; [by rewrite lookup_nil in Hi|].
  destruct vals as [|x vals]; simpl.
  - exists t. split; [exact Hi | exact Hd].
  - destruct i as [|i]; simpl in *.
    + injection Hi as ->. destruct Hd as (d & Hd & Hget).
      eexists. split; [reflexivity|]. simpl. eexists. split; [reflexivity|].
      rewrite Hd. simpl. by rewrite dict_get_set_ne.
    + by apply IH.
Qed.

(** With targets present and every list of predictions as long as the
    list of targets, [merge_preds] raises nothing, leaves the number
    and the content of the targets alone, gives target [i] the [i]-th
    element of every list under the key of the list, and puts every
    other prediction at the top level of the record. *)
Theorem merge_preds_aligns_lists
    (record : PRecord V) (ts : list (PTarget V))
    (new_preds : Py.dict (pred V)) :
  targets V record = Some ts ->
  List.NoDup (Py.dict_keys new_preds) ->
  (forall key val, In (key, PredList V val) new_preds ->
     length val = length ts) ->
  exists ts' top,
    merge_preds V record new_preds
    = (mkPRecord V (text V record) (Some ts') (Some top), None)
    /\ map (target V) ts' = map (target V) ts
    /\ (forall key val (i : nat) t,
          In (key, PredList V val) new_preds -> ts' !! i = Some t ->
          exists d, target_preds V t = Some d
                    /\ Py.dict_get d key = val !! i)
    /\ (forall key val,
          In (key, PredValue V val) new_preds ->
          Py.dict_get top key = Some val).
Proof.
  intros Hts Hnd Hlen. unfold merge_preds. rewrite Hts.
  assert (Hgen : forall items (cur : list (PTarget V)) top0,
    List.NoDup (Py.dict_keys items) ->
    length cur = length ts ->
    (forall key val, In (key, PredList V val) items ->
       length val = length ts) ->
    exists ts' top,
      merge_items V items cur top0 = (ts', top, None)
      /\ map (target V) ts' = map (target V) cur
      /\ length ts' = length ts
      /\ (forall key val (i : nat) t,
            In (key, PredList V val) items -> ts' !! i = Some t ->
            exists d, target_preds V t = Some d
                      /\ Py.dict_get d key = val !! i)
      /\ (forall key val, In (key, PredValue V val) items ->
            Py.dict_get top key = Some val)
      /\ (forall key (i : nat) t v,
            ~ In key (Py.dict_keys items) -> cur !! i = Some t ->
            (exists d, target_preds V t = Some d
                       /\ Py.dict_get d key = Some v) ->
            exists t', ts' !! i = Some t'
                       /\ exists d, target_preds V t' = Some d
                                    /\ Py.dict_get d key = Some v)
      /\ (forall key, ~ In key (Py.dict_keys items) ->
            Py.dict_get top key = Py.dict_get top0 key)).
  { induction items as [|[key [val|val]] items IH];
      intros cur top0 Hnd' Hcur Hl; simpl.
    - exists cur, top0. split; [reflexivity|]. split; [reflexivity|].
      split; [exact Hcur|]. split; [intros ? ? ? ? []|].
      split; [intros ? ? []|]. split; [eauto | done].
    - inversion Hnd' as [|? ? Hfresh Hnd'']; subst.
      assert (Hv : length val = length ts).
      { apply (Hl key). by left. }
      assert (Heqb : (length val =? length cur)%nat = true).
      { apply Nat.eqb_eq. lia. }
      rewrite Heqb.
      destruct (IH (attach V key val cur) top0 Hnd'')
        as (ts' & top & Hrun & Htg & Hlen' & Hlist & Hval & Hkeep & Htop).
      { rewrite attach_length. exact Hcur. }
      { intros k v Hin. apply (Hl k). by right. }
      exists ts', top. split; [exact Hrun|].
      split; [by rewrite Htg, attach_targets|]. split; [exact Hlen'|].
      split; [|split; [|split]].
      + intros k v i t [[= <- <-]|Hin] Hi; [|by apply (Hlist k v i t)].
        assert (Hlt : (i < length cur)%nat).
        { rewrite Hcur, <- Hlen'. by apply lookup_lt_Some in Hi. }
        destruct (lookup_lt_is_Some_2 (attach V key val cur) i)
          as [t0 Ht0]; [by rewrite attach_length|].
        destruct (attach_lookup key val cur i t0 ltac:(lia) Ht0)
          as (d & Hd & Hget).
        destruct (val !! i) as [x|] eqn:Hx.
        * destruct (Hkeep key i t0 x Hfresh Ht0) as (t' & Ht' & Hd');
            [eauto|].
          rewrite Hi in Ht'. injection Ht' as ->. exact Hd'.
        * apply lookup_ge_None in Hx. lia.
      + intros k v [[=]|Hin]. by apply Hval.
      + intros k i t v Hk Hi Hd. simpl in Hk.
        destruct (attach_keeps key k val cur i t v) as (t1 & Ht1 & Hd1);
          [tauto | done | done |].
        apply (Hkeep k i t1 v); [tauto | done | done].
      + intros k Hk. apply Htop. simpl in Hk. tauto.
    - inversion Hnd' as [|? ? Hfresh Hnd'']; subst.
      destruct (IH cur (Py.dict_set top0 key val) Hnd'' Hcur)
        as (ts' & top & Hrun & Htg & Hlen' & Hlist & Hval & Hkeep & Htop).
      { intros k v Hin. apply (Hl k). by right. }
      exists ts', top. split; [exact Hrun|]. split; [exact Htg|].
      split; [exact Hlen'|]. split; [|split; [|split]].
      + intros k v i t [[=]|Hin] Hi. by apply (Hlist k v i t).
      + intros k v [[= <- <-]|Hin]; [|by apply Hval].
        rewrite Htop by done. apply dict_get_set_eq.
      + intros k i t v Hk. apply Hkeep. simpl in Hk. tauto.
      + intros k Hk. simpl in Hk. rewrite Htop by tauto.
        apply dict_get_set_ne. tauto. }
  destruct (Hgen new_preds (map (clear_preds V) ts) [] Hnd)
    as (ts' & top & Hrun & Htg & _ & Hlist & Hval & _).
  { by rewrite length_map. }
  { exact Hlen. }
  rewrite Hrun. exists ts', top. split; [reflexivity|].
  split; [|split; [exact Hlist | exact Hval]].
  rewrite Htg, map_map. by apply map_ext.
Qed.

Lemma merge_items_misaligned items (cur ts : list (PTarget V)) top key val :
  length cur = length ts ->
  In (key, PredList V val) items ->
  length val <> length ts ->
  exists ts' top',
    merge_items V items cur top = (ts', top', Some AssertionError).
Proof.
  intros Hcur Hin Hne. revert cur top Hcur.
  induction items as [|[k [v|v]] items IH]; intros cur top Hcur;
    [destruct Hin| |].
  - simpl. destruct (Nat.eqb_spec (length v) (length cur)) as [Heq|_];
      [|eauto].
    destruct Hin as [Hhead|Hin].
    + injection Hhead as _ ->. lia.
    + apply IH; [exact Hin|]. by rewrite attach_length.
  - simpl. destruct Hin as [Hhead|Hin]; [discriminate Hhead|].
    by apply IH.
Qed.

(** A list of predictions whose length is not the number of targets
    makes [merge_preds] raise [AssertionError], wherever it stands
    among the predictions; the record keeps its text and the content of
    its targets, with the predictions merged before the list was
    met. *)
Theorem merge_preds_rejects_misaligned_list
    (record : PRecord V) (ts : list (PTarget V))
    (new_preds : Py.dict (pred V)) (key : string) (val : list V) :
  targets V record = Some ts ->
  In (key, PredList V val) new_preds ->
  length val <> length ts ->
  exists ts' top,
    merge_preds V record new_preds
    = (mkPRecord V (text V record) (Some ts') (Some top),
       Some AssertionError)
    /\ map (target V) ts' = map (target V) ts.
Proof.
  intros Hts Hin Hne. unfold merge_preds. rewrite Hts.
  destruct (merge_items_misaligned new_preds (map (clear_preds V) ts) ts []
              key val) as (ts' & top & Hrun); [apply length_map | done.. |].
  pose proof (merge_items_targets new_preds (map (clear_preds V) ts) [])
    as Htg.
  rewrite Hrun in *. simpl in Htg. exists ts', top.
  split; [reflexivity|]. rewrite Htg, map_map. by apply map_ext.
Qed.

End WithValues.
End PredsFacts.

(** *** The streaming tasks: counts, instances, tokens *)

Module StreamMoreFacts.
Import Allen Stream StreamMore DictFacts GenFacts Props.



Lemma gen_for_length_le {A B} (xs : list A) (body : A -> gen B) :
  (forall x, (length (yielded (body x)) <= 1)%nat) ->
  (length (yielded (gen_for xs body)) <= length xs)%nat.
Proof.
  intros Hone. induction xs as [|x xs IH]; simpl; [lia|].
  specialize (Hone x). unfold gen_seq.
  destruct (raised (body x)); simpl; [lia|].
  rewrite length_app. lia.
Qed.


(** What the loop over [self.files_by_split.items()] leaves in
    [example_counts]. *)
Lemma count_lines_spec fs off items acc counts :
  List.NoDup (Py.dict_keys items) ->
  count_lines fs off items acc = Ok counts ->
  (forall split path, In (split, path) items ->
     exists rows, fs path = Some rows
       /\ Py.dict_get counts split = Some (Z.of_nat (length rows) + off))
  /\ (forall k, ~ In k (Py.dict_keys items) ->
        Py.dict_get counts k = Py.dict_get acc k).
Proof.
  revert acc. induction items as [|[s p] items IH]; intros acc Hnd Hrun.
  - simpl in Hrun. injection Hrun as <-. split; [intros ? ? []|done].
  - inversion Hnd as [|? ? Hfresh Hnd']; subst.
    simpl in Hrun. destruct (fs p) as [rows|] eqn:Hfs; simpl in Hrun;
      [|discriminate].
    destruct (IH _ Hnd' Hrun) as [Hin Hout]. split.
    + intros split path [[= <- <-]|Hi].
      * exists rows. split; [done|]. rewrite Hout by done.
        apply dict_get_set_eq.
      * by apply Hin.
    + intros k Hk. simpl in Hk. rewrite Hout by tauto.
      apply dict_get_set_ne. tauto.
Qed.

Lemma pair_with_previous_length indexers prev sents :
  length (pair_with_previous indexers prev sents) = length sents.
Proof.
  revert prev. induction sents as [|s sents IH]; intros prev; simpl;
    [reflexivity | by rewrite IH].
Qed.

Lemma pair_with_previous_lookup indexers prev sents (k : nat) inst :
  pair_with_previous indexers prev sents !! k = Some inst ->
  exists s1 s2, (prev :: sents) !! k = Some s1 /\ sents !! k = Some s2
                /\ inst = pair_instance indexers s1 s2 1.
Proof.
  revert prev k. induction sents as [|s sents IH]; intros prev k Hk;
    [discriminate Hk|].
  destruct k as [|k]; simpl in Hk.
  - injection Hk as <-. by exists prev, s.
  - destruct (IH s k Hk) as (s1 & s2 & H1 & H2 & ->). by exists s1, s2.
Qed.

Lemma follow_previous_length indexers ti prev pairs :
  length (follow_previous indexers ti prev pairs) = length pairs.
Proof.
  revert prev. induction pairs as [|[s t] pairs IH]; intros prev; simpl;
    [reflexivity | by rewrite IH].
Qed.

Lemma follow_previous_lookup indexers ti prev pairs (k : nat) inst :
  follow_previous indexers ti prev pairs !! k = Some inst ->
  exists s1 s2, (prev :: map fst pairs) !! k = Some s1
                /\ map fst pairs !! k = Some s2
                /\ inst = seq2seq_instance indexers ti s1 s2.
Proof.
  revert prev k. induction pairs as [|[s t] pairs IH]; intros prev k Hk;
    [discriminate Hk|].
  destruct k as [|k]; simpl in Hk.
  - injection Hk as <-. by exists prev, s.
  - destruct (IH s k Hk) as (s1 & s2 & H1 & H2 & ->). by exists s1, s2.
Qed.

(** [Wiki103Classification.process_split] pairs every sentence of the
    split with the one before it: [n] sentences give [n - 1] instances,
    none for an empty split, instance [k] holds sentence [k] as
    [input1] and sentence [k + 1] as [input2] with the label [1], and
    the split's own exception is passed on after them. *)
Theorem wiki103_classification_pairs_neighbours
    (split : gen (list string)) (indexers : Indexers) :
  let out := Wiki103Classification_process_split split indexers in
  length (yielded out) = (length (yielded split) - 1)%nat
  /\ raised out = raised split
  /\ forall (k : nat) inst, yielded out !! k = Some inst ->
       exists s1 s2,
         yielded split !! k = Some s1 /\ yielded split !! S k = Some s2
         /\ inst = pair_instance indexers s1 s2 1.
Proof.
  intros out. unfold out, Wiki103Classification_process_split.
  destruct (yielded split) as [|first rest]; simpl.
  - split; [reflexivity|]. split; [reflexivity|]. intros k inst Hk.
    discriminate Hk.
  - split; [rewrite pair_with_previous_length; lia|].
    split; [reflexivity|]. intros k inst Hk.
    by apply pair_with_previous_lookup.
Qed.

(** [Wiki103Seq2SeqTask.process_split] turns the sentences of the split
    into (sentence, next sentence) instances: [n] items give [n - 1]
    instances, instance [k] holds the sentence of item [k] as [inputs],
    indexed with the indexers of the call, and the sentence of item
    [k + 1] as [targs], indexed with the target indexer of the task;
    the second component of the items is never used. *)
Theorem wiki103_seq2seq_follows_previous
    (self : StreamTask) (ti : Indexers)
    (split : gen (list string * list string)) (indexers : Indexers) :
  target_indexer self = Some ti ->
  let out := Wiki103Seq2SeqTask_process_split self split indexers in
  length (yielded out) = (length (yielded split) - 1)%nat
  /\ raised out = raised split
  /\ forall (k : nat) inst, yielded out !! k = Some inst ->
       exists s1 s2,
         map fst (yielded split) !! k = Some s1
         /\ map fst (yielded split) !! S k = Some s2
         /\ inst = seq2seq_instance indexers ti s1 s2.
Proof.
  intros Hti out. unfold out, Wiki103Seq2SeqTask_process_split. rewrite Hti.
  destruct (yielded split) as [|[first ign] rest]; simpl.
  - split; [reflexivity|]. split; [reflexivity|]. intros k inst Hk.
    discriminate Hk.
  - split; [rewrite follow_previous_length; lia|].
    split; [reflexivity|]. intros k inst Hk.
    by apply follow_previous_lookup.
Qed.

Section WithUtils.
Context `{Utils}.

(** [Wiki103Seq2SeqTask.get_num_examples] cannot take what
    [get_split_text] of its class returns: the split text is a
    generator, which has no length, so the call raises [TypeError] for
    every split the task has (and [get_split_text] raises [KeyError]
    for any other). *)
Theorem wiki103_seq2seq_num_examples_raises
    (self : StreamTask) (fs : FileSystem) (split : string) :
  match get_split_text Wiki103Seq2SeqTask self fs split with
  | Ok split_text =>
      is_Some (Py.dict_get (files_by_split self) split)
      /\ Wiki103Seq2SeqTask_get_num_examples split_text = Raise TypeError
  | Raise e =>
      Py.dict_get (files_by_split self) split = None /\ e = KeyError
  end.
Proof.
  unfold get_split_text.
  destruct (Py.dict_get (files_by_split self) split) as [path|]; simpl.
  - split; [eauto | reflexivity].
  - done.
Qed.


Lemma wikitext_yields_at_most_one self row :
  (length (yielded
     (let toks := Py.strip row in
      if negb (Py.str_truthy toks) then gen_done
      else
        match _atomic_tokenize toks UNK_TOK_ATOMIC
                [UNK_TOK_ALLENNLP; "<unk>"] (max_seq_len self) with
        | Raise e => gen_raise e
        | Ok sent =>
            if (2 <=? Py.count "=" sent)%nat then gen_done
            else
              match min_seq_len self with
              | None => gen_raise AttributeError
              | Some min_seq_len =>
                  if (Z.of_nat (String.length toks) <? min_seq_len + 2)%Z
                  then gen_done
                  else gen_yield (Sent sent) gen_done
              end
        end : gen item)) <= 1)%nat.
Proof.
  cbv zeta. destruct (negb _); [simpl; lia|].
  destruct (_atomic_tokenize _ _ _ _); [|simpl; lia].
  destruct (2 <=? _)%nat; [simpl; lia|].
  destruct (min_seq_len self); [|simpl; lia].
  destruct (_ <? _); simpl; lia.
Qed.

Lemma omap_length_le {A B} (f : A -> option B) (l : list A) :
  (length (omap f l) <= length l)%nat.
Proof.
  induction l as [|x l IH]; [simpl; lia|].
  change (omap f (x :: l))
    with (match f x with Some y => y :: omap f l | None => omap f l end).
  destruct (f x); simpl; lia.
Qed.

Lemma wiki103_pairs_of_rows self fs path rows indexers :
  fs path = Some rows ->
  (length (yielded
     (Wiki103Classification_process_split
        (sents_of (Wiki103Classification_load_data self fs path))
        indexers)) <= length rows - 1)%nat.
Proof.
  intros Hfs.
  assert (Hlen : (length (yielded
            (sents_of (Wiki103Classification_load_data self fs path)))
          <= length rows)%nat).
  { unfold sents_of. simpl.
    etransitivity; [apply omap_length_le|].
    unfold Wiki103Classification_load_data, WikiTextLMTask_load_data,
      for_rows.
    rewrite Hfs. apply gen_for_length_le. intros row.
    apply wikitext_yields_at_most_one. }
  unfold Wiki103Classification_process_split.
  destruct (yielded (sents_of _)) as [|first rest]; simpl in *; [lia|].
  rewrite pair_with_previous_length. lia.
Qed.

(** [Wiki103Classification.count_examples] records for a split the
    number of lines of its file less one, which is [-1] for an empty
    file; the instances that [process_split] makes of the sentences
    loaded from that file are never more than that count, and never
    fewer than none. *)
Theorem wiki103_classification_count_bounds_instances
    (self : StreamTask) (fs : FileSystem) (counts : Py.dict Z)
    (split path : string) (indexers : Indexers) :
  List.NoDup (Py.dict_keys (files_by_split self)) ->
  Wiki103Classification_count_examples self fs = Ok counts ->
  Py.dict_get (files_by_split self) split = Some path ->
  exists rows,
    fs path = Some rows
    /\ Py.dict_get counts split = Some (Z.of_nat (length rows) - 1)
    /\ Z.of_nat
         (length (yielded
            (Wiki103Classification_process_split
               (sents_of (Wiki103Classification_load_data self fs path))
               indexers)))
       <= Z.max 0 (Z.of_nat (length rows) - 1).
Proof.
  intros Hnd Hcount Hpath.
  destruct (count_lines_spec fs (-1) _ [] counts Hnd Hcount) as [Hin _].
  destruct (Hin split path (dict_get_In _ _ _ Hpath)) as (rows & Hfs & Hget).
  exists rows. split; [exact Hfs|]. split; [exact Hget|].
  pose proof (wiki103_pairs_of_rows self fs path rows indexers Hfs) as Hle.
  lia.
Qed.





Lemma restore_first_lookup first atomic_tok (sent : list string) (i : nat) t :
  sent !! i = Some t ->
  map (fun t => if String.eqb t atomic_tok then first else t) sent !! i
  = Some (if String.eqb t atomic_tok then first else t).
Proof.
  revert i. induction sent as [|x sent IH]; intros i Hi; [discriminate Hi|].
  destruct i as [|i]; simpl in *; [by injection Hi as -> | by apply IH].
Qed.

(** With a list of nonatomic tokens whose first element differs from
    the placeholder, [_atomic_tokenize] returns; its result is, token
    for token, what [process_sentence] made of the text in which the
    nonatomic tokens were replaced, with the first nonatomic token in
    the place of every placeholder, so no placeholder is left. *)
Theorem atomic_tokenize_leaves_no_placeholder
    (sent atomic_tok first : string) (rest : list string) (max_seq_len : Z) :
  first <> atomic_tok ->
  let processed :=
    process_sentence (replace_all (first :: rest) atomic_tok sent)
      max_seq_len SOS_TOK EOS_TOK in
  exists out,
    _atomic_tokenize sent atomic_tok (first :: rest) max_seq_len = Ok out
    /\ length out = length processed
    /\ ~ In atomic_tok out
    /\ forall (i : nat) t, processed !! i = Some t ->
         out !! i = Some (if String.eqb t atomic_tok then first else t).
Proof.
  intros Hne processed. unfold _atomic_tokenize.
  rewrite StreamFacts.restore_first_map. fold processed.
  eexists. split; [reflexivity|]. split; [apply length_map|]. split.
  - intros Hin. apply in_map_iff in Hin. destruct Hin as (t & Ht & _).
    destruct (String.eqb_spec t atomic_tok); congruence.
  - intros i t Hi. by apply restore_first_lookup.
Qed.

Lemma restore_first_nil atomic_tok (sent : list string) :
  restore_first [] atomic_tok sent
  = if existsb (fun t => String.eqb t atomic_tok) sent
    then Raise IndexError else Ok sent.
Proof.
  induction sent as [|t sent IH]; simpl; [reflexivity|].
  destruct (String.eqb t atomic_tok); simpl; [reflexivity|].
  rewrite IH. by destruct (existsb _ sent).
Qed.

(** With an empty list of nonatomic tokens [_atomic_tokenize] raises
    [IndexError] exactly when a token of the processed sentence is the
    placeholder; otherwise it returns the processed sentence as it
    is. *)
Theorem atomic_tokenize_empty_list
    (sent atomic_tok : string) (max_seq_len : Z) :
  _atomic_tokenize sent atomic_tok [] max_seq_len
  = if existsb (fun t => String.eqb t atomic_tok)
         (process_sentence sent max_seq_len SOS_TOK EOS_TOK)
    then Raise IndexError
    else Ok (process_sentence sent max_seq_len SOS_TOK EOS_TOK).
Proof. unfold _atomic_tokenize. simpl. apply restore_first_nil. Qed.









End WithUtils.
End StreamMoreFacts.

(** *** The diagnostic task: one field and one metric per tag *)

Module DiagMore.
Import Allen Obj Diag DictFacts Props.

Lemma append_cancel_l (p a b : string) : p +:+ a = p +:+ b -> a = b.
Proof.
  induction p as [|c p IH]; simpl; intros Heq; [done|].
  injection Heq as Heq. by apply IH.
Qed.

Lemma create_tag_labels_tag d items arr g ix tag :
  ix <> 0 ->
  (forall ix', In (ix', tag) items -> ix' <> 0 -> ix' = ix) ->
  Py.dict_get d (g +:+ "__" +:+ tag)
  = Some (LabelField (if contains arr ix then 1 else 0)
            (g +:+ "__" +:+ tag) true)
  \/ In (ix, tag) items ->
  Py.dict_get (create_tag_labels d items arr g) (g +:+ "__" +:+ tag)
  = Some (LabelField (if contains arr ix then 1 else 0)
            (g +:+ "__" +:+ tag) true).
Proof.
  intros Hnz. revert d.
  induction items as [|[ix' tag'] items IH]; intros d Huniq Hor; simpl.
  - by destruct Hor as [Hd|[]].
  - assert (Huniq' : forall i, In (i, tag) items -> i <> 0 -> i = ix).
    { intros i Hi. apply Huniq. by right. }
    destruct (Z.eqb_spec ix' 0) as [->|Hnz'].
    + apply IH; [exact Huniq'|].
      destruct Hor as [Hd|[Heq|Hin]]; [by left | | by right].
      injection Heq as Heq _. by destruct Hnz.
    + apply IH; [exact Huniq'|].
      destruct (String.eqb_spec tag' tag) as [->|Hne].
      * left. rewrite (Huniq ix' (or_introl eq_refl) Hnz').
        apply dict_get_set_eq.
      * destruct Hor as [Hd|[Heq|Hin]]; [left | | by right].
        -- rewrite dict_get_set_ne; [exact Hd|].
           intros Heq. apply Hne.
           by apply append_cancel_l, append_cancel_l in Heq.
        -- injection Heq as _ Heq. by destruct Hne.
Qed.

Ltac skip_group :=
  rewrite DiagFacts.create_labels_get_other;
  [ | simpl; discriminate | intros ?; simpl; discriminate ].

Ltac this_group :=
  unfold create_labels_from_tags; apply create_tag_labels_tag;
  [ assumption | assumption | by right ].

(** In an instance of the diagnostic task the field of a tag is [1]
    when the index of the tag is in the row's tag array of the group
    and [0] when it is not, for each of the four groups, provided the
    table of the group gives the name of the tag to no other index. *)
Theorem diagnostic_tag_fields_mark_presence
    (nm : string) (ls ps lg kn : TagDict) (indexers : Indexers) (r : Row)
    (g : string) (items : TagDict) (arr : list Z) (ix : Z) (tag : string) :
  In (g, items, arr) (tag_groups ls ps lg kn r) ->
  In (ix, tag) items ->
  ix <> 0 ->
  (forall ix', In (ix', tag) items -> ix' <> 0 -> ix' = ix) ->
  exists d,
    _make_instance (Init.MultiNLIDiagnosticTask_init nm ls ps lg kn)
      indexers r = Ok d
    /\ Py.dict_get d (g +:+ "__" +:+ tag)
       = Some (LabelField (if contains arr ix then 1 else 0)
                 (g +:+ "__" +:+ tag) true).
Proof.
  intros Hg Hin Hnz Huniq.
  destruct (DiagFacts.diagnostic_init_fields nm ls ps lg kn)
    as (_ & _ & _ & Hls & Hps & Hlg & Hkn).
  unfold _make_instance. rewrite Hls, Hps, Hlg, Hkn. simpl.
  eexists. split; [reflexivity|].
  simpl in Hg.
  destruct Hg as [Hg|[Hg|[Hg|[Hg|[]]]]]; injection Hg as <- <- <-.
  - do 3 skip_group. this_group.
  - do 2 skip_group. this_group.
  - skip_group. this_group.
  - this_group.
Qed.

Section WithAggregators.
Context `{Aggregators}.

Lemma collect_metrics_keys self reset items g collected d :
  Metrics.collect_metrics self reset items g collected = Ok d ->
  forall k,
    In k (Py.dict_keys d)
    <-> (In k (Py.dict_keys collected)
         \/ (k = g /\ exists tag, In (0, tag) items)
         \/ (exists ix tag,
               In (ix, tag) items /\ ix <> 0 /\ k = g +:+ "__" +:+ tag)).
Proof.
  revert collected.
  induction items as [|[ix tag] items IH]; intros collected Hrun k;
    simpl in Hrun.
  - injection Hrun as <-. split; [tauto|].
    intros [Hin|[[_ (t & [])]|(i & t & [] & _)]]. exact Hin.
  - destruct (Z.eqb_spec ix 0) as [->|Hnz].
    + destruct (getattr self _) as [sc|]; simpl in Hrun; [|discriminate].
      rewrite (IH _ Hrun k). split.
      * intros [Hin|[[-> (t & Ht)]|(i & t & Ht & Hn & ->)]].
        -- apply dict_keys_set_inv in Hin. destruct Hin as [->|Hin].
           ++ right; left. split; [done|]. exists tag. by left.
           ++ by left.
        -- right; left. split; [done|]. exists t. by right.
        -- right; right. exists i, t. split; [by right | done].
      * intros [Hin|[[-> (t & [Ht|Ht])]|(i & t & [Ht|Ht] & Hn & ->)]].
        -- left. by apply dict_keys_set_in.
        -- left. apply dict_keys_set_new.
        -- right; left. split; [done|]. by exists t.
        -- injection Ht as <- _. by destruct Hn.
        -- right; right. by exists i, t.
    + destruct (getattr self _) as [sc|]; simpl in Hrun; [|discriminate].
      rewrite (IH _ Hrun k). split.
      * intros [Hin|[[-> (t & Ht)]|(i & t & Ht & Hn & ->)]].
        -- apply dict_keys_set_inv in Hin. destruct Hin as [->|Hin].
           ++ right; right. exists ix, tag. split; [by left | done].
           ++ by left.
        -- right; left. split; [done|]. exists t. by right.
        -- right; right. exists i, t. split; [by right | done].
      * intros [Hin|[[-> (t & [Ht|Ht])]|(i & t & [Ht|Ht] & Hn & ->)]].
        -- left. by apply dict_keys_set_in.
        -- injection Ht as -> _. by destruct Hnz.
        -- right; left. split; [done|]. by exists t.
        -- injection Ht as <- <-. left. apply dict_keys_set_new.
        -- right; right. by exists i, t.
Qed.

Ltac key_clash :=
  repeat match goal with
  | H : _ \/ _ |- _ => destruct H
  | H : _ /\ _ |- _ => destruct H
  | H : exists _, _ |- _ => destruct H
  | H : False |- _ => destruct H
  end;
  try eassumption; try (eexists; eassumption);
  try match goal with
      | H : @eq string _ _ |- _ => cbv in H; discriminate H
      end.

(** The dictionary that [get_metrics] of the diagnostic task returns
    has a key for every tag of a non-zero index of every table, and it
    has the key of a group exactly when the table of the group has an
    entry for the index [0]: a table without it leaves the score of the
    whole group out, although the instances carry the field of the
    group. *)
Theorem diagnostic_group_metric_needs_index_zero
    (nm : string) (ls ps lg kn : TagDict) (reset : bool) :
  exists d,
    Metrics.MultiNLIDiagnosticTask_get_metrics
      (Init.MultiNLIDiagnosticTask_init nm ls ps lg kn) reset = Ok d
    /\ forall g items, In (g, items) (group_tables ls ps lg kn) ->
         (In g (Py.dict_keys d) <-> exists tag, In (0, tag) items)
         /\ forall ix tag, In (ix, tag) items -> ix <> 0 ->
              In (g +:+ "__" +:+ tag) (Py.dict_keys d).
Proof.
  destruct (MetricsFacts.diagnostic_get_metrics_ok nm ls ps lg kn reset)
    as (d & Hd & _).
  exists d. split; [exact Hd|].
  destruct (DiagFacts.diagnostic_init_fields nm ls ps lg kn)
    as (_ & _ & _ & Hls & Hps & Hlg & Hkn).
  unfold Metrics.MultiNLIDiagnosticTask_get_metrics in Hd.
  rewrite Hls, Hps, Hlg, Hkn in Hd. simpl in Hd.
  destruct (Metrics.collect_metrics _ reset ls "lex_sem" _) as [d1|]
    eqn:H1; simpl in Hd; [|discriminate].
  destruct (Metrics.collect_metrics _ reset ps "pr_ar_str" _) as [d2|]
    eqn:H2; simpl in Hd; [|discriminate].
  destruct (Metrics.collect_metrics _ reset lg "logic" _) as [d3|]
    eqn:H3; simpl in Hd; [|discriminate].
  pose proof (collect_metrics_keys _ _ _ _ _ _ H1) as K1.
  pose proof (collect_metrics_keys _ _ _ _ _ _ H2) as K2.
  pose proof (collect_metrics_keys _ _ _ _ _ _ H3) as K3.
  pose proof (collect_metrics_keys _ _ _ _ _ _ Hd) as K4.
  intros g items Hg. simpl in Hg.
  destruct Hg as [Hg|[Hg|[Hg|[Hg|[]]]]]; injection Hg as <- <-.
  - split; [split|].
    + intros Hk. apply K4 in Hk. rewrite K3, K2, K1 in Hk. simpl in Hk.
      key_clash.
    + intros Hex. apply K4; left. apply K3; left. apply K2; left.
      apply K1. right; left. by split.
    + intros ix tag Hin Hnz. apply K4; left. apply K3; left.
      apply K2; left. apply K1. right; right. by exists ix, tag.
  - split; [split|].
    + intros Hk. apply K4 in Hk. rewrite K3, K2, K1 in Hk. simpl in Hk.
      key_clash.
    + intros Hex. apply K4; left. apply K3; left. apply K2.
      right; left. by split.
    + intros ix tag Hin Hnz. apply K4; left. apply K3; left.
      apply K2. right; right. by exists ix, tag.
  - split; [split|].
    + intros Hk. apply K4 in Hk. rewrite K3, K2, K1 in Hk. simpl in Hk.
      key_clash.
    + intros Hex. apply K4; left. apply K3. right; left. by split.
    + intros ix tag Hin Hnz. apply K4; left. apply K3.
      right; right. by exists ix, tag.
  - split; [split|].
    + intros Hk. apply K4 in Hk. rewrite K3, K2, K1 in Hk. simpl in Hk.
      key_clash.
    + intros Hex. apply K4. right; left. by split.
    + intros ix tag Hin Hnz. apply K4. right; right. by exists ix, tag.
Qed.

End WithAggregators.
End DiagMore.

(** *** The further theorems at concrete inputs *)

Module WitnessMore.
Import Allen Sample SampleMore.

Lemma two_splits_distinct : List.NoDup (Py.dict_keys edge_files).
Proof.
  constructor; [intros [Heq|[]]; discriminate Heq|].
  constructor; [intros []|constructor].
Defined.

Lemma three_splits_distinct :
  List.NoDup (Py.dict_keys (Stream.files_by_split wiki_self)).
Proof.
  constructor; [intros [Heq|[Heq|[]]]; discriminate Heq|].
  constructor; [intros [Heq|[]]; discriminate Heq|].
  constructor; [intros []|constructor].
Defined.

Lemma register_task_names_independent_witness :
  "sst" <> "cola"
  /\ (Registry.register_task "cola" "CoLA/" [] CoLATask
        (Registry.register_task "sst" "SST-2/" [] SSTTask ∅).2).2 !! "sst"
     = Some (Registry.make_entry SSTTask "SST-2/" []).
Proof.
  assert (Hne : "sst" <> "cola") by discriminate.
  split; [exact Hne|].
  exact (proj1 (RegistryMore.register_task_names_independent "sst" "cola"
                  "SST-2/" "CoLA/" [] [] SSTTask CoLATask ∅ Hne)).
Defined.

Lemma edge_init_splits_witness :
  edge_task = Ok edge_self
  /\ List.NoDup (Py.dict_keys edge_files)
  /\ Py.dict_keys (Edge._iters_by_split edge_self) = ["train"; "test"]
  /\ @Edge.get_split_text edge_self "dev" = Raise KeyError.
Proof.
  pose proof (@EdgeMore.edge_init_splits ws_utils edge_json_data "edges/spr1"
                40 "edges-spr1" (Some "labels.txt") edge_files false false
                edge_self Witness.edge_task_built two_splits_distinct)
    as (_ & Hkeys & Hsplit).
  split; [reflexivity|]. split; [exact two_splits_distinct|].
  split; [exact Hkeys|].
  apply (Hsplit "dev"). intros [Heq|[Heq|[]]]; discriminate Heq.
Defined.

Lemma edge_init_needs_every_file_witness :
  edge_task = Ok edge_self
  /\ Edge.n_classes edge_self = length (Edge.all_labels edge_self)
  /\ raised (edge_json_data edge_test_file) = None.
Proof.
  pose proof (@EdgeMore.edge_init_needs_every_file ws_utils edge_json_data
                "edges/spr1" 40 "edges-spr1" (Some "labels.txt")
                (Some edge_files) false false edge_self
                Witness.edge_task_built) as (_ & _ & Hn & Hfiles).
  split; [reflexivity|]. split; [exact Hn|].
  exact (Hfiles "test" edge_test_file eq_refl).
Defined.


Lemma edge_process_split_stops_at_bad_record_witness :
  Forall (fun r => Props.record_ok (Edge.single_sided edge_self) r = true)
    [record1]
  /\ Props.record_ok (Edge.single_sided edge_self) record3 = false
  /\ exists insts,
       @Edge.process_split ws_utils edge_self
         ([record1] ++ record3 :: [record4]) []
       = Gen insts (Some KeyError)
       /\ @Edge.process_split ws_utils edge_self [record1] []
          = Gen insts None.
Proof.
  assert (Hok : Forall
            (fun r => Props.record_ok (Edge.single_sided edge_self) r = true)
            [record1]).
  { repeat constructor. }
  split; [exact Hok|]. split; [reflexivity|].
  exact (@EdgeMore.edge_process_split_stops_at_bad_record ws_utils edge_self
           [] [record1] record3 [record4] Hok eq_refl).
Defined.

Lemma edge_span_covers_same_tokens_witness :
  0 <= fst (2, 4) < snd (2, 4)
  /\ snd (2, 4) <= Z.of_nat (length ["a"; "dog"; "ran"; "off"])
  /\ exists a b,
       Edge._make_span_field (2, 4) (MetadataField (inr "text")) 1
       = SpanField a b (MetadataField (inr "text"))
       /\ 1 <= a <= b.
Proof.
  assert (H1 : 0 <= fst (2, 4) < snd (2, 4)) by (simpl; lia).
  assert (H2 : snd (2, 4) <= Z.of_nat (length ["a"; "dog"; "ran"; "off"]))
    by (simpl; lia).
  split; [exact H1|]. split; [exact H2|].
  destruct (@EdgeMore.edge_span_covers_same_tokens ws_utils
              ["a"; "dog"; "ran"; "off"] (2, 4) (MetadataField (inr "text"))
              H1 H2) as (a & b & Hspan & Hab & _).
  exists a, b. split; [exact Hspan | exact Hab].
Defined.

Lemma edge_count_examples_witness :
  edge_task = Ok edge_self
  /\ (forall split, In split ["train"; "test"] ->
        is_Some (Py.dict_get (Edge._files_by_split edge_self) split))
  /\ exists counts,
       Base.EdgeProbingTask_count_examples edge_self ["train"; "test"]
       = (counts, None)
       /\ Py.dict_get counts "train" = Some 2%nat.
Proof.
  assert (Hsplits : forall split, In split ["train"; "test"] ->
            is_Some (Py.dict_get (Edge._files_by_split edge_self) split)).
  { intros split [<-|[<-|[]]]; eexists; reflexivity. }
  split; [reflexivity|]. split; [exact Hsplits|].
  destruct (@EdgeMore.edge_count_examples ws_utils edge_json_data
              "edges/spr1" 40 "edges-spr1" (Some "labels.txt")
              (Some edge_files) false false edge_self ["train"; "test"]
              Witness.edge_task_built Hsplits) as (counts & Hrun & Hget & _).
  exists counts. split; [exact Hrun|].
  exact (Hget "train" edge_train_file (or_introl eq_refl) eq_refl).
Defined.

Lemma merge_preds_aligns_lists_witness :
  (exists ts, Preds.targets Z pred_record = Some ts /\ length ts = 2%nat)
  /\ List.NoDup (Py.dict_keys new_preds)
  /\ exists ts' top,
       Preds.merge_preds Z pred_record new_preds
       = (Preds.mkPRecord Z "a dog ran off" (Some ts') (Some top), None)
       /\ Py.dict_get top "loss" = Some 5.
Proof.
  assert (Hnd : List.NoDup (Py.dict_keys new_preds)).
  { constructor; [intros [Heq|[]]; discriminate Heq|].
    constructor; [intros []|constructor]. }
  split; [eexists; split; reflexivity|]. split; [exact Hnd|].
  destruct (PredsFacts.merge_preds_aligns_lists Z pred_record _ new_preds
              eq_refl Hnd) as (ts' & top & Hrun & _ & _ & Htop).
  { intros key val [Heq|[Heq|[]]]; [|discriminate Heq].
    injection Heq as _ <-. reflexivity. }
  exists ts', top. split; [exact Hrun|].
  apply Htop. right. left. reflexivity.
Defined.

Lemma merge_preds_rejects_misaligned_list_witness :
  (exists ts, Preds.targets Z pred_record = Some ts
              /\ length [1; 0; 1] <> length ts)
  /\ In ("labels", Preds.PredList Z [1; 0; 1])
       [("loss", Preds.PredValue Z 5);
        ("labels", Preds.PredList Z [1; 0; 1])]
  /\ snd (Preds.merge_preds Z pred_record
            [("loss", Preds.PredValue Z 5);
             ("labels", Preds.PredList Z [1; 0; 1])])
     = Some AssertionError.
Proof.
  assert (Hlen : length [1; 0; 1]
                 <> length (default [] (Preds.targets Z pred_record)))
    by discriminate.
  assert (Hin : In ("labels", Preds.PredList Z [1; 0; 1])
                  [("loss", Preds.PredValue Z 5);
                   ("labels", Preds.PredList Z [1; 0; 1])])
    by (right; left; reflexivity).
  split; [eexists; split; [reflexivity | exact Hlen]|].
  split; [exact Hin|].
  destruct (PredsFacts.merge_preds_rejects_misaligned_list Z pred_record _
              _ "labels" [1; 0; 1] eq_refl Hin Hlen)
    as (ts' & top & Hrun & _).
  rewrite Hrun. reflexivity.
Defined.

Lemma wiki103_seq2seq_follows_previous_witness :
  Stream.target_indexer wiki_self = Some (Stream.words_indexer "tokens")
  /\ length (yielded
       (StreamMore.Wiki103Seq2SeqTask_process_split wiki_self
          (Gen [(["<SOS>"; "x"; "<EOS>"], []);
                (["<SOS>"; "so"; "it"; "<EOS>"], []);
                (["<SOS>"; "goes"; "<EOS>"], [])] None) []))
     = 2%nat.
Proof.
  split; [reflexivity|].
  exact (proj1 (StreamMoreFacts.wiki103_seq2seq_follows_previous wiki_self
                  (Stream.words_indexer "tokens")
                  (Gen [(["<SOS>"; "x"; "<EOS>"], []);
                        (["<SOS>"; "so"; "it"; "<EOS>"], []);
                        (["<SOS>"; "goes"; "<EOS>"], [])] None) []
                  eq_refl)).
Defined.


Lemma wiki103_classification_count_bounds_instances_witness :
  List.NoDup (Py.dict_keys (Stream.files_by_split wiki_self))
  /\ StreamMore.Wiki103Classification_count_examples wiki_self (wiki_fs [])
     = Ok [("train", 3); ("val", 1); ("test", -1)]
  /\ Py.dict_get (Stream.files_by_split wiki_self) "test"
     = Some "wiki/test.sentences.txt"
  /\ exists rows,
       wiki_fs [] "wiki/test.sentences.txt" = Some rows
       /\ Py.dict_get [("train", 3); ("val", 1); ("test", -1)] "test"
          = Some (Z.of_nat (length rows) - 1).
Proof.
  split; [exact three_splits_distinct|]. split; [reflexivity|].
  split; [reflexivity|].
  destruct (@StreamMoreFacts.wiki103_classification_count_bounds_instances
              ws_utils wiki_self (wiki_fs []) _ "test"
              "wiki/test.sentences.txt" [] three_splits_distinct eq_refl
              eq_refl) as (rows & Hfs & Hget & _).
  exists rows. split; [exact Hfs | exact Hget].
Defined.


Lemma atomic_tokenize_leaves_no_placeholder_witness :
  UNK_TOK_ALLENNLP <> UNK_TOK_ATOMIC
  /\ exists out,
       @Stream._atomic_tokenize ws_utils "the <unk> sat" UNK_TOK_ATOMIC
         [UNK_TOK_ALLENNLP; "<unk>"] 10 = Ok out
       /\ ~ In UNK_TOK_ATOMIC out.
Proof.
  assert (Hne : UNK_TOK_ALLENNLP <> UNK_TOK_ATOMIC).
  { apply String.eqb_neq. reflexivity. }
  split; [exact Hne|].
  destruct (@StreamMoreFacts.atomic_tokenize_leaves_no_placeholder ws_utils
              "the <unk> sat" UNK_TOK_ATOMIC UNK_TOK_ALLENNLP ["<unk>"] 10
              Hne) as (out & Hrun & _ & Hnot & _).
  exists out. split; [exact Hrun | exact Hnot].
Defined.


Lemma diagnostic_tag_fields_mark_presence_witness :
  In ("lex_sem", lex_sem_table, [2])
    (Props.tag_groups lex_sem_table [] [] [] diag_row)
  /\ In (2, "quantifier") lex_sem_table
  /\ 2 <> 0
  /\ (forall ix', In (ix', "quantifier") lex_sem_table -> ix' <> 0 -> ix' = 2)
  /\ exists d,
       Diag._make_instance
         (Init.MultiNLIDiagnosticTask_init "mnli-diagnostics" lex_sem_table
            [] [] []) [] diag_row = Ok d
       /\ Py.dict_get d "lex_sem__quantifier"
          = Some (LabelField 1 "lex_sem__quantifier" true).
Proof.
  assert (Hg : In ("lex_sem", lex_sem_table, [2])
                 (Props.tag_groups lex_sem_table [] [] [] diag_row))
    by (left; reflexivity).
  assert (Hin : In (2, "quantifier") lex_sem_table)
    by (right; right; left; reflexivity).
  assert (Hnz : 2 <> 0) by discriminate.
  assert (Huniq : forall ix', In (ix', "quantifier") lex_sem_table ->
                    ix' <> 0 -> ix' = 2).
  { intros ix' [Heq|[Heq|[Heq|[]]]] _; try discriminate Heq.
    injection Heq as <-. reflexivity. }
  split; [exact Hg|]. split; [exact Hin|]. split; [exact Hnz|].
  split; [exact Huniq|].
  exact (DiagMore.diagnostic_tag_fields_mark_presence "mnli-diagnostics"
           lex_sem_table [] [] [] [] diag_row "lex_sem" lex_sem_table [2] 2
           "quantifier" Hg Hin Hnz Huniq).
Defined.

End WitnessMore.
